(** * The experiment orchestrator of ctsb (ctsb/experiments/experiment.py)

    A shallow embedding of the [Experiment] class: the instance is a record
    of its attributes (each one possibly not yet assigned), a method is a
    computation in a small monad that threads the instance, the lines it
    prints and the exception it may raise.

    The collaborators imported from modules outside the sources at hand
    ([ctsb.experiments.core], [ctsb.experiments.precomputed],
    [ctsb.experiments.new_experiment], numpy's [mean]) are the fields of an
    environment record [Env]; every statement about [Experiment] is proved
    for an arbitrary environment.

    What a method prints, the table [scoreboard] renders and the file it
    writes are recorded as the effects of the call, in order; the calls
    that [graph] makes to the plotting library are the value it returns.

    The module [rnn] embeds the prediction methods of the [RNN] model
    (ctsb/models/time_series/rnn.py) in the same way, over an arbitrary
    array library.

    Not modelled: [help] and [__str__] (no property below concerns
    them); floating point (samples, times and memory figures are carried as
    uninterpreted integers); failures of the table renderer and of the file
    system; and aliasing between the mappings handed to [initialize] (the
    problems and the models are taken to be distinct objects). *)

From Stdlib Require Import Ascii String.
From stdpp Require Import gmap strings list fin_maps pretty.

Local Open Scope Z_scope.

(** ** Python values and exceptions *)

Module Py.

Inductive exn : Type :=
| AssertionError (msg : string)
| TypeError
| ValueError
| AttributeError (attr : string)
| KeyError
| Failure (what : string).   (* whatever a collaborator raises *)

Inductive result (A : Type) : Type :=
| Ok (a : A)
| Raise (e : exn).
Global Arguments Ok {A} a.
Global Arguments Raise {A} e.

Definition rbind {A B} (r : result A) (k : A -> result B) : result B :=
  match r with
  | Ok a => k a
  | Raise e => Raise e
  end.

Definition rmap {A B} (f : A -> B) (r : result A) : result B :=
  rbind r (fun a => Ok (f a)).

(** A hyperparameter value: a class or function object, which carries a
    [__name__], or any other object, which does not. *)
Inductive hval : Type :=
| HClass (name : string)
| HObj (repr : string).

(** [v.__name__] *)
Definition dunder_name (v : hval) : result string :=
  match v with
  | HClass n => Ok n
  | HObj _ => Raise (AttributeError "__name__")
  end.

(** A measured quantity: a scalar or a series of samples. *)
Inductive value : Type :=
| VNum (x : Z)
| VSeries (xs : list Z).


(** [str(n)] for an integer. *)
Definition str (n : Z) : string := pretty n.

(** [fmt % args] with string arguments: only the conversions [%s] and
    [%%] occur in this module.  Too few or too many arguments for the
    format are a [TypeError]. *)
Fixpoint format (fmt : string) (args : list string) : result string :=
  match fmt with
  | EmptyString =>
      match args with
      | [] => Ok EmptyString
      | _ :: _ => Raise TypeError  (* not all arguments converted *)
      end
  | String c rest =>
      if Ascii.eqb c "%"%char then
        match rest with
        | EmptyString => Raise ValueError  (* incomplete format *)
        | String d rest' =>
            if Ascii.eqb d "s"%char then
              match args with
              | [] => Raise TypeError  (* not enough arguments *)
              | a :: args' => rmap (fun s => a +:+ s) (format rest' args')
              end
            else if Ascii.eqb d "%"%char then
              rmap (String "%"%char) (format rest' args)
            else Raise ValueError  (* conversion not used here *)
        end
      else rmap (String c) (format rest args)
  end.

(** *** Dictionaries whose iteration order matters

    A Python [dict] iterates in insertion order; assigning to a key that
    is present keeps its position. *)
Section ODict.
Context {V : Type}.

Definition odict := list (string * V).

Fixpoint od_get (k : string) (d : odict) : option V :=
  match d with
  | [] => None
  | (k', v) :: d' => if String.eqb k k' then Some v else od_get k d'
  end.

Definition od_mem (k : string) (d : odict) : bool :=
  match od_get k d with Some _ => true | None => false end.

Fixpoint od_set (k : string) (v : V) (d : odict) : odict :=
  match d with
  | [] => [(k, v)]
  | (k', v') :: d' =>
      if String.eqb k k' then (k, v) :: d' else (k', v') :: od_set k v d'
  end.

Definition od_keys (d : odict) : list string := map fst d.
End ODict.
Global Arguments odict : clear implicits.

(** Keyword hyperparameters of a problem or a model, and the [None] that
    stands for the defaults. *)
Abbreviation hparams := (gmap string hval).
Abbreviation params := (option (gmap string hval)).

(** What a caller may hand to [initialize] as [problems] or [models]:
    nothing, a list of ids, a mapping from ids to hyperparameters, or (as
    any Python name can be passed) a type object such as [dict]. *)
Inductive pyarg : Type :=
| ArgNone
| ArgList (ids : list string)
| ArgDict (d : odict params)
| ArgType (name : string).

(** [x is dict]: identity with the builtin type object. *)
Definition is_type_object (name : string) (x : pyarg) : bool :=
  match x with
  | ArgType n => String.eqb n name
  | _ => false
  end.

End Py.
Import Py.


(** ** The collaborators

    Functions and constants of modules that the class imports.  Their code
    is not part of the sources; the class is verified for any of them. *)

(** The results table is keyed by (metric, problem id, model id). *)
Abbreviation table := (gmap (string * string * string) value).

(** [problem_to_models]: [None] or a mapping problem id -> model ids. *)
Abbreviation restriction := (option (odict (list string))).

Record Env : Type := {
  (* ctsb.experiments.core *)
  to_dict : pyarg -> result (odict params);
  get_ids : odict params -> list string;
  run_experiment :
    string * params -> string * params -> string ->
    Z (* key *) -> Z (* timesteps *) -> bool (* verbose *) ->
    bool (* load_bar *) -> result (value * value * value);
  (* ctsb.experiments.precomputed *)
  get_timesteps : Z;
  get_key : Z;
  load_prob_model_to_result :
    list string -> list string -> restriction -> list string -> result table;
  (* ctsb.experiments.new_experiment: NewExperiment().initialize(...)
     followed by .run_all_experiments() *)
  run_all_experiments :
    odict params -> odict params -> restriction -> list string ->
    Z -> bool -> bool -> result table;
  (* numpy *)
  np_mean : value -> value
}.

(** ** The instance

    One field per attribute that the class reads or assigns; [None] is an
    attribute that has not been assigned, and reading it raises
    [AttributeError]. *)

Record Experiment : Type := {
  initialized : option bool;
  problems : option (odict params);
  models : option (odict params);
  problem_to_models : option restriction;
  metrics : option (list string);
  use_precomputed : option bool;
  timesteps : option Z;
  verbose : option bool;
  load_bar : option bool;
  n_models : option (gmap string Z);
  prob_model_to_result : option table;
  new_experiment : option unit;
  new_models : option bool
}.

(** What a method does that can be observed from outside. *)
Inductive effect : Type :=
| Print (line : string)
| PrintTable (field_names : list string) (rows : list (string * list value))
| WriteCsv (path : string) (rows : list (string * (list string + list value))).

Record outcome (A : Type) : Type := Outcome {
  res : result A;
  final : Experiment;
  effects : list effect
}.
Arguments Outcome {A} res final effects.
Arguments res {A} o.
Arguments final {A} o.
Arguments effects {A} o.

Definition M (A : Type) : Type := Experiment -> outcome A.

Definition ret {A} (a : A) : M A := fun s => Outcome (Ok a) s [].

Definition raise {A} (e : exn) : M A := fun s => Outcome (Raise e) s [].

Definition bind {A B} (m : M A) (k : A -> M B) : M B := fun s =>
  match m s with
  | Outcome (Ok a) s1 out1 =>
      match k a s1 with
      | Outcome r s2 out2 => Outcome r s2 (out1 ++ out2)
      end
  | Outcome (Raise e) s1 out1 => Outcome (Raise e) s1 out1
  end.

Notation "x <- m ;; k" := (bind m (fun x => k))
  (at level 100, m at next level, right associativity).
Notation "m ;;; k" := (bind m (fun _ => k))
  (at level 100, right associativity).

Definition lift {A} (r : result A) : M A := fun s => Outcome r s [].

Definition emit (e : effect) : M unit := fun s => Outcome (Ok tt) s [e].

Definition print (line : string) : M unit := emit (Print line).

Definition getattr {A} (name : string) (proj : Experiment -> option A) : M A :=
  fun s =>
    match proj s with
    | Some v => Outcome (Ok v) s []
    | None => Outcome (Raise (AttributeError name)) s []
    end.

Definition setattr (upd : Experiment -> Experiment) : M unit :=
  fun s => Outcome (Ok tt) (upd s) [].

Definition when (c : bool) (m : M unit) : M unit := if c then m else ret tt.

(** [try: body except: handler] with a bare [except]. *)
Definition try_except {A} (body handler : M A) : M A := fun s =>
  match body s with
  | Outcome (Ok a) s1 out1 => Outcome (Ok a) s1 out1
  | Outcome (Raise _) s1 out1 =>
      match handler s1 with
      | Outcome r s2 out2 => Outcome r s2 (out1 ++ out2)
      end
  end.

(** [for x in xs: body x] *)
Fixpoint for_each {A} (xs : list A) (body : A -> M unit) : M unit :=
  match xs with
  | [] => ret tt
  | x :: xs' => body x ;;; for_each xs' body
  end.

(** A list built by a loop that appends one computed element per item. *)
Fixpoint collect {A B} (xs : list A) (f : A -> M B) : M (list B) :=
  match xs with
  | [] => ret []
  | x :: xs' => y <- f x ;; ys <- collect xs' f ;; ret (y :: ys)
  end.

(** [self.<attribute> = v], one definition per attribute that some method
    assigns. *)

Definition set_initialized (v : bool) (s : Experiment) : Experiment :=
  {| initialized := Some v; problems := problems s; models := models s;
     problem_to_models := problem_to_models s; metrics := metrics s;
     use_precomputed := use_precomputed s; timesteps := timesteps s;
     verbose := verbose s; load_bar := load_bar s; n_models := n_models s;
     prob_model_to_result := prob_model_to_result s;
     new_experiment := new_experiment s; new_models := new_models s |}.

Definition set_problems (v : odict params) (s : Experiment) : Experiment :=
  {| initialized := initialized s; problems := Some v; models := models s;
     problem_to_models := problem_to_models s; metrics := metrics s;
     use_precomputed := use_precomputed s; timesteps := timesteps s;
     verbose := verbose s; load_bar := load_bar s; n_models := n_models s;
     prob_model_to_result := prob_model_to_result s;
     new_experiment := new_experiment s; new_models := new_models s |}.

Definition set_models (v : odict params) (s : Experiment) : Experiment :=
  {| initialized := initialized s; problems := problems s; models := Some v;
     problem_to_models := problem_to_models s; metrics := metrics s;
     use_precomputed := use_precomputed s; timesteps := timesteps s;
     verbose := verbose s; load_bar := load_bar s; n_models := n_models s;
     prob_model_to_result := prob_model_to_result s;
     new_experiment := new_experiment s; new_models := new_models s |}.

Definition set_problem_to_models (v : restriction) (s : Experiment) : Experiment :=
  {| initialized := initialized s; problems := problems s;
     models := models s; problem_to_models := Some v; metrics := metrics s;
     use_precomputed := use_precomputed s; timesteps := timesteps s;
     verbose := verbose s; load_bar := load_bar s; n_models := n_models s;
     prob_model_to_result := prob_model_to_result s;
     new_experiment := new_experiment s; new_models := new_models s |}.

Definition set_metrics (v : list string) (s : Experiment) : Experiment :=
  {| initialized := initialized s; problems := problems s;
     models := models s; problem_to_models := problem_to_models s;
     metrics := Some v; use_precomputed := use_precomputed s;
     timesteps := timesteps s; verbose := verbose s; load_bar := load_bar s;
     n_models := n_models s; prob_model_to_result := prob_model_to_result s;
     new_experiment := new_experiment s; new_models := new_models s |}.

Definition set_use_precomputed (v : bool) (s : Experiment) : Experiment :=
  {| initialized := initialized s; problems := problems s;
     models := models s; problem_to_models := problem_to_models s;
     metrics := metrics s; use_precomputed := Some v;
     timesteps := timesteps s; verbose := verbose s; load_bar := load_bar s;
     n_models := n_models s; prob_model_to_result := prob_model_to_result s;
     new_experiment := new_experiment s; new_models := new_models s |}.

Definition set_timesteps (v : Z) (s : Experiment) : Experiment :=
  {| initialized := initialized s; problems := problems s;
     models := models s; problem_to_models := problem_to_models s;
     metrics := metrics s; use_precomputed := use_precomputed s;
     timesteps := Some v; verbose := verbose s; load_bar := load_bar s;
     n_models := n_models s; prob_model_to_result := prob_model_to_result s;
     new_experiment := new_experiment s; new_models := new_models s |}.

Definition set_verbose (v : bool) (s : Experiment) : Experiment :=
  {| initialized := initialized s; problems := problems s;
     models := models s; problem_to_models := problem_to_models s;
     metrics := metrics s; use_precomputed := use_precomputed s;
     timesteps := timesteps s; verbose := Some v; load_bar := load_bar s;
     n_models := n_models s; prob_model_to_result := prob_model_to_result s;
     new_experiment := new_experiment s; new_models := new_models s |}.

Definition set_load_bar (v : bool) (s : Experiment) : Experiment :=
  {| initialized := initialized s; problems := problems s;
     models := models s; problem_to_models := problem_to_models s;
     metrics := metrics s; use_precomputed := use_precomputed s;
     timesteps := timesteps s; verbose := verbose s; load_bar := Some v;
     n_models := n_models s; prob_model_to_result := prob_model_to_result s;
     new_experiment := new_experiment s; new_models := new_models s |}.

Definition set_n_models (v : gmap string Z) (s : Experiment) : Experiment :=
  {| initialized := initialized s; problems := problems s;
     models := models s; problem_to_models := problem_to_models s;
     metrics := metrics s; use_precomputed := use_precomputed s;
     timesteps := timesteps s; verbose := verbose s; load_bar := load_bar s;
     n_models := Some v; prob_model_to_result := prob_model_to_result s;
     new_experiment := new_experiment s; new_models := new_models s |}.

Definition set_prob_model_to_result (v : table) (s : Experiment) : Experiment :=
  {| initialized := initialized s; problems := problems s;
     models := models s; problem_to_models := problem_to_models s;
     metrics := metrics s; use_precomputed := use_precomputed s;
     timesteps := timesteps s; verbose := verbose s; load_bar := load_bar s;
     n_models := n_models s; prob_model_to_result := Some v;
     new_experiment := new_experiment s; new_models := new_models s |}.

Definition set_new_experiment (v : unit) (s : Experiment) : Experiment :=
  {| initialized := initialized s; problems := problems s;
     models := models s; problem_to_models := problem_to_models s;
     metrics := metrics s; use_precomputed := use_precomputed s;
     timesteps := timesteps s; verbose := verbose s; load_bar := load_bar s;
     n_models := n_models s; prob_model_to_result := prob_model_to_result s;
     new_experiment := Some v; new_models := new_models s |}.

(** ** The class *)

(** The messages the class prints. *)
Definition warn_timesteps : string :=
  "WARNING: when using precomputed results, number of timesteps is fixed.".

Definition warn_problem_hyperparameters : string :=
  "WARNING: when using precomputed results, " +:+
  "any specified problem hyperparameters will be disregarded and default ones will be used instead.".

Definition warn_model_hyperparameters : string :=
  "WARNING: when using precomputed results, " +:+
  "any specified model hyperparameters will be disregarded and default ones will be used instead.".

Definition warn_time_comparison : string :=
  "WARNING: Time comparison between precomputed models and" +:+
  "any added model may be irrelevant due to hardware differences.".

(** The arguments of [initialize]. *)
Record InitArgs : Type := {
  arg_problems : pyarg;
  arg_models : pyarg;
  arg_problem_to_models : restriction;
  arg_metrics : list string;
  arg_use_precomputed : bool;
  arg_timesteps : Z;
  arg_verbose : bool;
  arg_load_bar : bool
}.

(** [Experiment()] *)
Definition __init__ : Experiment :=
  {| initialized := Some false; problems := None; models := None;
     problem_to_models := None; metrics := None; use_precomputed := None;
     timesteps := None; verbose := None; load_bar := None; n_models := None;
     prob_model_to_result := None; new_experiment := None;
     new_models := None |}.

Section Methods.
Variable env : Env.

Definition initialize (a : InitArgs) : M unit :=
  (* line 39: the right-hand side is evaluated before anything is assigned *)
  ps <- lift (to_dict env (arg_problems a)) ;;
  ms <- lift (to_dict env (arg_models a)) ;;
  setattr (set_problems ps) ;;;
  setattr (set_models ms) ;;;
  setattr (set_problem_to_models (arg_problem_to_models a)) ;;;
  setattr (set_metrics (arg_metrics a)) ;;;
  (* line 40 *)
  setattr (set_use_precomputed (arg_use_precomputed a)) ;;;
  setattr (set_timesteps (arg_timesteps a)) ;;;
  setattr (set_verbose (arg_verbose a)) ;;;
  setattr (set_load_bar (arg_load_bar a)) ;;;
  setattr (set_n_models ∅) ;;;
  when (arg_use_precomputed a
        && negb (arg_timesteps a =? get_timesteps env))
       (print warn_timesteps) ;;;
  if arg_use_precomputed a then
    when (is_type_object "dict" (arg_problems a))
         (print warn_problem_hyperparameters) ;;;
    when (is_type_object "dict" (arg_models a))
         (print warn_model_hyperparameters) ;;;
    self_problems <- getattr "problems" problems ;;
    self_models <- getattr "models" models ;;
    r <- lift (load_prob_model_to_result env
                 (od_keys self_problems) (od_keys self_models)
                 (arg_problem_to_models a) (arg_metrics a)) ;;
    setattr (set_prob_model_to_result r)
  else
    setattr (set_new_experiment tt) ;;;
    self_problems <- getattr "problems" problems ;;
    self_models <- getattr "models" models ;;
    r <- lift (run_all_experiments env self_problems self_models
                 (arg_problem_to_models a) (arg_metrics a) (arg_timesteps a)
                 (arg_verbose a) (arg_load_bar a)) ;;
    setattr (set_prob_model_to_result r).

(** Lines 79-80 of [add_model]: the name, explicit or taken from the
    optimizer.  ['optimizer' in None] is a [TypeError]. *)
Definition resolve_name (model_params : params) (name : option string)
  : result (option string) :=
  match name with
  | Some n => Ok (Some n)
  | None =>
      match model_params with
      | None => Raise TypeError
      | Some d =>
          match d !! "optimizer" with
          | Some opt => rmap Some (dunder_name opt)
          | None => Ok None
          end
      end
  end.

(** Lines 82-92: the id under which the new model is filed. *)
Definition derive_id (model_id : string) (name : option string) : M string :=
  self_models <- getattr "models" models ;;
  if od_mem model_id self_models then
    counts <- getattr "n_models" n_models ;;
    when (negb (bool_decide (is_Some (counts !! model_id))))
         (setattr (set_n_models (<[model_id := 0]> counts))) ;;;
    match name with
    | Some n => ret (model_id +:+ "-" +:+ n)
    | None =>
        counts <- getattr "n_models" n_models ;;
        c <- lift (match counts !! model_id with
                   | Some c => Ok c
                   | None => Raise KeyError
                   end) ;;
        setattr (set_n_models (<[model_id := c + 1]> counts)) ;;;
        counts <- getattr "n_models" n_models ;;
        c <- lift (match counts !! model_id with
                   | Some c => Ok c
                   | None => Raise KeyError
                   end) ;;
        ret (model_id +:+ "-" +:+ str c)
    end
  else ret model_id.

(** Lines 99-106: one trial, and what happens when it raises. *)
Definition trial (problem : string * params) (model : string * params)
    (metric : string) : M (value * value * value) :=
  try_except
    (v <- getattr "verbose" verbose ;;
     lb <- getattr "load_bar" load_bar ;;
     lift (run_experiment env problem model metric
             (get_key env) (get_timesteps env) v lb))
    ((* [%] binds tighter than [+]: the second literal alone is formatted *)
     tail <- lift (format "Please make sure model and problem are compatible."
                     [fst problem; fst model]) ;;
     print ("ERROR: Could not run %s on %s. " +:+ tail) ;;;
     ret (VNum 0, VNum (-1), VNum (-1))).

(** [self.models[k] = v] *)
Definition models_setitem (k : string) (v : params) : M unit :=
  self_models <- getattr "models" models ;;
  setattr (set_models (od_set k v self_models)).

(** [self.prob_model_to_result[k] = v] *)
Definition result_setitem (k : string * string * string) (v : value) : M unit :=
  r <- getattr "prob_model_to_result" prob_model_to_result ;;
  setattr (set_prob_model_to_result (<[k := v]> r)).

(** Lines 99-112: the body of the inner loop. *)
Definition add_model_step (model_id : string) (model_params : params)
    (new_id metric : string) (problem : string * params) : M unit :=
  r <- trial problem (model_id, model_params) metric ;;
  let '(loss, time, memory) := r in
  models_setitem new_id model_params ;;;
  result_setitem (metric, fst problem, new_id) loss ;;;
  result_setitem ("time", fst problem, new_id) time ;;;
  result_setitem ("memory", fst problem, new_id) memory.

(** Lines 96-112: the body of the outer loop. *)
Definition add_model_metric (model_id : string) (model_params : params)
    (new_id metric : string) : M unit :=
  self_problems <- getattr "problems" problems ;;
  for_each self_problems
    (add_model_step model_id model_params new_id metric).

(** Lines 95-112. *)
Definition add_model_loop (model_id : string) (model_params : params)
    (new_id : string) : M unit :=
  self_metrics <- getattr "metrics" metrics ;;
  for_each self_metrics (add_model_metric model_id model_params new_id).

Definition add_model (model_id : option string) (model_params : params)
    (name : option string) : M unit :=
  match model_id with
  | None => raise (AssertionError "ERROR: No Model ID given.")
  | Some model_id =>
      name <- lift (resolve_name model_params name) ;;
      new_id <- derive_id model_id name ;;
      add_model_loop model_id model_params new_id
  end.

(** Line 124: the condition of the warning, with the short-circuit of
    [and]. *)
Definition scoreboard_check (metric : string) : M bool :=
  up <- getattr "use_precomputed" use_precomputed ;;
  if up then
    if String.eqb metric "time" then getattr "new_models" new_models
    else ret false
  else ret false.

(** Lines 143-149: one row of the table, a [KeyError] when a result is
    missing. *)
Definition scoreboard_row (metric : string) (model_ids : list string)
    (problem_id : string) : M (string * list value) :=
  scores <- collect model_ids (fun model_id =>
    r <- getattr "prob_model_to_result" prob_model_to_result ;;
    match r !! (metric, problem_id, model_id) with
    | Some v => ret (np_mean env v)
    | None => raise KeyError
    end) ;;
  ret (problem_id, scores).

(** [table_dict], filled in the order of the loop. *)
Definition table_dict (model_ids : list string)
    (rows : list (string * list value))
  : odict (list string + list value) :=
  fold_left (fun d row => od_set (fst row) (inr (snd row)) d) rows
            [("Models", inl model_ids)].

Definition scoreboard (save_as : option string) (metric : string)
    (verbose : bool) : M unit :=
  c <- scoreboard_check metric ;;
  when c (print warn_time_comparison) ;;;
  when verbose (print ("Average " +:+ metric +:+ ":")) ;;;
  self_problems <- getattr "problems" problems ;;
  self_models <- getattr "models" models ;;
  let problem_ids := get_ids env self_problems in
  let model_ids := get_ids env self_models in
  let field_names := "Problems\Models" :: model_ids in
  rows <- collect problem_ids (scoreboard_row metric model_ids) ;;
  emit (PrintTable field_names rows) ;;;
  match save_as with
  | Some path => emit (WriteCsv path (table_dict model_ids rows))
  | None => ret tt
  end.

End Methods.

(** The hyperparameters [{"optimizer": SomeOptimizer}]. *)
Definition some_optimizer : params :=
  Some {["optimizer" := HClass "SomeOptimizer"]}.

(** ** A concrete environment

    Small stand-ins for the collaborators, on which the statements below are
    exercised. *)

Module Demo.

(** Modelled from the spec: the normalisation rule of the registry
    ([core.to_dict], absent from the sources).  A sequence of ids becomes
    the mapping of each id to default hyperparameters, a mapping is kept as
    it is; nothing else is accepted. *)
Definition to_dict (x : pyarg) : result (odict params) :=
  match x with
  | ArgList ids => Ok (fold_left (fun d i => od_set i None d) ids [])
  | ArgDict d => Ok d
  | ArgNone | ArgType _ => Raise TypeError
  end.

(** Modelled from the spec: the single-trial runner ([core.run_experiment],
    absent from the sources) returns a loss series with one sample per
    requested timestep, together with a time and a memory figure; a pair
    that cannot run together raises.  Here the control problem
    ["CartPole-v0"] runs with no model. *)
Definition run_experiment (problem model : string * params) (metric : string)
    (key timesteps : Z) (verbose load_bar : bool)
  : result (value * value * value) :=
  if String.eqb (fst problem) "CartPole-v0" then Raise (Failure "incompatible")
  else Ok (VSeries (replicate (Z.to_nat timesteps) 0), VNum 1, VNum 1).

Definition get_timesteps : Z := 3.
Definition get_key : Z := 0.

(** The models to run on a problem under a restriction. *)
Definition models_for (r : restriction) (model_ids : list string)
    (problem_id : string) : list string :=
  match r with
  | None => model_ids
  | Some m => default [] (od_get problem_id m)
  end.

(** Modelled from the spec: the orchestrator runs one trial per (metric,
    problem, model) triple and files the loss under the triple, the time
    and the memory under the pseudo-metrics, the sentinel (0, -1, -1) for a
    trial that fails ([NewExperiment] and the precomputed store, absent
    from the sources). *)
Definition run_all (problems models : odict params) (r : restriction)
    (metrics : list string) (timesteps : Z) : table :=
  fold_left (fun t metric =>
    fold_left (fun t problem =>
      fold_left (fun t model_id =>
        let '(loss, time, memory) :=
          match run_experiment problem
                  (model_id, default None (od_get model_id models))
                  metric get_key timesteps false false with
          | Ok r => r
          | Raise _ => (VNum 0, VNum (-1), VNum (-1))
          end in
        <[("memory", fst problem, model_id) := memory]>
          (<[("time", fst problem, model_id) := time]>
             (<[(metric, fst problem, model_id) := loss]> t)))
        (models_for r (od_keys models) (fst problem)) t)
      problems t)
    metrics ∅.

Definition np_mean (v : value) : value :=
  match v with
  | VNum x => VNum x
  | VSeries xs => VNum (foldr Z.add 0 xs `div` Z.of_nat (length xs))
  end.

Definition env : Env :=
  Build_Env
    to_dict
    od_keys
    run_experiment
    get_timesteps
    get_key
    (fun problem_ids model_ids r metrics =>
       Ok (run_all (map (fun i => (i, None)) problem_ids)
                   (map (fun i => (i, None)) model_ids) r metrics
                   get_timesteps))
    (fun problems models r metrics timesteps _ _ =>
       Ok (run_all problems models r metrics timesteps))
    np_mean.

(** [initialize(problems=problem_ids, models=model_ids, metrics=["mse"],
    use_precomputed=precomputed, timesteps=timesteps)] *)
Definition args (problem_ids model_ids : list string) (precomputed : bool)
    (timesteps : Z) : InitArgs :=
  {| arg_problems := ArgList problem_ids; arg_models := ArgList model_ids;
     arg_problem_to_models := None; arg_metrics := ["mse"];
     arg_use_precomputed := precomputed; arg_timesteps := timesteps;
     arg_verbose := true; arg_load_bar := true |}.

(** [initialize(problems={"ARMA-v0": {"p": 3}}, models={"RNN": {}},
    metrics=["mse"], use_precomputed=True, timesteps=3)] *)
Definition with_hyperparameters : InitArgs :=
  {| arg_problems := ArgDict [("ARMA-v0", Some {["p" := HObj "3"]})];
     arg_models := ArgDict [("RNN", Some ∅)];
     arg_problem_to_models := None; arg_metrics := ["mse"];
     arg_use_precomputed := true; arg_timesteps := 3;
     arg_verbose := true; arg_load_bar := true |}.

(** The instance after [initialize(problems=problem_ids, ...)]. *)
Definition experiment (problem_ids model_ids : list string)
    (precomputed : bool) (timesteps : Z) : Experiment :=
  final (initialize env (args problem_ids model_ids precomputed timesteps)
           __init__).

(** One time-series problem, the model ["RNN"], fresh results over 5
    timesteps. *)
Definition arma : Experiment := experiment ["ARMA-v0"] ["RNN"] false 5.

(** The same with a control problem that no model here runs on. *)
Definition mixed : Experiment :=
  experiment ["ARMA-v0"; "CartPole-v0"] ["RNN"] false 5.


(** One time-series problem, the model ["RNN"], precomputed results. *)
Definition frozen : Experiment := experiment ["ARMA-v0"] ["RNN"] true 3.

(** [arma] after [add_model("RNN", {})]. *)
Definition augmented : Experiment :=
  final (add_model env (Some "RNN") (Some ∅) None arma).

End Demo.


(** ** [graph]

    The calls that [graph] makes to the plotting library are its result:
    the list of them, in order.  An axis is addressed as [ax] (no cell) or
    as [ax[i, j]]; what the library does with a call, and whether it
    accepts the cell, is not modelled. *)

Inductive plt_call : Type :=
| Subplots (nrows ncols : nat)
| Plot (cell : option (nat * nat)) (loss : value) (label : string)
| PlotNoMore (cell : nat * nat)
| Legend (cell : option (nat * nat)) (loc : string) (fontsize : option nat)
| SetTitle (cell : option (nat * nat)) (title : string) (size : option nat)
| SetXLabel (cell : option (nat * nat)) (label : string)
| SetYLabel (cell : option (nat * nat)) (label : string)
| TightLayout
| Show (block : option bool)
| Pause (time : Z)
| Close
| SaveFig (path : string).

(** An element of [all_problem_info]: the problem, its results with the
    model of each, and the models. *)
Definition problem_info : Type :=
  string * list (value * string) * list string.

(** [if time:] for [None] or a number. *)
Definition truthy (time : option Z) : bool :=
  match time with
  | Some t => negb (t =? 0)
  | None => false
  end.

(** Lines 193-198: the one problem of a single plot. *)
Definition graph_single (metric : string) (info : problem_info)
  : list plt_call :=
  let '(problem, problem_result_plus_model, _) := info in
  flat_map (fun '(loss, model) =>
              [Plot None loss model; Legend None "upper left" None])
           problem_result_plus_model
  ++ [SetTitle None ("Problem:" +:+ problem) None;
      SetXLabel None "timesteps"; SetYLabel None metric].

(** Lines 209-214: one cell of the grid. *)
Definition graph_cell (metric : string) (n_problems : nat) (i j : nat)
    (info : problem_info) : list plt_call :=
  let '(problem, problem_result_plus_model, _) := info in
  map (fun '(loss, model) => Plot (Some (i, j)) loss model)
      problem_result_plus_model
  ++ [SetTitle (Some (i, j)) ("Problem:" +:+ problem) (Some 10%nat);
      Legend (Some (i, j)) "upper left" (Some (3 + 10 / n_problems)%nat);
      SetXLabel (Some (i, j)) "timesteps"; SetYLabel (Some (i, j)) metric].

(** Lines 202-214: the inner loop over the columns [js] of row [i], from
    the counter [cur_pb]; it gives the calls made and the counter, and
    stops at the first cell for which no problem is left. *)
Fixpoint graph_row (metric : string) (n_problems : nat)
    (all_problem_info : list problem_info) (i : nat) (js : list nat)
    (cur_pb : nat) : result (list plt_call * nat) :=
  match js with
  | [] => Ok ([], cur_pb)
  | j :: js' =>
      if (cur_pb =? n_problems)%nat then
        Ok ([PlotNoMore (i, j);
             Legend (Some (i, j)) "center" (Some (8 + 10 / n_problems)%nat)],
            cur_pb)
      else
        match all_problem_info !! cur_pb with
        | None => Raise (Failure "IndexError")
        | Some info =>
            rbind (graph_row metric n_problems all_problem_info i js'
                     (cur_pb + 1)%nat)
              (fun rest =>
                 Ok (graph_cell metric n_problems i j info ++ fst rest,
                     snd rest))
        end
  end.

(** Lines 201-214: the outer loop over the rows [rows]. *)
Fixpoint graph_rows (metric : string) (n_problems : nat)
    (all_problem_info : list problem_info) (rows : list nat) (ncols : nat)
    (cur_pb : nat) : result (list plt_call) :=
  match rows with
  | [] => Ok []
  | i :: rows' =>
      rbind (graph_row metric n_problems all_problem_info i (seq 0 ncols)
               cur_pb)
        (fun row =>
           rbind (graph_rows metric n_problems all_problem_info rows' ncols
                    (snd row))
             (fun rest => Ok (fst row ++ rest)))
  end.

(** Lines 190-214: the axes asked for and what is drawn on them. *)
Definition graph_draw (metric : string) (n_problems : nat)
    (all_problem_info : list problem_info) : result (list plt_call) :=
  let nrows := Nat.max (n_problems / 2) 1 in
  let ncols := (n_problems / 2 + n_problems mod 2)%nat in
  rbind
    (if (n_problems =? 1)%nat then
       match all_problem_info !! 0%nat with
       | Some info => Ok (graph_single metric info)
       | None => Raise (Failure "IndexError")
       end
     else
       graph_rows metric n_problems all_problem_info (seq 0 nrows) ncols 0)
    (fun drawn => Ok (Subplots nrows ncols :: drawn)).

(** Lines 216-226. *)
Definition graph_finish (save_as : option string) (time : option Z)
  : list plt_call :=
  [TightLayout]
  ++ (if truthy time
      then [Show (Some false); Pause (default 0 time); Close]
      else [Show None])
  ++ match save_as with
     | Some path => [SaveFig path]
     | None => []
     end.

Section Graph.
Variable env : Env.

(** Lines 183-188: what is gathered for one problem, a [KeyError] when a
    result is missing.  The list [model_list], to which the loop appends
    every model id, is [model_ids] when the loop has run. *)
Definition graph_problem_info (metric : string) (model_ids : list string)
    (problem_id : string) : M problem_info :=
  problem_result_plus_model <- collect model_ids (fun model_id =>
    r <- getattr "prob_model_to_result" prob_model_to_result ;;
    match r !! (metric, problem_id, model_id) with
    | Some loss => ret (loss, model_id)
    | None => raise KeyError
    end) ;;
  ret (problem_id, problem_result_plus_model, model_ids).

Definition graph (problem_ids : option (list string))
    (save_as : option string) (metric : string) (time : option Z)
  : M (list plt_call) :=
  self_metrics <- getattr "metrics" metrics ;;
  if existsb (String.eqb metric) self_metrics then
    problem_ids <- match problem_ids with
                   | None =>
                       self_problems <- getattr "problems" problems ;;
                       ret (get_ids env self_problems)
                   | Some ids => ret ids
                   end ;;
    self_models <- getattr "models" models ;;
    let model_ids := get_ids env self_models in
    let n_problems := length problem_ids in
    all_problem_info <-
      collect problem_ids (graph_problem_info metric model_ids) ;;
    drawn <- lift (graph_draw metric n_problems all_problem_info) ;;
    ret (drawn ++ graph_finish save_as time)
  else raise (AssertionError "").

End Graph.

(** * The recurrent network model (ctsb/models/time_series/rnn.py)

    The methods [__init__], [to_ndarray], [predict] and [forecast] of the
    class [RNN], with the functions [_update_x] and [_fast_predict] that
    [initialize] defines.  The operations of the array library (jax) are
    the fields of a record [Numpy] over an arbitrary type of arrays; those
    that can refuse their arguments (shapes that do not fit, [float] of an
    array with more than one element) return a [result].

    An argument [x] stands for [np.asarray(x)].  The two function-valued
    attributes hold any function of the right arity; a call of
    [self._update_x] hands it the attribute [n] of the instance, which the
    function of lines 51-54 reads when it runs.  Only the attributes that
    these methods read or assign are fields of the instance.

    Not modelled: [initialize] and [update], whose collaborators
    ([generate_key], [glorot], [_store_optimizer], the optimizer) are not
    among the sources, and [help]. *)

Module rnn.
Section Model.
Variables array pyfloat : Type.

Record Numpy : Type := {
  dot : array -> array -> result array;
  add : array -> array -> result array;
  tanh : array -> array;
  roll : array -> Z -> array;
  (** [jax.ops.index_update(a, jax.ops.index[0,:], x)] *)
  index_update : array -> array -> result array;
  ndim : array -> nat;
  (** [x[None]] *)
  expand : array -> array;
  float : array -> result pyfloat
}.

Variable np : Numpy.

(** The list [[W_h, W_x, W_out, b_h]]. *)
Definition weights : Type := (array * array * array * array)%type.

Record RNN : Type := {
  initialized : option bool;
  uses_regressors : option bool;
  n : option Z;
  m : option Z;
  params : option weights;
  hid : option array;
  x : option array;
  _update_x : option (option Z -> array -> array -> result array);
  _fast_predict : option (weights -> array -> array -> result (array * array))
}.

(** A method: the value returned or the exception raised, and the instance
    afterwards. *)
Definition M (A : Type) : Type := RNN -> result A * RNN.

Definition ret {A} (a : A) : M A := fun self => (Ok a, self).

Definition raise {A} (e : exn) : M A := fun self => (Raise e, self).

Definition bind {A B} (c : M A) (k : A -> M B) : M B :=
  fun self =>
    match c self with
    | (Ok a, self') => k a self'
    | (Raise e, self') => (Raise e, self')
    end.

Definition lift {A} (r : result A) : M A := fun self => (r, self).

Definition getattr {A} (name : string) (proj : RNN -> option A) : M A :=
  fun self =>
    match proj self with
    | Some v => (Ok v, self)
    | None => (Raise (AttributeError name), self)
    end.

Definition setattr (upd : RNN -> RNN) : M unit := fun self => (Ok tt, upd self).

Definition set_x (v : array) (self : RNN) : RNN :=
  {| initialized := initialized self; uses_regressors := uses_regressors self;
     n := n self; m := m self; params := params self; hid := hid self;
     x := Some v; _update_x := _update_x self;
     _fast_predict := _fast_predict self |}.

Definition set_hid (v : array) (self : RNN) : RNN :=
  {| initialized := initialized self; uses_regressors := uses_regressors self;
     n := n self; m := m self; params := params self; hid := Some v;
     x := x self; _update_x := _update_x self;
     _fast_predict := _fast_predict self |}.

(** Lines 21-23. *)
Definition __init__ : RNN :=
  {| initialized := Some false; uses_regressors := Some true;
     n := None; m := None; params := None; hid := None; x := None;
     _update_x := None; _fast_predict := None |}.

(** Lines 51-54: the function that [initialize] stores as [_update_x]. *)
Definition update_x (self_n : option Z) (self_x v : array) : result array :=
  match self_n with
  | None => Raise (AttributeError "n")
  | Some n => index_update np (roll np self_x n) v
  end.

(** Lines 57-61: the function that [initialize] stores as
    [_fast_predict]. *)
Definition fast_predict (params : weights) (v hid : array)
  : result (array * array) :=
  let '(W_h, W_x, W_out, b_h) := params in
  rbind (dot np W_h hid) (fun a =>
  rbind (dot np W_x v) (fun b =>
  rbind (add np a b) (fun c =>
  rbind (add np c b_h) (fun d =>
  let next_hid := tanh np d in
  rbind (dot np W_out next_hid) (fun y =>
  Ok (y, next_hid)))))).

(** Lines 83-86. *)
Definition to_ndarray (v : array) : array :=
  if (ndim np v =? 0)%nat then expand np v else v.

(** Lines 98-101 and 116-119, which [predict] and [forecast] share: the
    window and the hidden state advance by the observation, and the output
    of the network is returned. *)
Definition observe (v : array) : M array :=
  let v := to_ndarray v in
  bind (getattr "_update_x" _update_x) (fun update =>
  bind (getattr "x" x) (fun self_x =>
  bind (fun self => (update (n self) self_x v, self)) (fun new_x =>
  bind (setattr (set_x new_x)) (fun _ =>
  bind (getattr "_fast_predict" _fast_predict) (fun predict =>
  bind (getattr "params" params) (fun self_params =>
  bind (getattr "hid" hid) (fun self_hid =>
  bind (lift (predict self_params v self_hid)) (fun out =>
  bind (setattr (set_hid (snd out))) (fun _ =>
  ret (fst out)))))))))).

Definition predict (v : array) (timeline : Z) : M array :=
  bind (getattr "initialized" initialized) (fun init =>
  if init : bool then observe v
  else raise (AssertionError "")).

(** An element of the list that [forecast] returns. *)
Inductive prediction : Type :=
| PFloat (f : pyfloat)
| PArray (a : array).

(** Lines 122-125 and 129-132: the element appended for the output [v]. *)
Definition as_prediction (v : array) : M prediction :=
  bind (getattr "m" m) (fun self_m =>
  if self_m =? 1 then bind (lift (float np v)) (fun f => ret (PFloat f))
  else ret (PArray v)).

(** Lines 127-132: the loop, with [steps] iterations left. *)
Fixpoint forecast_loop (steps : nat) (v hid : array) (pred : list prediction)
  : M (list prediction) :=
  match steps with
  | O => ret pred
  | S steps' =>
      bind (getattr "_fast_predict" _fast_predict) (fun predict =>
      bind (getattr "params" params) (fun self_params =>
      bind (lift (predict self_params v hid)) (fun out =>
      bind (as_prediction (fst out)) (fun p =>
      forecast_loop steps' (fst out) (snd out) (pred ++ [p])))))
  end.

Definition forecast (v : array) (timeline : Z) : M (list prediction) :=
  bind (getattr "initialized" initialized) (fun init =>
  if init : bool then
    bind (observe v) (fun v =>
    bind (getattr "hid" hid) (fun hid =>
    bind (as_prediction v) (fun p =>
    forecast_loop (Z.to_nat (timeline - 1)) v hid [p])))
  else raise (AssertionError "")).

End Model.

Arguments PFloat {array pyfloat} f.
Arguments PArray {array pyfloat} a.

End rnn.

(** ** Vocabulary of the statements *)

(** A relation between the instance before and after that every step of a
    computation maintains. *)
Definition preserves (R : relation Experiment) {A} (m : M A) : Prop :=
  forall s, R s (final (m s)).

(** The relation "the observation [f] of the instance is the same". *)
Definition keeps {X} (f : Experiment -> X) : relation Experiment :=
  fun s s' => f s' = f s.

(** The outcome [o] with [out] printed before it. *)
Definition after_effects {A} (out : list effect) (o : outcome A) : outcome A :=
  Outcome (res o) (final o) (out ++ effects o).

(** The instance after lines 39-42 of [initialize]. *)
Definition configured (a : InitArgs) (ps ms : odict params) (s : Experiment)
  : Experiment :=
  set_n_models ∅
    (set_load_bar (arg_load_bar a)
       (set_verbose (arg_verbose a)
          (set_timesteps (arg_timesteps a)
             (set_use_precomputed (arg_use_precomputed a)
                (set_metrics (arg_metrics a)
                   (set_problem_to_models (arg_problem_to_models a)
                      (set_models ms (set_problems ps s)))))))).

(** What [initialize] prints when precomputed results are asked for. *)
Definition precomputed_warnings (env : Env) (a : InitArgs) : list effect :=
  (if negb (arg_timesteps a =? get_timesteps env)
   then [Print warn_timesteps] else []) ++
  (if is_type_object "dict" (arg_problems a)
   then [Print warn_problem_hyperparameters] else []) ++
  (if is_type_object "dict" (arg_models a)
   then [Print warn_model_hyperparameters] else []).

(** The end of [initialize]: the table [r] is stored in [s], or the
    exception of the collaborator that should deliver it escapes. *)
Definition store_results (r : result table) (s : Experiment)
    (out : list effect) : outcome unit :=
  match r with
  | Ok t => Outcome (Ok tt) (set_prob_model_to_result t s) out
  | Raise e => Outcome (Raise e) s out
  end.

(** [self.prob_model_to_result.get(k)] *)
Definition lookup_result (k : string * string * string) (s : Experiment)
  : option value :=
  t ← prob_model_to_result s; t !! k.

(** The relation "every result present before is still present". *)
Definition grows : relation Experiment :=
  fun s s' => forall k, is_Some (lookup_result k s) -> is_Some (lookup_result k s').

(** The id that lines 76-92 of [add_model] arrive at from the instance [s],
    when they arrive at one. *)
Definition derived_id (model_id : option string)
    (model_params : params) (name : option string) (s : Experiment)
  : option string :=
  match model_id with
  | None => None
  | Some model_id =>
      match res ((name <- lift (resolve_name model_params name) ;;
                  derive_id model_id name) s) with
      | Ok new_id => Some new_id
      | Raise _ => None
      end
  end.

(** An instance on which [initialize] has assigned the attributes that
    [add_model] reads. *)
Definition ready (ps : odict params) (ms : list string) (v lb : bool)
    (s : Experiment) : Prop :=
  problems s = Some ps /\ metrics s = Some ms /\
  verbose s = Some v /\ load_bar s = Some lb /\
  is_Some (models s) /\ is_Some (prob_model_to_result s).

(** The trial that [add_model] runs for a metric and a problem returns. *)
Definition trial_ok (env : Env) (model_id : string) (model_params : params)
    (v lb : bool) (metric : string) (problem : string * params) : bool :=
  match run_experiment env problem (model_id, model_params) metric
          (get_key env) (get_timesteps env) v lb with
  | Ok _ => true
  | Raise _ => false
  end.

Definition all_trials_ok (env : Env) (model_id : string)
    (model_params : params) (v lb : bool) (ms : list string)
    (ps : odict params) : bool :=
  forallb (fun metric => forallb (trial_ok env model_id model_params v lb metric) ps) ms.

Definition is_mapping (x : pyarg) : bool :=
  match x with
  | ArgDict _ => true
  | _ => false
  end.

(** The arguments [a] with another [timesteps]. *)
Definition with_timesteps (t : Z) (a : InitArgs) : InitArgs :=
  {| arg_problems := arg_problems a; arg_models := arg_models a;
     arg_problem_to_models := arg_problem_to_models a;
     arg_metrics := arg_metrics a;
     arg_use_precomputed := arg_use_precomputed a; arg_timesteps := t;
     arg_verbose := arg_verbose a; arg_load_bar := arg_load_bar a |}.

(** The instances that calls of the methods lead to, starting from
    [Experiment()]. *)
Inductive reachable (env : Env) : Experiment -> Prop :=
| reach_init : reachable env __init__
| reach_initialize a s :
    reachable env s -> reachable env (final (initialize env a s))
| reach_add_model model_id model_params name s :
    reachable env s ->
    reachable env (final (add_model env model_id model_params name s))
| reach_scoreboard save_as metric v s :
    reachable env s ->
    reachable env (final (scoreboard env save_as metric v s)).

(** [add_model(model_id, name=name)], the parameters left out, raises a
    [TypeError] and adds no result. *)
Definition rejects_omitted_params (env : Env) (s : Experiment)
    (model_id : string) (name : option string) : Prop :=
  let o := add_model env (Some model_id) None name s in
  res o = Raise TypeError /\
  prob_model_to_result (final o) = prob_model_to_result s.

(** The instance after a pass through the body of the inner loop whose
    trial returned. *)
Definition stored (new_id : string) (model_params : params) (metric : string)
    (problem_id : string) (r : value * value * value) (mo : odict params)
    (t : table) (s : Experiment) : Experiment :=
  set_prob_model_to_result
    (<[("memory", problem_id, new_id) := r.2]>
       (<[("time", problem_id, new_id) := r.1.2]>
          (<[(metric, problem_id, new_id) := r.1.1]> t)))
    (set_models (od_set new_id model_params mo) s).

(** Under the id [new_id] the instance has a loss, a time and a memory
    figure for every metric of [ms] and every problem of [ps]. *)
Definition files_all (new_id : string) (ms : list string) (ps : odict params)
    (s : Experiment) : Prop :=
  forall metric problem, metric ∈ ms -> problem ∈ ps ->
    is_Some (lookup_result (metric, fst problem, new_id) s) /\
    is_Some (lookup_result ("time", fst problem, new_id) s) /\
    is_Some (lookup_result ("memory", fst problem, new_id) s).

(** *** The key of a new model, in the words of the specification

    "Reuse [model_id] as-is if never seen before; otherwise, if [name] is
    resolvable (explicitly given, or inferred from an [optimizer]
    hyperparameter's identifying name) append [model_id + "-" + name];
    otherwise append [model_id + "-" + <incrementing counter>]." *)



Definition spec_key (seen : bool) (model_id : string) (name : option string)
    (count : Z) : string :=
  if seen then
    match name with
    | Some n => model_id +:+ "-" +:+ n
    | None => model_id +:+ "-" +:+ str (count + 1)
    end
  else model_id.

(** The duplicate counters after the key has been derived. *)
Definition counted (model_id : string) (cs : gmap string Z) : gmap string Z :=
  match cs !! model_id with
  | Some _ => cs
  | None => <[model_id := 0]> cs
  end.

Definition next_counts (seen : bool) (model_id : string)
    (name : option string) (cs : gmap string Z) : gmap string Z :=
  if seen then
    match name with
    | Some _ => counted model_id cs
    | None => <[model_id := default 0 (cs !! model_id) + 1]> cs
    end
  else cs.

(** The relation "every model present before is still present". *)
Definition models_grow : relation Experiment :=
  fun s s' => forall mo k, models s = Some mo -> od_mem k mo = true ->
    exists mo', models s' = Some mo' /\ od_mem k mo' = true.




(** ** Further vocabulary *)

(** A computation that prints nothing, whatever its outcome. *)
Definition silent {A} (m : M A) : Prop := forall s, effects (m s) = [].

(** The results table has, for every metric of the experiment, every
    problem and every model, a loss, a time and a memory entry: what
    [scoreboard] and [graph] look up. *)
Definition complete (s : Experiment) : Prop :=
  forall ps ms mo, problems s = Some ps -> metrics s = Some ms ->
    models s = Some mo ->
    forall metric p k, metric ∈ ms -> p ∈ od_keys ps -> k ∈ od_keys mo ->
      is_Some (lookup_result (metric, p, k) s) /\
      is_Some (lookup_result ("time", p, k) s) /\
      is_Some (lookup_result ("memory", p, k) s).

(** The relation "the models are as they were, or [k] has been set to
    [v] among them". *)
Definition registers (k : string) (v : params) : relation Experiment :=
  fun s s' => forall mo, models s = Some mo ->
    models s' = Some mo \/ models s' = Some (od_set k v mo).

(** An environment whose precomputed store cannot be read. *)
Definition offline_env : Env :=
  Build_Env
    Demo.to_dict
    od_keys
    Demo.run_experiment
    Demo.get_timesteps
    Demo.get_key
    (fun _ _ _ _ => Raise (Failure "no precomputed results"))
    (fun problems models r metrics timesteps _ _ =>
       Ok (Demo.run_all problems models r metrics timesteps))
    Demo.np_mean.

(** [self.models.get(k)] *)
Definition lookup_model (k : string) (s : Experiment) : option params :=
  mo ← models s; od_get k mo.

#[global] Instance hval_eq_dec : EqDecision hval.
Proof. solve_decision. Defined.

(** An environment whose runner reports, as the time of a trial, the
    length of the metric's name: trials of different metrics are told
    apart by their time. *)
Definition timed_env : Env :=
  Build_Env
    Demo.to_dict
    od_keys
    (fun problem model metric key timesteps verbose load_bar =>
       Ok (VSeries (replicate (Z.to_nat timesteps) 0),
           VNum (Z.of_nat (String.length metric)), VNum 7))
    Demo.get_timesteps
    Demo.get_key
    (fun problem_ids model_ids r metrics =>
       Ok (Demo.run_all (map (fun i => (i, None)) problem_ids)
             (map (fun i => (i, None)) model_ids) r metrics
             Demo.get_timesteps))
    (fun problems models r metrics timesteps _ _ =>
       Ok (Demo.run_all problems models r metrics timesteps))
    Demo.np_mean.

(** [initialize(problems=["ARMA-v0"], models=["RNN"], metrics=["mse",
    "rmse"], use_precomputed=False, timesteps=5)] in that environment. *)
Definition two_metrics : Experiment :=
  final (initialize timed_env
           {| arg_problems := ArgList ["ARMA-v0"];
              arg_models := ArgList ["RNN"];
              arg_problem_to_models := None; arg_metrics := ["mse"; "rmse"];
              arg_use_precomputed := false; arg_timesteps := 5;
              arg_verbose := true; arg_load_bar := true |} __init__).

(** *** The rows of the scoreboard, as a function of the table

    [None] when an entry is missing. *)

Definition expected_scores (env : Env) (metric : string) (t : table)
    (model_ids : list string) (problem_id : string) : option (list value) :=
  mapM (fun model_id => np_mean env <$> t !! (metric, problem_id, model_id))
       model_ids.

Definition expected_rows (env : Env) (metric : string) (t : table)
    (problem_ids model_ids : list string)
  : option (list (string * list value)) :=
  mapM (fun problem_id =>
          pair problem_id
            <$> expected_scores env metric t model_ids problem_id)
       problem_ids.

(** What [scoreboard] prints and writes when it finds every entry. *)
Definition scoreboard_output (metric : string) (verbose : bool)
    (save_as : option string) (model_ids : list string)
    (rows : list (string * list value)) : list effect :=
  (if verbose then [Print ("Average " +:+ metric +:+ ":")] else []) ++
  [PrintTable ("Problems\Models" :: model_ids) rows] ++
  match save_as with
  | Some path => [WriteCsv path (table_dict model_ids rows)]
  | None => []
  end.

(** The rows [rows] give, problem by problem and model by model in the
    order of the ids, the mean of the entry of the table [t]. *)
Definition rows_of_means (env : Env) (metric : string) (t : table)
    (problem_ids model_ids : list string)
    (rows : list (string * list value)) : Prop :=
  Forall2 (fun p row =>
             fst row = p /\
             Forall2 (fun k score =>
                        exists x, t !! (metric, p, k) = Some x /\
                                  score = np_mean env x)
                     model_ids (snd row))
          problem_ids rows.

(** *** The figure of [graph] *)

(** The panels that a sequence of plotting calls draws: for each title
    set, in order, the title with the curves (loss and label) plotted
    since the title before it.  The marker of an exhausted row is not a
    curve. *)
Fixpoint panels_from (curves : list (value * string)) (calls : list plt_call)
  : list (string * list (value * string)) :=
  match calls with
  | [] => []
  | Plot _ loss label :: calls' =>
      panels_from (curves ++ [(loss, label)]) calls'
  | SetTitle _ title _ :: calls' => (title, curves) :: panels_from [] calls'
  | _ :: calls' => panels_from curves calls'
  end.

Definition panels (calls : list plt_call)
  : list (string * list (value * string)) :=
  panels_from [] calls.

(** The number of axes that [graph] asks for with [n] problems. *)
Definition axes (n : nat) : nat :=
  (Nat.max (n / 2) 1 * (n / 2 + n mod 2))%nat.

(** The problems that [graph] is to show. *)
Definition shown_problems (env : Env) (problem_ids : option (list string))
    (ps : odict params) : list string :=
  default (get_ids env ps) problem_ids.

(** The panels [ps] show, problem by problem in the order of
    [problem_ids], the problem in the title and one curve per model in the
    order of [model_ids]: the entry of the table [t], labelled with the
    model. *)
Definition panels_of_table (metric : string) (t : table)
    (problem_ids model_ids : list string)
    (ps : list (string * list (value * string))) : Prop :=
  Forall2 (fun p panel =>
             fst panel = "Problem:" +:+ p /\
             Forall2 (fun k curve =>
                        t !! (metric, p, k) = Some (fst curve) /\
                        snd curve = k)
                     model_ids (snd panel))
          problem_ids ps.

(** What [graph] gathers, as a function of the table; [None] when an
    entry is missing. *)
Definition expected_results (metric : string) (t : table)
    (model_ids : list string) (problem_id : string)
  : option (list (value * string)) :=
  mapM (fun model_id =>
          (fun loss => (loss, model_id)) <$> t !! (metric, problem_id, model_id))
       model_ids.

Definition expected_info (metric : string) (t : table)
    (problem_ids model_ids : list string) : option (list problem_info) :=
  mapM (fun problem_id =>
          (fun results => (problem_id, results, model_ids))
            <$> expected_results metric t model_ids problem_id)
       problem_ids.

Definition panel_of_info (info : problem_info)
  : string * list (value * string) :=
  ("Problem:" +:+ fst (fst info), snd (fst info)).

(** [initialize(problems=problem_ids, models=["RNN", "LSTM"],
    metrics=["mse"], use_precomputed=False, timesteps=2)] *)
Definition compared (problem_ids : list string) : Experiment :=
  Demo.experiment problem_ids ["RNN"; "LSTM"] false 2.

(** *** Instances of the recurrent network *)

(** An array library of single numbers, with the identity for the
    activation: enough to run the methods. *)
Definition scalars : rnn.Numpy Z Z :=
  rnn.Build_Numpy Z Z
    (fun a b => Ok (a * b))
    (fun a b => Ok (a + b))
    (fun a => a)
    (fun a _ => a)
    (fun _ v => Ok v)
    (fun _ => 1%nat)
    (fun a => a)
    (fun a => Ok a).

(** An instance with the attributes that [initialize(n=1, m=m, ...)]
    assigns, for the weights [params]. *)
Definition initialized_rnn (m : Z) (params : rnn.weights Z) : rnn.RNN Z :=
  rnn.Build_RNN Z (Some true) (Some true) (Some 1) (Some m) (Some params)
    (Some 0) (Some 0)
    (Some (rnn.update_x Z Z scalars))
    (Some (rnn.fast_predict Z Z scalars)).

(** The element that [forecast] appends for the output [y] when [m] is
    the output dimension: the conversion [f] of [y] to a float for
    dimension 1, [y] itself otherwise. *)
Definition appended {array pyfloat} (np : rnn.Numpy array pyfloat) (m : Z)
    (y : array) (p : rnn.prediction array pyfloat) : Prop :=
  if decide (m = 1)
  then exists f, rnn.float array pyfloat np y = Ok f /\ p = rnn.PFloat f
  else p = rnn.PArray y.

(** A computation that leaves the instance as it is. *)
Definition pure_rnn {array A} (c : rnn.M array A) : Prop :=
  forall self, snd (c self) = self.

(** * Properties *)

(** ** Running a computation *)

Lemma bind_pure {A B} (m : M A) (k : A -> M B) s a s1 :
  m s = Outcome (Ok a) s1 [] -> bind m k s = k a s1.
Proof. intros Hm. unfold bind. rewrite Hm. by destruct (k a s1). Qed.

Lemma bind_raises {A B} (m : M A) (k : A -> M B) s e s1 out :
  m s = Outcome (Raise e) s1 out -> bind m k s = Outcome (Raise e) s1 out.
Proof. intros Hm. unfold bind. by rewrite Hm. Qed.

Lemma bind_ret {A B} (a : A) (k : A -> M B) s : bind (ret a) k s = k a s.
Proof. by apply bind_pure. Qed.

Lemma bind_lift_ok {A B} (a : A) (k : A -> M B) s :
  bind (lift (Ok a)) k s = k a s.
Proof. by apply bind_pure. Qed.

Lemma bind_lift_raise {A B} e (k : A -> M B) s :
  bind (lift (Raise e)) k s = Outcome (Raise e) s [].
Proof. reflexivity. Qed.

Lemma bind_setattr {B} upd (k : unit -> M B) s :
  bind (setattr upd) k s = k tt (upd s).
Proof. by apply bind_pure. Qed.

Lemma bind_getattr {A B} name (proj : Experiment -> option A)
    (k : A -> M B) s v :
  proj s = Some v -> bind (getattr name proj) k s = k v s.
Proof. intros H. apply bind_pure. unfold getattr. by rewrite H. Qed.

Lemma bind_emit {B} e (k : unit -> M B) s :
  bind (emit e) k s = after_effects [e] (k tt s).
Proof. unfold bind, emit, after_effects. by destruct (k tt s). Qed.

Lemma bind_print {B} line (k : unit -> M B) s :
  bind (print line) k s = after_effects [Print line] (k tt s).
Proof. apply bind_emit. Qed.

Lemma bind_assoc {A B C} (m : M A) (k : A -> M B) (k' : B -> M C) s :
  bind (bind m k) k' s = bind m (fun a => bind (k a) k') s.
Proof.
  unfold bind. destruct (m s) as [[a|e] s1 out1]; [|done].
  destruct (k a s1) as [[b|e] s2 out2]; [|done].
  destruct (k' b s2) as [r s3 out3]. by rewrite app_assoc.
Qed.

Lemma final_bind {A B} (m : M A) (k : A -> M B) s a s1 out1 :
  m s = Outcome (Ok a) s1 out1 -> final (bind m k s) = final (k a s1).
Proof. intros Hm. unfold bind. rewrite Hm. by destruct (k a s1). Qed.

Lemma getattr_unset {A} name (proj : Experiment -> option A) s :
  proj s = None ->
  getattr name proj s = Outcome (Raise (AttributeError name)) s [].
Proof. intros H. unfold getattr. by rewrite H. Qed.

(** ** Relations that every step of a method maintains *)

Section Preserves.
Variable R : relation Experiment.
Hypothesis R_refl : forall s, R s s.
Hypothesis R_trans : forall s1 s2 s3, R s1 s2 -> R s2 s3 -> R s1 s3.

Lemma preserves_ret {A} (a : A) : preserves R (ret a).
Proof. intros s. apply R_refl. Qed.

Lemma preserves_raise {A} e : preserves R (@raise A e).
Proof. intros s. apply R_refl. Qed.

Lemma preserves_lift {A} (r : result A) : preserves R (lift r).
Proof. intros s. apply R_refl. Qed.

Lemma preserves_emit e : preserves R (emit e).
Proof. intros s. apply R_refl. Qed.

Lemma preserves_print line : preserves R (print line).
Proof. apply preserves_emit. Qed.

Lemma preserves_getattr {A} name (proj : Experiment -> option A) :
  preserves R (getattr name proj).
Proof. intros s. unfold getattr. destruct (proj s); apply R_refl. Qed.

Lemma preserves_setattr upd :
  (forall s, R s (upd s)) -> preserves R (setattr upd).
Proof. intros H s. apply H. Qed.

Lemma preserves_bind {A B} (m : M A) (k : A -> M B) :
  preserves R m -> (forall a, preserves R (k a)) -> preserves R (bind m k).
Proof.
  intros Hm Hk s. unfold bind. specialize (Hm s).
  destruct (m s) as [[a|e] s1 out1]; simpl in *; [|done].
  specialize (Hk a s1). destruct (k a s1) as [r s2 out2]; simpl in *.
  eapply R_trans; [exact Hm | exact Hk].
Qed.

Lemma preserves_when c m : preserves R m -> preserves R (when c m).
Proof. intros Hm. destruct c; [done | apply preserves_ret]. Qed.

Lemma preserves_try_except {A} (body handler : M A) :
  preserves R body -> preserves R handler ->
  preserves R (try_except body handler).
Proof.
  intros Hb Hh s. unfold try_except. specialize (Hb s).
  destruct (body s) as [[a|e] s1 out1]; simpl in *; [done|].
  specialize (Hh s1). destruct (handler s1) as [r s2 out2]; simpl in *.
  eapply R_trans; [exact Hb | exact Hh].
Qed.

Lemma preserves_for_each {A} (xs : list A) body :
  (forall x, preserves R (body x)) -> preserves R (for_each xs body).
Proof.
  intros Hb. induction xs as [|x xs IH]; simpl.
  - apply preserves_ret.
  - apply preserves_bind; [apply Hb | intros _; exact IH].
Qed.

Lemma preserves_collect {A B} (xs : list A) (f : A -> M B) :
  (forall x, preserves R (f x)) -> preserves R (collect xs f).
Proof.
  intros Hf. induction xs as [|x xs IH]; simpl.
  - apply preserves_ret.
  - apply preserves_bind; [apply Hf | intros y].
    apply preserves_bind; [exact IH | intros ys; apply preserves_ret].
Qed.

End Preserves.

Lemma keeps_refl {X} (f : Experiment -> X) s : keeps f s s.
Proof. reflexivity. Qed.

Lemma keeps_trans {X} (f : Experiment -> X) s1 s2 s3 :
  keeps f s1 s2 -> keeps f s2 s3 -> keeps f s1 s3.
Proof. unfold keeps. congruence. Qed.

Lemma grows_refl s : grows s s.
Proof. by intros k. Qed.

Lemma grows_trans s1 s2 s3 : grows s1 s2 -> grows s2 s3 -> grows s1 s3.
Proof. intros H12 H23 k Hk. by apply H23, H12. Qed.

(** Splits a computation into its steps, by its syntax; what is left are
    the assignments and the named sub-computations. *)
Ltac preserves_steps Hrefl Htrans :=
  repeat match goal with
    | |- preserves _ (ret _) => apply (preserves_ret _ Hrefl)
    | |- preserves _ (raise _) => apply (preserves_raise _ Hrefl)
    | |- preserves _ (lift _) => apply (preserves_lift _ Hrefl)
    | |- preserves _ (print _) => apply (preserves_print _ Hrefl)
    | |- preserves _ (emit _) => apply (preserves_emit _ Hrefl)
    | |- preserves _ (getattr _ _) => apply (preserves_getattr _ Hrefl)
    | |- preserves _ (when _ _) => apply (preserves_when _ Hrefl)
    | |- preserves _ (try_except _ _) => apply (preserves_try_except _ Htrans)
    | |- preserves _ (for_each _ _) =>
        apply (preserves_for_each _ Hrefl Htrans); intros ?
    | |- preserves _ (collect _ _) =>
        apply (preserves_collect _ Hrefl Htrans); intros ?
    | |- preserves _ (bind _ _) => apply (preserves_bind _ Htrans); [|intros ?]
    | |- preserves _ (match ?x with _ => _ end) => destruct x
    end.

(** The same for the relation [keeps f]. *)
Ltac keeps_steps :=
  lazymatch goal with
  | |- preserves (keeps ?f) _ => preserves_steps (keeps_refl f) (keeps_trans f)
  end.

(** Settles a closed statement about a concrete instance by evaluation. *)
Ltac by_evaluation :=
  lazymatch goal with
  | |- is_Some _ => apply is_Some_alt; vm_compute; exact I
  | |- _ ∈ _ => repeat first [apply list_elem_of_here | apply list_elem_of_further]
  | |- _ = _ => vm_compute; reflexivity
  end.

(** ** [initialize] *)

(** The whole of [initialize], as one equation. *)
Lemma initialize_run env a s :
  initialize env a s =
    match to_dict env (arg_problems a) with
    | Raise e => Outcome (Raise e) s []
    | Ok ps =>
        match to_dict env (arg_models a) with
        | Raise e => Outcome (Raise e) s []
        | Ok ms =>
            let s1 := configured a ps ms s in
            if arg_use_precomputed a then
              store_results
                (load_prob_model_to_result env (od_keys ps) (od_keys ms)
                   (arg_problem_to_models a) (arg_metrics a))
                s1 (precomputed_warnings env a)
            else
              store_results
                (run_all_experiments env ps ms (arg_problem_to_models a)
                   (arg_metrics a) (arg_timesteps a) (arg_verbose a)
                   (arg_load_bar a))
                (set_new_experiment tt s1) []
        end
    end.
Proof.
  unfold initialize.
  destruct (to_dict env (arg_problems a)) as [ps|e];
    [rewrite bind_lift_ok | by rewrite bind_lift_raise].
  destruct (to_dict env (arg_models a)) as [ms|e];
    [rewrite bind_lift_ok | by rewrite bind_lift_raise].
  rewrite !bind_setattr. fold (configured a ps ms s).
  unfold precomputed_warnings.
  destruct (arg_use_precomputed a) eqn:Hup; cbv [andb].
  - destruct (negb (arg_timesteps a =? get_timesteps env));
      destruct (is_type_object "dict" (arg_problems a));
      destruct (is_type_object "dict" (arg_models a)); unfold when;
      repeat (rewrite bind_print || rewrite bind_ret);
      (erewrite (bind_getattr "problems" problems) by reflexivity);
      (erewrite (bind_getattr "models" models) by reflexivity);
      (destruct (load_prob_model_to_result env (od_keys ps) (od_keys ms)
                   (arg_problem_to_models a) (arg_metrics a));
       [rewrite bind_lift_ok | rewrite bind_lift_raise]); reflexivity.
  - unfold when. rewrite bind_ret, bind_setattr.
    erewrite (bind_getattr "problems" problems) by reflexivity.
    erewrite (bind_getattr "models" models) by reflexivity.
    destruct (run_all_experiments env ps ms (arg_problem_to_models a)
                (arg_metrics a) (arg_timesteps a) (arg_verbose a)
                (arg_load_bar a));
      [rewrite bind_lift_ok | rewrite bind_lift_raise]; reflexivity.
Qed.

Lemma effects_store_results r s out : effects (store_results r s out) = out.
Proof. by destruct r. Qed.

Lemma warnings_differ :
  warn_timesteps <> warn_problem_hyperparameters /\
  warn_timesteps <> warn_model_hyperparameters /\
  warn_problem_hyperparameters <> warn_model_hyperparameters.
Proof.
  split_and!; intros H; apply (f_equal String.length) in H; discriminate H.
Qed.

Lemma mapping_is_no_type_object x name :
  is_mapping x = true -> is_type_object name x = false.
Proof. by destruct x. Qed.

(** What [initialize] prints, in every case. *)
Lemma initialize_effects env a s :
  effects (initialize env a s) = [] \/
  effects (initialize env a s) = precomputed_warnings env a.
Proof.
  rewrite initialize_run.
  destruct (to_dict env (arg_problems a)); [|by left].
  destruct (to_dict env (arg_models a)); [|by left].
  cbv zeta. destruct (arg_use_precomputed a);
    rewrite effects_store_results; auto.
Qed.

(** C2, what the code does instead: with [use_precomputed] true, a
    [problems] argument that is a mapping with hyperparameters does not make
    [initialize] print the warning about problem hyperparameters, and a
    [models] argument that is a mapping does not make it print the warning
    about model hyperparameters.  The tests [problems is dict] and
    [models is dict] compare with the type object, which no mapping is. *)
Theorem mapping_arguments_draw_no_warning env a s :
  arg_use_precomputed a = true ->
  (is_mapping (arg_problems a) = true ->
   Print warn_problem_hyperparameters ∉ effects (initialize env a s)) /\
  (is_mapping (arg_models a) = true ->
   Print warn_model_hyperparameters ∉ effects (initialize env a s)).
Proof.
  intros _. destruct warnings_differ as (Hp & Hm & Hpm).
  destruct (initialize_effects env a s) as [-> | ->];
    [split; intros _; apply not_elem_of_nil|].
  unfold precomputed_warnings.
  split; intros Hmap; rewrite (mapping_is_no_type_object _ "dict" Hmap);
    repeat case_match; cbn;
    rewrite ?not_elem_of_cons; split_and?; try apply not_elem_of_nil;
    congruence.
Qed.

Lemma mapping_arguments_draw_no_warning_witness :
  arg_use_precomputed Demo.with_hyperparameters = true /\
  is_mapping (arg_problems Demo.with_hyperparameters) = true /\
  is_mapping (arg_models Demo.with_hyperparameters) = true /\
  (Print warn_problem_hyperparameters
     ∉ effects (initialize Demo.env Demo.with_hyperparameters __init__)) /\
  (Print warn_model_hyperparameters
     ∉ effects (initialize Demo.env Demo.with_hyperparameters __init__)).
Proof.
  pose proof (mapping_arguments_draw_no_warning Demo.env
                Demo.with_hyperparameters __init__ eq_refl) as [Hp Hm].
  split_and!; [reflexivity | reflexivity | reflexivity | apply Hp | apply Hm];
    reflexivity.
Defined.

(** C6: [initialize] with [use_precomputed] true and a [timesteps] that
    differs from the frozen count prints the warning, raises nothing of its
    own and goes on to load the results for the requested problem ids,
    model ids and metrics; the loader is not given [timesteps], so the
    table is the one loaded when the frozen count itself is passed. *)
Theorem timestep_mismatch_warns_and_loads env a s ps ms t :
  arg_use_precomputed a = true ->
  arg_timesteps a <> get_timesteps env ->
  to_dict env (arg_problems a) = Ok ps ->
  to_dict env (arg_models a) = Ok ms ->
  load_prob_model_to_result env (od_keys ps) (od_keys ms)
    (arg_problem_to_models a) (arg_metrics a) = Ok t ->
  res (initialize env a s) = Ok tt /\
  Print warn_timesteps ∈ effects (initialize env a s) /\
  prob_model_to_result (final (initialize env a s)) = Some t /\
  prob_model_to_result (final (initialize env a s)) =
    prob_model_to_result
      (final (initialize env (with_timesteps (get_timesteps env) a) s)).
Proof.
  intros Hup Hne Hps Hms Hload.
  rewrite !initialize_run.
  cbn [with_timesteps arg_problems arg_models arg_use_precomputed
       arg_problem_to_models arg_metrics].
  rewrite Hps, Hms, Hup, Hload. cbv zeta. cbn [store_results res final effects].
  split_and!; try reflexivity.
  unfold precomputed_warnings. apply Z.eqb_neq in Hne. rewrite Hne.
  apply list_elem_of_here.
Qed.

Lemma timestep_mismatch_warns_and_loads_witness :
  res (initialize Demo.env (Demo.args ["ARMA-v0"] ["RNN"] true 5) __init__) = Ok tt /\
  Print warn_timesteps
    ∈ effects (initialize Demo.env (Demo.args ["ARMA-v0"] ["RNN"] true 5) __init__) /\
  is_Some (lookup_result ("mse", "ARMA-v0", "RNN")
             (final (initialize Demo.env (Demo.args ["ARMA-v0"] ["RNN"] true 5) __init__))).
Proof.
  destruct (timestep_mismatch_warns_and_loads Demo.env
              (Demo.args ["ARMA-v0"] ["RNN"] true 5) __init__
              [("ARMA-v0", None)] [("RNN", None)]
              (Demo.run_all [("ARMA-v0", None)] [("RNN", None)] None ["mse"] 3))
    as (Hres & Hw & Ht & _); try reflexivity; [discriminate|].
  split_and!; [exact Hres | exact Hw |].
  unfold lookup_result. rewrite Ht. vm_compute. eauto.
Defined.



(** ** [add_model] *)

(** The handler's format string has no conversion to consume the two ids. *)
Lemma format_without_conversion a b :
  format "Please make sure model and problem are compatible." [a; b]
  = Raise TypeError.
Proof. reflexivity. Qed.

Lemma trial_returns env problem model metric s v lb r :
  verbose s = Some v -> load_bar s = Some lb ->
  run_experiment env problem model metric (get_key env) (get_timesteps env)
    v lb = Ok r ->
  trial env problem model metric s = Outcome (Ok r) s [].
Proof.
  intros Hv Hlb Hrun. unfold trial, try_except.
  rewrite (bind_getattr _ _ _ _ _ Hv), (bind_getattr _ _ _ _ _ Hlb), Hrun.
  reflexivity.
Qed.

(** A trial that raises makes the handler raise in its turn. *)
Lemma trial_raises env problem model metric s v lb e :
  verbose s = Some v -> load_bar s = Some lb ->
  run_experiment env problem model metric (get_key env) (get_timesteps env)
    v lb = Raise e ->
  trial env problem model metric s = Outcome (Raise TypeError) s [].
Proof.
  intros Hv Hlb Hrun. unfold trial, try_except.
  rewrite (bind_getattr _ _ _ _ _ Hv), (bind_getattr _ _ _ _ _ Hlb), Hrun.
  unfold lift at 1. cbv beta iota.
  rewrite format_without_conversion, bind_lift_raise. reflexivity.
Qed.

Lemma bind_models_setitem {B} k v (K : unit -> M B) s mo :
  models s = Some mo ->
  bind (models_setitem k v) K s = K tt (set_models (od_set k v mo) s).
Proof.
  intros H. apply bind_pure. unfold models_setitem.
  by rewrite (bind_getattr _ _ _ _ _ H).
Qed.

Lemma result_setitem_run k v s t :
  prob_model_to_result s = Some t ->
  result_setitem k v s
  = Outcome (Ok tt) (set_prob_model_to_result (<[k := v]> t) s) [].
Proof.
  intros H. unfold result_setitem. by rewrite (bind_getattr _ _ _ _ _ H).
Qed.

Lemma add_model_step_returns env model_id model_params new_id metric problem
    s v lb mo t r :
  verbose s = Some v -> load_bar s = Some lb ->
  models s = Some mo -> prob_model_to_result s = Some t ->
  run_experiment env problem (model_id, model_params) metric
    (get_key env) (get_timesteps env) v lb = Ok r ->
  add_model_step env model_id model_params new_id metric problem s
  = Outcome (Ok tt)
      (stored new_id model_params metric (fst problem) r mo t s) [].
Proof.
  intros Hv Hlb Hmo Ht Hrun. unfold add_model_step.
  rewrite (bind_pure _ _ _ _ _ (trial_returns _ _ _ _ _ _ _ _ Hv Hlb Hrun)).
  destruct r as [[loss time] memory].
  rewrite (bind_models_setitem _ _ _ _ _ Hmo).
  erewrite (bind_pure _ _ _ _ _ (result_setitem_run _ _ _ _ _)).
  erewrite (bind_pure _ _ _ _ _ (result_setitem_run _ _ _ _ _)).
  erewrite result_setitem_run. reflexivity.
  Unshelve. all: cbn; try reflexivity. exact Ht.
Qed.

Lemma add_model_step_raises env model_id model_params new_id metric problem
    s v lb e :
  verbose s = Some v -> load_bar s = Some lb ->
  run_experiment env problem (model_id, model_params) metric
    (get_key env) (get_timesteps env) v lb = Raise e ->
  add_model_step env model_id model_params new_id metric problem s
  = Outcome (Raise TypeError) s [].
Proof.
  intros Hv Hlb Hrun. unfold add_model_step.
  by rewrite (bind_raises _ _ _ _ _ _ (trial_raises _ _ _ _ _ _ _ _ Hv Hlb Hrun)).
Qed.

(** Results are only ever added or overwritten. *)
Lemma result_setitem_grows k v : preserves grows (result_setitem k v).
Proof.
  intros s k'. unfold result_setitem, bind, getattr, setattr, lookup_result.
  destruct (prob_model_to_result s) as [t|]; cbn; [|done].
  rewrite lookup_insert. case_decide; eauto.
Qed.

Lemma models_setitem_keeps {X} (f : Experiment -> X) k v :
  (forall mo s, f (set_models mo s) = f s) ->
  preserves (keeps f) (models_setitem k v).
Proof.
  intros Hf s. unfold models_setitem, bind, getattr, setattr, keeps.
  destruct (models s) as [mo|]; cbn; [apply Hf | done].
Qed.

Lemma models_setitem_grows k v : preserves grows (models_setitem k v).
Proof.
  intros s k'.
  by rewrite (models_setitem_keeps (lookup_result k') k v (fun _ _ => eq_refl) s).
Qed.

Lemma add_model_step_grows env model_id model_params new_id metric problem :
  preserves grows
    (add_model_step env model_id model_params new_id metric problem).
Proof.
  unfold add_model_step, trial.
  preserves_steps grows_refl grows_trans;
    auto using result_setitem_grows, models_setitem_grows.
Qed.

Lemma ready_stored ps ms v lb new_id mp metric pid r mo t s :
  ready ps ms v lb s ->
  ready ps ms v lb (stored new_id mp metric pid r mo t s).
Proof. intros (?&?&?&?&?&?). split_and!; cbn; eauto. Qed.

Lemma stored_files new_id mp metric pid r mo t s :
  is_Some (lookup_result (metric, pid, new_id)
             (stored new_id mp metric pid r mo t s)) /\
  is_Some (lookup_result ("time", pid, new_id)
             (stored new_id mp metric pid r mo t s)) /\
  is_Some (lookup_result ("memory", pid, new_id)
             (stored new_id mp metric pid r mo t s)).
Proof.
  unfold lookup_result, stored. cbn.
  split_and!; rewrite !lookup_insert; repeat case_decide; by eauto.
Qed.

(** The inner loop: it runs to its end when every trial returns, and stops
    with the handler's [TypeError] at the first trial that raises. *)
Lemma inner_loop_run env model_id model_params new_id metric ps ms v lb :
  forall qs s, ready ps ms v lb s ->
    effects (for_each qs
               (add_model_step env model_id model_params new_id metric) s) = []
    /\
    if forallb (trial_ok env model_id model_params v lb metric) qs then
      res (for_each qs
             (add_model_step env model_id model_params new_id metric) s) = Ok tt
      /\ ready ps ms v lb
           (final (for_each qs
                     (add_model_step env model_id model_params new_id metric) s))
      /\ files_all new_id [metric] qs
           (final (for_each qs
                     (add_model_step env model_id model_params new_id metric) s))
    else
      res (for_each qs
             (add_model_step env model_id model_params new_id metric) s)
      = Raise TypeError.
Proof.
  induction qs as [|q qs IH]; intros s Hready.
  { cbn. split_and!; try done. intros m p _ Hp. by apply elem_of_nil in Hp. }
  pose proof Hready as (_ & _ & Hv & Hlb & [mo Hmo] & [t Ht]).
  cbn [for_each forallb]. unfold trial_ok at 1.
  destruct (run_experiment env q (model_id, model_params) metric
              (get_key env) (get_timesteps env) v lb) as [r|e] eqn:Hrun.
  - rewrite (bind_pure _ _ _ _ _
               (add_model_step_returns _ _ _ new_id _ _ _ _ _ _ _ _
                  Hv Hlb Hmo Ht Hrun)).
    cbn [andb].
    specialize (IH _ (ready_stored _ _ _ _ new_id model_params metric
                        (fst q) r mo t s Hready)).
    destruct IH as [Heff IH]. split; [exact Heff|].
    destruct (forallb (trial_ok env model_id model_params v lb metric) qs);
      [|exact IH].
    destruct IH as (Hres & Hready' & Hfiles). split_and!; try done.
    intros m p Hm Hp. apply elem_of_cons in Hp as [->|Hp]; [|by apply Hfiles].
    apply list_elem_of_singleton in Hm as ->.
    pose proof (preserves_for_each grows grows_refl grows_trans qs _
                  (add_model_step_grows env model_id model_params new_id metric)
                  (stored new_id model_params metric (fst q) r mo t s))
      as Hgrows.
    destruct (stored_files new_id model_params metric (fst q) r mo t s)
      as (H1 & H2 & H3).
    split_and!; by apply Hgrows.
  - rewrite (bind_raises _ _ _ _ _ _
               (add_model_step_raises _ _ _ new_id _ _ _ _ _ _ Hv Hlb Hrun)).
    done.
Qed.

Lemma add_model_metric_grows env model_id model_params new_id metric :
  preserves grows (add_model_metric env model_id model_params new_id metric).
Proof.
  unfold add_model_metric. preserves_steps grows_refl grows_trans.
  apply add_model_step_grows.
Qed.

(** The outer loop. *)
Lemma outer_loop_run env model_id model_params new_id ps ms v lb :
  forall ms0 s, ready ps ms v lb s ->
    effects (for_each ms0
               (add_model_metric env model_id model_params new_id) s) = []
    /\
    if all_trials_ok env model_id model_params v lb ms0 ps then
      res (for_each ms0
             (add_model_metric env model_id model_params new_id) s) = Ok tt
      /\ ready ps ms v lb
           (final (for_each ms0
                     (add_model_metric env model_id model_params new_id) s))
      /\ files_all new_id ms0 ps
           (final (for_each ms0
                     (add_model_metric env model_id model_params new_id) s))
    else
      res (for_each ms0
             (add_model_metric env model_id model_params new_id) s)
      = Raise TypeError.
Proof.
  induction ms0 as [|m ms0 IH]; intros s Hready.
  { cbn. split_and!; try done. intros ? ? Hm. by apply elem_of_nil in Hm. }
  pose proof Hready as (Hps & _).
  cbn [for_each]. unfold all_trials_ok. cbn [forallb].
  fold (all_trials_ok env model_id model_params v lb ms0 ps).
  destruct (inner_loop_run env model_id model_params new_id m ps ms v lb
              ps s Hready) as [Heff Hinner].
  assert (add_model_metric env model_id model_params new_id m s
          = for_each ps (add_model_step env model_id model_params new_id m) s)
    as Hmetric.
  { unfold add_model_metric. by rewrite (bind_getattr _ _ _ _ _ Hps). }
  rewrite <- Hmetric in Heff, Hinner.
  destruct (add_model_metric env model_id model_params new_id m s)
    as [r s1 out1] eqn:Hrun.
  cbn [res final effects] in Heff, Hinner. subst out1.
  destruct (forallb (trial_ok env model_id model_params v lb m) ps); cbn [andb].
  - destruct Hinner as (-> & Hready1 & Hfiles1).
    rewrite (bind_pure _ _ _ _ _ Hrun).
    destruct (IH s1 Hready1) as [Heff' IH']. split; [exact Heff'|].
    destruct (all_trials_ok env model_id model_params v lb ms0 ps);
      [|exact IH'].
    destruct IH' as (Hres & Hready' & Hfiles). split_and!; try done.
    intros m' p Hm' Hp. apply elem_of_cons in Hm' as [->|Hm'];
      [|by apply Hfiles].
    pose proof (preserves_for_each grows grows_refl grows_trans ms0 _
                  (add_model_metric_grows env model_id model_params new_id) s1)
      as Hgrows.
    destruct (Hfiles1 m p) as (H1 & H2 & H3);
      [apply list_elem_of_here | exact Hp |].
    split_and!; by apply Hgrows.
  - rewrite Hinner in Hrun. by rewrite (bind_raises _ _ _ _ _ _ Hrun).
Qed.

Lemma add_model_loop_run env model_id model_params new_id ps ms v lb s :
  ready ps ms v lb s ->
  effects (add_model_loop env model_id model_params new_id s) = [] /\
  if all_trials_ok env model_id model_params v lb ms ps then
    res (add_model_loop env model_id model_params new_id s) = Ok tt
    /\ ready ps ms v lb
         (final (add_model_loop env model_id model_params new_id s))
    /\ files_all new_id ms ps
         (final (add_model_loop env model_id model_params new_id s))
  else
    res (add_model_loop env model_id model_params new_id s) = Raise TypeError.
Proof.
  intros Hready. pose proof Hready as (_ & Hms & _).
  unfold add_model_loop. rewrite (bind_getattr _ _ _ _ _ Hms).
  by apply outer_loop_run.
Qed.

(** *** The derived id *)

Lemma set_n_models_same cs s : n_models s = Some cs -> set_n_models cs s = s.
Proof. destruct s. cbn. by intros ->. Qed.


(** Lines 82-92 as one equation: the id is the one the specification
    words, and only the duplicate counters change. *)
Lemma derive_id_run model_id nm s mo cs :
  models s = Some mo -> n_models s = Some cs ->
  derive_id model_id nm s
  = Outcome
      (Ok (spec_key (od_mem model_id mo) model_id nm
             (default 0 (cs !! model_id))))
      (set_n_models (next_counts (od_mem model_id mo) model_id nm cs) s) [].
Proof.
  intros Hmo Hcs. unfold derive_id, spec_key, next_counts, counted.
  rewrite (bind_getattr _ _ _ _ _ Hmo).
  destruct (od_mem model_id mo); last first.
  { unfold ret. by rewrite (set_n_models_same _ _ Hcs). }
  rewrite (bind_getattr _ _ _ _ _ Hcs).
  destruct (cs !! model_id) as [c|] eqn:Hc.
  - rewrite bool_decide_true by eauto. unfold when. cbn [negb].
    rewrite bind_ret.
    destruct nm as [n|].
    { unfold ret. by rewrite (set_n_models_same _ _ Hcs). }
    rewrite (bind_getattr _ _ _ _ _ Hcs), Hc, bind_lift_ok, bind_setattr.
    erewrite (bind_getattr "n_models" n_models) by reflexivity.
    rewrite lookup_insert_eq, bind_lift_ok. reflexivity.
  - rewrite bool_decide_false by (by intros [? ?]). unfold when. cbn [negb].
    rewrite bind_setattr.
    destruct nm as [n|]; [reflexivity|].
    erewrite (bind_getattr "n_models" n_models) by reflexivity.
    rewrite lookup_insert_eq, bind_lift_ok, bind_setattr.
    erewrite (bind_getattr "n_models" n_models) by reflexivity.
    rewrite lookup_insert_eq, bind_lift_ok, insert_insert_eq. reflexivity.
Qed.

(** [add_model] up to its loops. *)
Lemma add_model_unfold env model_id model_params name s nm mo cs :
  resolve_name model_params name = Ok nm ->
  models s = Some mo -> n_models s = Some cs ->
  add_model env (Some model_id) model_params name s
  = add_model_loop env model_id model_params
      (spec_key (od_mem model_id mo) model_id nm (default 0 (cs !! model_id)))
      (set_n_models (next_counts (od_mem model_id mo) model_id nm cs) s).
Proof.
  intros Hnm Hmo Hcs. unfold add_model.
  rewrite Hnm, bind_lift_ok.
  by rewrite (bind_pure _ _ _ _ _ (derive_id_run model_id nm s mo cs Hmo Hcs)).
Qed.

Lemma derived_id_spec model_id model_params name s nm mo cs :
  resolve_name model_params name = Ok nm ->
  models s = Some mo -> n_models s = Some cs ->
  derived_id (Some model_id) model_params name s
  = Some (spec_key (od_mem model_id mo) model_id nm
            (default 0 (cs !! model_id))).
Proof.
  intros Hnm Hmo Hcs. unfold derived_id.
  by rewrite Hnm, bind_lift_ok, (derive_id_run model_id nm s mo cs Hmo Hcs).
Qed.

Lemma ready_set_n_models ps ms v lb cs s :
  ready ps ms v lb s -> ready ps ms v lb (set_n_models cs s).
Proof. intros (?&?&?&?&?&?). split_and!; cbn; eauto. Qed.

Lemma failing_trial_spoils_all env model_id model_params v lb ms ps
    metric problem e :
  metric ∈ ms -> problem ∈ ps ->
  run_experiment env problem (model_id, model_params) metric
    (get_key env) (get_timesteps env) v lb = Raise e ->
  all_trials_ok env model_id model_params v lb ms ps = false.
Proof.
  intros Hm Hp Hrun.
  destruct (all_trials_ok env model_id model_params v lb ms ps) eqn:Hall;
    [|done].
  unfold all_trials_ok in Hall. rewrite forallb_forall in Hall.
  apply list_elem_of_In in Hm, Hp.
  specialize (Hall metric Hm). rewrite forallb_forall in Hall.
  specialize (Hall problem Hp). unfold trial_ok in Hall.
  by rewrite Hrun in Hall.
Qed.

(** C1, what the code does instead: when a trial of the new model raises,
    for any metric and problem of the experiment, the handler of
    [add_model] raises a [TypeError] of its own while it formats its
    message, and [add_model] ends with that exception: it reaches its
    caller, and the loops do not go on. *)
Theorem trial_exception_escapes_add_model env s model_id model_params name nm
    ps ms v lb metric problem e :
  ready ps ms v lb s -> is_Some (n_models s) ->
  resolve_name model_params name = Ok nm ->
  metric ∈ ms -> problem ∈ ps ->
  run_experiment env problem (model_id, model_params) metric
    (get_key env) (get_timesteps env) v lb = Raise e ->
  res (add_model env (Some model_id) model_params name s) = Raise TypeError.
Proof.
  intros Hready [cs Hcs] Hnm Hm Hp Hrun.
  pose proof Hready as (_ & _ & _ & _ & [mo Hmo] & _).
  rewrite (add_model_unfold env model_id model_params name s nm mo cs
             Hnm Hmo Hcs).
  eapply ready_set_n_models in Hready.
  eapply add_model_loop_run in Hready as [_ Hloop].
  erewrite failing_trial_spoils_all in Hloop by eassumption.
  exact Hloop.
Qed.

Lemma trial_exception_escapes_add_model_witness :
  run_experiment Demo.env ("CartPole-v0", None) ("LSTM", Some ∅) "mse"
    (get_key Demo.env) (get_timesteps Demo.env) true true
  = Raise (Failure "incompatible") /\
  res (add_model Demo.env (Some "LSTM") (Some ∅) None Demo.mixed)
  = Raise TypeError /\
  lookup_result ("time", "CartPole-v0", "LSTM")
    (final (add_model Demo.env (Some "LSTM") (Some ∅) None Demo.mixed))
  = None.
Proof.
  split_and!; [reflexivity | | by_evaluation].
  apply (trial_exception_escapes_add_model Demo.env Demo.mixed "LSTM" (Some ∅)
           None None [("ARMA-v0", None); ("CartPole-v0", None)] ["mse"]
           true true "mse" ("CartPole-v0", None) (Failure "incompatible")).
  - split_and!; by_evaluation.
  - by_evaluation.
  - reflexivity.
  - by_evaluation.
  - by_evaluation.
  - reflexivity.
Defined.

(** *** What [add_model] leaves alone *)

Lemma result_setitem_keeps_other key k v :
  k <> key -> preserves (keeps (lookup_result key)) (result_setitem k v).
Proof.
  intros Hne s. unfold result_setitem, bind, getattr, setattr, keeps,
    lookup_result.
  destruct (prob_model_to_result s) as [t|] eqn:Ht; cbn; rewrite ?Ht; [|done].
  cbn. by rewrite lookup_insert_ne.
Qed.

Lemma result_setitem_keeps {X} (f : Experiment -> X) k v :
  (forall t s, f (set_prob_model_to_result t s) = f s) ->
  preserves (keeps f) (result_setitem k v).
Proof.
  intros Hf s. unfold result_setitem, bind, getattr, setattr, keeps.
  destruct (prob_model_to_result s) as [t|]; cbn; [apply Hf | done].
Qed.

Lemma add_model_loop_frame env model_id model_params new_id metric problem_id k :
  k <> new_id ->
  preserves (keeps (lookup_result (metric, problem_id, k)))
    (add_model_loop env model_id model_params new_id).
Proof.
  intros Hne.
  unfold add_model_loop, add_model_metric, add_model_step, trial.
  keeps_steps;
    first [ by apply models_setitem_keeps
          | apply result_setitem_keeps_other; congruence ].
Qed.

(** The loops assign nothing but the models and the results. *)
Lemma add_model_loop_keeps {X} (f : Experiment -> X) env model_id model_params
    new_id :
  (forall mo s, f (set_models mo s) = f s) ->
  (forall t s, f (set_prob_model_to_result t s) = f s) ->
  preserves (keeps f) (add_model_loop env model_id model_params new_id).
Proof.
  intros Hmo Ht.
  unfold add_model_loop, add_model_metric, add_model_step, trial.
  keeps_steps;
    first [ by apply models_setitem_keeps | by apply result_setitem_keeps ].
Qed.

(** Deriving the id assigns nothing but the duplicate counters. *)
Lemma derive_id_keeps {X} (f : Experiment -> X) model_id nm :
  (forall cs s, f (set_n_models cs s) = f s) ->
  preserves (keeps f) (derive_id model_id nm).
Proof.
  intros Hf. unfold derive_id.
  keeps_steps;
    apply preserves_setattr; intros s; apply Hf.
Qed.

(** Every assignment to the results table is under the derived id. *)
Lemma add_model_frame env model_id model_params name s metric problem_id k :
  derived_id model_id model_params name s <> Some k ->
  lookup_result (metric, problem_id, k)
    (final (add_model env model_id model_params name s))
  = lookup_result (metric, problem_id, k) s.
Proof.
  intros Hk. unfold add_model, derived_id in *.
  destruct model_id as [model_id|]; [|reflexivity].
  destruct (resolve_name model_params name) as [nm|e]; [|reflexivity].
  rewrite bind_lift_ok. rewrite bind_lift_ok in Hk.
  pose proof (derive_id_keeps (lookup_result (metric, problem_id, k))
                model_id nm (fun _ _ => eq_refl) s) as Hderive.
  unfold keeps in Hderive.
  destruct (derive_id model_id nm s) as [[new_id|e] s1 out1] eqn:Hrun;
    cbn [res final] in *.
  - rewrite (final_bind _ _ _ _ _ _ Hrun), <- Hderive.
    apply add_model_loop_frame. congruence.
  - by rewrite (bind_raises _ _ _ _ _ _ Hrun).
Qed.

(** C7: [add_model] leaves every entry of the results table whose model id
    is not the id derived for the new model as it was, whether the call
    returns or raises; when no id is derived the whole table is as it
    was. *)
Theorem add_model_leaves_other_models env model_id model_params name s
    metric problem_id k :
  derived_id model_id model_params name s <> Some k ->
  lookup_result (metric, problem_id, k)
    (final (add_model env model_id model_params name s))
  = lookup_result (metric, problem_id, k) s.
Proof. apply add_model_frame. Qed.

Lemma add_model_leaves_other_models_witness :
  derived_id (Some "RNN") (Some ∅) None Demo.arma = Some "RNN-1" /\
  lookup_result ("mse", "ARMA-v0", "RNN")
    (final (add_model Demo.env (Some "RNN") (Some ∅) None Demo.arma))
  = lookup_result ("mse", "ARMA-v0", "RNN") Demo.arma.
Proof.
  split; [by_evaluation|].
  apply (add_model_leaves_other_models Demo.env (Some "RNN") (Some ∅) None
           Demo.arma "mse" "ARMA-v0" "RNN").
  vm_compute. discriminate.
Defined.

(** *** A call whose trials all return *)

Lemma od_mem_set {V} k k' (v : V) d :
  od_mem k d = true -> od_mem k (od_set k' v d) = true.
Proof.
  unfold od_mem. induction d as [|[k0 v0] d IH]; cbn; [done|].
  destruct (String.eqb k' k0) eqn:Hk'; cbn.
  - apply String.eqb_eq in Hk' as ->. by destruct (String.eqb k k0).
  - destruct (String.eqb k k0); [done | exact IH].
Qed.

Lemma models_grow_refl s : models_grow s s.
Proof. intros mo k Hmo Hk. eauto. Qed.

Lemma models_grow_trans s1 s2 s3 :
  models_grow s1 s2 -> models_grow s2 s3 -> models_grow s1 s3.
Proof.
  intros H12 H23 mo k Hmo Hk.
  destruct (H12 mo k Hmo Hk) as (mo' & Hmo' & Hk'). eauto.
Qed.

Lemma add_model_loop_models_grow env model_id model_params new_id :
  preserves models_grow (add_model_loop env model_id model_params new_id).
Proof.
  unfold add_model_loop, add_model_metric, add_model_step, trial.
  preserves_steps models_grow_refl models_grow_trans.
  - intros s mo k Hmo Hk. unfold models_setitem.
    rewrite (bind_getattr _ _ _ _ _ Hmo). cbn. eauto using od_mem_set.
  - intros s mo k Hmo Hk.
    rewrite (result_setitem_keeps models _ _ (fun _ _ => eq_refl) s). eauto.
  - intros s mo k Hmo Hk.
    rewrite (result_setitem_keeps models _ _ (fun _ _ => eq_refl) s). eauto.
  - intros s mo k Hmo Hk.
    rewrite (result_setitem_keeps models _ _ (fun _ _ => eq_refl) s). eauto.
Qed.

(** What a call of [add_model] whose trials all return leaves behind. *)
Lemma add_model_returns env s model_id model_params name nm mo cs
    ps ms v lb :
  resolve_name model_params name = Ok nm ->
  models s = Some mo -> n_models s = Some cs ->
  ready ps ms v lb s ->
  all_trials_ok env model_id model_params v lb ms ps = true ->
  res (add_model env (Some model_id) model_params name s) = Ok tt /\
  effects (add_model env (Some model_id) model_params name s) = [] /\
  ready ps ms v lb (final (add_model env (Some model_id) model_params name s)) /\
  files_all
    (spec_key (od_mem model_id mo) model_id nm (default 0 (cs !! model_id)))
    ms ps (final (add_model env (Some model_id) model_params name s)) /\
  n_models (final (add_model env (Some model_id) model_params name s))
  = Some (next_counts (od_mem model_id mo) model_id nm cs) /\
  (forall k, od_mem k mo = true ->
     exists mo',
       models (final (add_model env (Some model_id) model_params name s))
       = Some mo' /\ od_mem k mo' = true).
Proof.
  intros Hnm Hmo Hcs Hready Hall.
  rewrite (add_model_unfold env model_id model_params name s nm mo cs
             Hnm Hmo Hcs).
  set (key := spec_key _ _ _ _). set (s0 := set_n_models _ s).
  pose proof (ready_set_n_models _ _ _ _
                (next_counts (od_mem model_id mo) model_id nm cs) _ Hready)
    as Hready0.
  destruct (add_model_loop_run env model_id model_params key ps ms v lb s0
              Hready0) as [Heff Hloop].
  rewrite Hall in Hloop. destruct Hloop as (Hres & Hready' & Hfiles).
  split_and!; try done.
  - by rewrite (add_model_loop_keeps n_models env model_id model_params key
                  (fun _ _ => eq_refl) (fun _ _ => eq_refl) s0).
  - intros k Hk.
    by apply (add_model_loop_models_grow env model_id model_params key s0 mo k).
Qed.



(** *** Anonymous duplicates *)


Lemma resolve_name_anonymous (d : gmap string hval) :
  d !! "optimizer" = None -> resolve_name (Some d) None = Ok None.
Proof. intros H. unfold resolve_name. by rewrite H. Qed.




(** *** A model named after its optimizer *)






(** *** Parameters left out *)

(** C9, as amended: [add_model(model_id)], with the parameters and the
    name both left at [None], raises a [TypeError] at the membership test,
    whatever the state of the instance; nothing is printed, no trial is
    run and the instance, its results table included, is as before. *)
Theorem omitted_params_and_name_raise env s model_id :
  add_model env (Some model_id) None None s = Outcome (Raise TypeError) s [] /\
  rejects_omitted_params env s model_id None.
Proof.
  assert (add_model env (Some model_id) None None s
          = Outcome (Raise TypeError) s []) as Hrun.
  { unfold add_model. cbn [resolve_name]. by rewrite bind_lift_raise. }
  split; [exact Hrun|]. unfold rejects_omitted_params. by rewrite Hrun.
Qed.

(** C9, as stated, fails: with a name given the membership test is not
    evaluated, and [add_model("RNN", name="tuned")] returns and files its
    results. *)
Lemma rejects_omitted_params_counterexample :
  ~ rejects_omitted_params Demo.env Demo.arma "RNN" (Some "tuned").
Proof.
  intros [Hres _]. vm_compute in Hres. discriminate Hres.
Qed.

(** ** [scoreboard] *)

Lemma initialize_keeps_new_models env a s :
  new_models (final (initialize env a s)) = new_models s.
Proof.
  rewrite initialize_run.
  destruct (to_dict env (arg_problems a)); [|done].
  destruct (to_dict env (arg_models a)); [|done].
  cbv zeta. destruct (arg_use_precomputed a);
    match goal with
    | |- context [store_results ?r _ _] => by destruct r
    end.
Qed.

(** No method assigns [new_models] or, [initialize] apart,
    [use_precomputed]. *)
Lemma add_model_keeps {X} (f : Experiment -> X) env model_id model_params name :
  (forall cs s, f (set_n_models cs s) = f s) ->
  (forall mo s, f (set_models mo s) = f s) ->
  (forall t s, f (set_prob_model_to_result t s) = f s) ->
  preserves (keeps f) (add_model env model_id model_params name).
Proof.
  intros Hcs Hmo Ht. unfold add_model.
  destruct model_id as [model_id|]; keeps_steps.
  - by apply derive_id_keeps.
  - by apply add_model_loop_keeps.
Qed.

Lemma scoreboard_changes_nothing env save_as metric v s :
  final (scoreboard env save_as metric v s) = s.
Proof.
  revert s. change (preserves (keeps (fun s => s))
                      (scoreboard env save_as metric v)).
  unfold scoreboard, scoreboard_check, scoreboard_row. cbv zeta.
  keeps_steps.
Qed.

Lemma reachable_new_models env s : reachable env s -> new_models s = None.
Proof.
  induction 1 as [|a s _ IH|model_id model_params name s _ IH
                 |save_as metric v s _ IH].
  - reflexivity.
  - by rewrite initialize_keeps_new_models.
  - by rewrite (add_model_keeps new_models env model_id model_params name
                  (fun _ _ => eq_refl) (fun _ _ => eq_refl)
                  (fun _ _ => eq_refl) s).
  - by rewrite scoreboard_changes_nothing.
Qed.

(** C10: on an experiment that the methods of the class have brought to a
    state with [use_precomputed] true, [scoreboard] with the metric
    ["time"] raises [AttributeError] for [new_models], which no method
    assigns, before it prints anything; with any other metric the
    condition of the warning is false without [new_models] being read. *)
Theorem scoreboard_time_raises_attribute_error env s save_as v :
  reachable env s -> use_precomputed s = Some true ->
  scoreboard env save_as "time" v s
  = Outcome (Raise (AttributeError "new_models")) s [] /\
  forall metric, metric <> "time" ->
    scoreboard_check metric s = Outcome (Ok false) s [].
Proof.
  intros Hreach Hup. apply reachable_new_models in Hreach as Hnew. split.
  - unfold scoreboard. apply bind_raises. unfold scoreboard_check.
    rewrite (bind_getattr _ _ _ _ _ Hup). cbn [String.eqb Ascii.eqb Bool.eqb].
    by apply getattr_unset.
  - intros metric Hmetric. unfold scoreboard_check.
    rewrite (bind_getattr _ _ _ _ _ Hup).
    apply String.eqb_neq in Hmetric. by rewrite Hmetric.
Qed.

Lemma scoreboard_time_raises_attribute_error_witness :
  use_precomputed Demo.frozen = Some true /\
  scoreboard Demo.env None "time" true Demo.frozen
  = Outcome (Raise (AttributeError "new_models")) Demo.frozen [] /\
  res (scoreboard Demo.env None "mse" true Demo.frozen) = Ok tt.
Proof.
  destruct (scoreboard_time_raises_attribute_error Demo.env Demo.frozen None
              true) as [Htime _].
  - exact (reach_initialize Demo.env
             (Demo.args ["ARMA-v0"] ["RNN"] true 3) __init__
             (reach_init Demo.env)).
  - by_evaluation.
  - split_and!; [by_evaluation | exact Htime | by_evaluation].
Defined.

(** * Further properties of [Experiment] *)

(** ** [initialize] *)

(** X1: when [to_dict] rejects the [problems] or the [models] argument,
    [initialize] raises that exception before line 39 assigns anything:
    the instance is exactly as before and nothing is printed. *)
Theorem initialize_rejected_is_atomic env a s e :
  to_dict env (arg_problems a) = Raise e \/
  (exists ps, to_dict env (arg_problems a) = Ok ps /\
              to_dict env (arg_models a) = Raise e) ->
  initialize env a s = Outcome (Raise e) s [].
Proof.
  rewrite initialize_run. by intros [-> | (ps & -> & ->)].
Qed.

Lemma initialize_rejected_is_atomic_witness :
  initialize Demo.env
    (Demo.args ["ARMA-v0"] ["RNN"] true 3) Demo.augmented
  <> Outcome (Raise TypeError) Demo.augmented [] /\
  initialize Demo.env
    {| arg_problems := ArgNone; arg_models := ArgList ["RNN"];
       arg_problem_to_models := None; arg_metrics := ["mse"];
       arg_use_precomputed := true; arg_timesteps := 3;
       arg_verbose := true; arg_load_bar := true |} Demo.augmented
  = Outcome (Raise TypeError) Demo.augmented [].
Proof.
  split.
  - intros H. apply (f_equal res) in H. vm_compute in H. discriminate H.
  - apply initialize_rejected_is_atomic. left. reflexivity.
Defined.

(** X2: when the arguments normalise but the collaborator that delivers
    the results raises (the precomputed store, or the fresh run), the
    exception leaves [initialize] after lines 39-42 have taken effect: the
    problems, models, metrics and duplicate counters are the new ones,
    while the results table is still the one of the prior state. *)
Theorem initialize_failure_keeps_old_results env a s ps ms e :
  to_dict env (arg_problems a) = Ok ps ->
  to_dict env (arg_models a) = Ok ms ->
  (if arg_use_precomputed a
   then load_prob_model_to_result env (od_keys ps) (od_keys ms)
          (arg_problem_to_models a) (arg_metrics a)
   else run_all_experiments env ps ms (arg_problem_to_models a)
          (arg_metrics a) (arg_timesteps a) (arg_verbose a) (arg_load_bar a))
  = Raise e ->
  res (initialize env a s) = Raise e /\
  problems (final (initialize env a s)) = Some ps /\
  models (final (initialize env a s)) = Some ms /\
  metrics (final (initialize env a s)) = Some (arg_metrics a) /\
  n_models (final (initialize env a s)) = Some ∅ /\
  prob_model_to_result (final (initialize env a s)) = prob_model_to_result s.
Proof.
  intros Hps Hms Hfail. rewrite initialize_run, Hps, Hms. cbv zeta.
  destruct (arg_use_precomputed a); rewrite Hfail; by split_and!.
Qed.

Lemma initialize_failure_keeps_old_results_witness :
  res (initialize offline_env (Demo.args ["ARMA-v0"] ["LSTM"] true 3)
         Demo.augmented)
  = Raise (Failure "no precomputed results") /\
  models (final (initialize offline_env
                   (Demo.args ["ARMA-v0"] ["LSTM"] true 3) Demo.augmented))
  = Some [("LSTM", None)] /\
  is_Some (lookup_result ("mse", "ARMA-v0", "RNN-1")
             (final (initialize offline_env
                       (Demo.args ["ARMA-v0"] ["LSTM"] true 3)
                       Demo.augmented))).
Proof.
  destruct (initialize_failure_keeps_old_results offline_env
              (Demo.args ["ARMA-v0"] ["LSTM"] true 3) Demo.augmented
              [("ARMA-v0", None)] [("LSTM", None)]
              (Failure "no precomputed results"))
    as (Hres & _ & Hmo & _ & _ & Ht); [reflexivity..|].
  split_and!; [exact Hres | exact Hmo |].
  unfold lookup_result. rewrite Ht. by_evaluation.
Defined.

(** X3: no method ever sets the flag [initialized]: on every instance that
    calls of [initialize], [add_model] and [scoreboard] lead to, it still
    has the value [False] given by the constructor. *)
Theorem initialized_flag_stays_false env s :
  reachable env s -> initialized s = Some false.
Proof.
  induction 1 as [|a s _ IH|model_id model_params name s _ IH
                 |save_as metric v s _ IH].
  - reflexivity.
  - rewrite initialize_run.
    destruct (to_dict env (arg_problems a)); [|done].
    destruct (to_dict env (arg_models a)); [|done].
    cbv zeta. destruct (arg_use_precomputed a);
      match goal with
      | |- context [store_results ?r _ _] => by destruct r
      end.
  - by rewrite (add_model_keeps initialized env model_id model_params name
                  (fun _ _ => eq_refl) (fun _ _ => eq_refl)
                  (fun _ _ => eq_refl) s).
  - by rewrite scoreboard_changes_nothing.
Qed.

Lemma initialized_flag_stays_false_witness :
  res (initialize Demo.env (Demo.args ["ARMA-v0"] ["RNN"] false 5) __init__)
  = Ok tt /\
  initialized Demo.augmented = Some false.
Proof.
  split; [by_evaluation|].
  apply (initialized_flag_stays_false Demo.env).
  exact (reach_add_model Demo.env (Some "RNN") (Some ∅) None _
           (reach_initialize Demo.env
              (Demo.args ["ARMA-v0"] ["RNN"] false 5) __init__
              (reach_init Demo.env))).
Defined.

(** ** [add_model] *)

Lemma silent_ret {A} (a : A) : silent (ret a).
Proof. by intros s. Qed.

Lemma silent_raise {A} e : silent (@raise A e).
Proof. by intros s. Qed.

Lemma silent_lift {A} (r : result A) : silent (lift r).
Proof. by intros s. Qed.

Lemma silent_getattr {A} name (proj : Experiment -> option A) :
  silent (getattr name proj).
Proof. intros s. unfold getattr. by destruct (proj s). Qed.

Lemma silent_setattr upd : silent (setattr upd).
Proof. by intros s. Qed.

Lemma silent_bind {A B} (m : M A) (k : A -> M B) :
  silent m -> (forall a, silent (k a)) -> silent (bind m k).
Proof.
  intros Hm Hk s. unfold bind. specialize (Hm s).
  destruct (m s) as [[a|e] s1 out1]; cbn in *; [|done].
  specialize (Hk a s1). destruct (k a s1) as [r s2 out2]; cbn in *.
  by rewrite Hm, Hk.
Qed.

Lemma silent_when c m : silent m -> silent (when c m).
Proof. intros Hm. destruct c; [done | apply silent_ret]. Qed.

Lemma silent_try_except {A} (body handler : M A) :
  silent body -> silent handler -> silent (try_except body handler).
Proof.
  intros Hb Hh s. unfold try_except. specialize (Hb s).
  destruct (body s) as [[a|e] s1 out1]; cbn in *; [done|].
  specialize (Hh s1). destruct (handler s1) as [r s2 out2]; cbn in *.
  by rewrite Hb, Hh.
Qed.

Lemma silent_for_each {A} (xs : list A) body :
  (forall x, silent (body x)) -> silent (for_each xs body).
Proof.
  intros Hb. induction xs as [|x xs IH]; cbn [for_each].
  - apply silent_ret.
  - apply silent_bind; [apply Hb | intros _; exact IH].
Qed.

(** The handler of the trial never gets to its [print]. *)
Lemma handler_is_silent (problem_id model_id : string) :
  silent (tail <- lift (format
                          "Please make sure model and problem are compatible."
                          [problem_id; model_id]) ;;
          print ("ERROR: Could not run %s on %s. " +:+ tail) ;;;
          ret (VNum 0, VNum (-1), VNum (-1))).
Proof. intros s. by rewrite format_without_conversion, bind_lift_raise. Qed.

(** Splits a computation into its steps; what is left is what may print. *)
Ltac silent_steps :=
  repeat match goal with
    | |- silent (bind (lift (format _ _)) _) => apply handler_is_silent
    | |- silent (ret _) => apply silent_ret
    | |- silent (raise _) => apply silent_raise
    | |- silent (lift _) => apply silent_lift
    | |- silent (getattr _ _) => apply silent_getattr
    | |- silent (setattr _) => apply silent_setattr
    | |- silent (when _ _) => apply silent_when
    | |- silent (try_except _ _) => apply silent_try_except
    | |- silent (for_each _ _) => apply silent_for_each; intros ?
    | |- silent (bind _ _) => apply silent_bind; [|intros ?]
    | |- silent (match ?x with _ => _ end) => destruct x
    end.


(** X5: on an instance whose [models] attribute is not assigned, as before
    the first [initialize], [add_model] with a model id and a resolvable
    name raises [AttributeError] for [models] and leaves the instance as it
    is. *)
Theorem add_model_before_initialize env model_id model_params name nm s :
  resolve_name model_params name = Ok nm -> models s = None ->
  add_model env (Some model_id) model_params name s
  = Outcome (Raise (AttributeError "models")) s [].
Proof.
  intros Hnm Hmo. unfold add_model. rewrite Hnm, bind_lift_ok.
  apply bind_raises. unfold derive_id. apply bind_raises.
  by apply getattr_unset.
Qed.

Lemma add_model_before_initialize_witness :
  add_model Demo.env (Some "RNN") some_optimizer None __init__
  = Outcome (Raise (AttributeError "models")) __init__ [].
Proof.
  by apply (add_model_before_initialize Demo.env "RNN" some_optimizer None
              (Some "SomeOptimizer")).
Defined.

(** *** Nothing to run *)

Lemma for_each_no_problems env model_id model_params new_id ms s :
  problems s = Some [] ->
  for_each ms (add_model_metric env model_id model_params new_id) s
  = Outcome (Ok tt) s [].
Proof.
  intros Hps. induction ms as [|m ms IH]; cbn [for_each]; [done|].
  rewrite (bind_pure _ _ s tt s); [exact IH|].
  unfold add_model_metric. by rewrite (bind_getattr _ _ _ _ _ Hps).
Qed.

(** X6: on an experiment without problems, or without metrics, [add_model]
    runs no trial and returns: the new model is not added to the models and
    the results table is untouched; only the duplicate counters move as
    the derivation of the id has them. *)
Theorem add_model_with_nothing_to_run env s model_id model_params name nm
    mo cs :
  resolve_name model_params name = Ok nm ->
  models s = Some mo -> n_models s = Some cs ->
  problems s = Some [] /\ is_Some (metrics s) \/ metrics s = Some [] ->
  add_model env (Some model_id) model_params name s
  = Outcome (Ok tt)
      (set_n_models (next_counts (od_mem model_id mo) model_id nm cs) s) [].
Proof.
  intros Hnm Hmo Hcs Hnone.
  rewrite (add_model_unfold env model_id model_params name s nm mo cs
             Hnm Hmo Hcs).
  unfold add_model_loop. destruct Hnone as [[Hps [ms Hms]] | Hms].
  - erewrite (bind_getattr "metrics" metrics) by exact Hms.
    by apply for_each_no_problems.
  - by erewrite (bind_getattr "metrics" metrics) by exact Hms.
Qed.

Lemma add_model_with_nothing_to_run_witness :
  res (add_model Demo.env (Some "LSTM") (Some ∅) None
         (Demo.experiment [] ["RNN"] false 5)) = Ok tt /\
  models (final (add_model Demo.env (Some "LSTM") (Some ∅) None
                   (Demo.experiment [] ["RNN"] false 5)))
  = Some [("RNN", None)].
Proof.
  rewrite (add_model_with_nothing_to_run Demo.env
             (Demo.experiment [] ["RNN"] false 5) "LSTM" (Some ∅) None None
             [("RNN", None)] ∅);
    [ by split | reflexivity | by_evaluation | by_evaluation | ].
  left. split; by_evaluation.
Defined.

(** *** The models after [add_model] *)

Lemma od_set_idem {V} k (v : V) d : od_set k v (od_set k v d) = od_set k v d.
Proof.
  induction d as [|[k0 v0] d IH]; cbn.
  - by rewrite String.eqb_refl.
  - destruct (String.eqb k k0) eqn:Hk; cbn; rewrite ?String.eqb_refl, ?Hk;
      [done | by rewrite IH].
Qed.

Lemma od_get_set_eq {V} k (v : V) d : od_get k (od_set k v d) = Some v.
Proof.
  induction d as [|[k0 v0] d IH]; cbn.
  - by rewrite String.eqb_refl.
  - destruct (String.eqb k k0) eqn:Hk; cbn; rewrite ?String.eqb_refl, ?Hk;
      [done | exact IH].
Qed.

Lemma od_get_set_ne {V} k k' (v : V) d :
  k' <> k -> od_get k' (od_set k v d) = od_get k' d.
Proof.
  intros Hne. induction d as [|[k0 v0] d IH]; cbn.
  - apply String.eqb_neq in Hne. by rewrite Hne.
  - destruct (String.eqb k k0) eqn:Hk; cbn.
    + apply String.eqb_eq in Hk as <-.
      apply String.eqb_neq in Hne. by rewrite Hne.
    + by rewrite IH.
Qed.

Lemma od_keys_set {V} k (v : V) d k' :
  k' ∈ od_keys (od_set k v d) -> k' = k \/ k' ∈ od_keys d.
Proof.
  unfold od_keys. induction d as [|[k0 v0] d IH]; cbn.
  - intros ?%list_elem_of_singleton. by left.
  - destruct (String.eqb k k0) eqn:Hk; cbn;
      rewrite !elem_of_cons; intros [->|H]; auto.
    destruct (IH H); auto.
Qed.

Lemma registers_refl k v s : registers k v s s.
Proof. intros mo Hmo. by left. Qed.

Lemma registers_trans k v s1 s2 s3 :
  registers k v s1 s2 -> registers k v s2 s3 -> registers k v s1 s3.
Proof.
  intros H12 H23 mo Hmo. destruct (H12 mo Hmo) as [H2|H2].
  - exact (H23 mo H2).
  - destruct (H23 _ H2) as [H3|H3]; [by right|].
    rewrite od_set_idem in H3. by right.
Qed.

Lemma add_model_step_registers env model_id model_params new_id metric
    problem :
  preserves (registers new_id model_params)
    (add_model_step env model_id model_params new_id metric problem).
Proof.
  unfold add_model_step, trial.
  preserves_steps (registers_refl new_id model_params)
    (registers_trans new_id model_params).
  - intros s mo Hmo. right. unfold models_setitem.
    by rewrite (bind_getattr _ _ _ _ _ Hmo).
  - intros s mo Hmo. left.
    by rewrite (result_setitem_keeps models _ _ (fun _ _ => eq_refl) s).
  - intros s mo Hmo. left.
    by rewrite (result_setitem_keeps models _ _ (fun _ _ => eq_refl) s).
  - intros s mo Hmo. left.
    by rewrite (result_setitem_keeps models _ _ (fun _ _ => eq_refl) s).
Qed.

Lemma add_model_metric_registers env model_id model_params new_id metric :
  preserves (registers new_id model_params)
    (add_model_metric env model_id model_params new_id metric).
Proof.
  unfold add_model_metric.
  preserves_steps (registers_refl new_id model_params)
    (registers_trans new_id model_params).
  apply add_model_step_registers.
Qed.

(** The state after a computation is related to the state after its first
    part by whatever the rest maintains. *)
Lemma final_bind_preserves (R : relation Experiment) {A B} (m : M A)
    (k : A -> M B) s :
  (forall s, R s s) -> (forall a, preserves R (k a)) ->
  R (final (m s)) (final (bind m k s)).
Proof.
  intros Hrefl Hk. unfold bind.
  destruct (m s) as [[a|e] s1 out1]; cbn; [|apply Hrefl].
  specialize (Hk a s1). by destruct (k a s1).
Qed.

Lemma registers_fixes k v s s' mo :
  registers k v s s' -> models s = Some (od_set k v mo) ->
  models s' = Some (od_set k v mo).
Proof.
  intros HR Hmo. destruct (HR _ Hmo) as [H|H]; [done|].
  by rewrite od_set_idem in H.
Qed.

(** Once the first trial has returned, the models hold the new one. *)
Lemma add_model_loop_registers env model_id model_params new_id
    p1 ps m1 ms v lb s mo r :
  ready (p1 :: ps) (m1 :: ms) v lb s -> models s = Some mo ->
  run_experiment env p1 (model_id, model_params) m1
    (get_key env) (get_timesteps env) v lb = Ok r ->
  models (final (add_model_loop env model_id model_params new_id s))
  = Some (od_set new_id model_params mo).
Proof.
  intros (Hps & Hms & Hv & Hlb & _ & [t Ht]) Hmo Hrun.
  unfold add_model_loop. rewrite (bind_getattr _ _ _ _ _ Hms).
  cbn [for_each].
  eapply registers_fixes.
  { apply (final_bind_preserves (registers new_id model_params));
      [apply registers_refl | intros _].
    apply (preserves_for_each (registers new_id model_params)
             (registers_refl _ _) (registers_trans _ _)).
    intros m. apply add_model_metric_registers. }
  unfold add_model_metric at 1. rewrite (bind_getattr _ _ _ _ _ Hps).
  cbn [for_each].
  rewrite (bind_pure _ _ _ _ _
             (add_model_step_returns _ _ _ new_id _ _ _ _ _ _ _ _
                Hv Hlb Hmo Ht Hrun)).
  eapply registers_fixes.
  { apply (preserves_for_each (registers new_id model_params)
             (registers_refl _ _) (registers_trans _ _)).
    intros q. apply add_model_step_registers. }
  reflexivity.
Qed.

(** X7: as soon as the first trial of [add_model] (first metric, first
    problem) has returned, the new model is among the models under the
    derived id with the parameters it was given, and every other model has
    the parameters it had; this holds whether the later trials return or
    the call ends with their exception. *)
Theorem add_model_registers_the_model env s model_id model_params name nm
    mo cs p1 ps m1 ms v lb r :
  resolve_name model_params name = Ok nm ->
  models s = Some mo -> n_models s = Some cs ->
  ready (p1 :: ps) (m1 :: ms) v lb s ->
  run_experiment env p1 (model_id, model_params) m1
    (get_key env) (get_timesteps env) v lb = Ok r ->
  lookup_model
    (spec_key (od_mem model_id mo) model_id nm (default 0 (cs !! model_id)))
    (final (add_model env (Some model_id) model_params name s))
  = Some model_params /\
  forall k,
    k <> spec_key (od_mem model_id mo) model_id nm
           (default 0 (cs !! model_id)) ->
    lookup_model k (final (add_model env (Some model_id) model_params name s))
    = lookup_model k s.
Proof.
  intros Hnm Hmo Hcs Hready Hrun.
  rewrite (add_model_unfold env model_id model_params name s nm mo cs
             Hnm Hmo Hcs).
  unfold lookup_model.
  erewrite add_model_loop_registers;
    [ | apply ready_set_n_models, Hready | exact Hmo | exact Hrun ].
  rewrite Hmo. cbn. split; [apply od_get_set_eq|].
  intros k Hk. by apply od_get_set_ne.
Qed.

Lemma add_model_registers_the_model_witness :
  lookup_model "RNN-SomeOptimizer"
    (final (add_model Demo.env (Some "RNN") some_optimizer None Demo.mixed))
  = Some some_optimizer /\
  lookup_model "RNN"
    (final (add_model Demo.env (Some "RNN") some_optimizer None Demo.mixed))
  = Some None /\
  res (add_model Demo.env (Some "RNN") some_optimizer None Demo.mixed)
  = Raise TypeError.
Proof.
  destruct (add_model_registers_the_model Demo.env Demo.mixed "RNN"
              some_optimizer None (Some "SomeOptimizer") [("RNN", None)] ∅
              ("ARMA-v0", None) [("CartPole-v0", None)] "mse" [] true true
              (VSeries [0; 0; 0], VNum 1, VNum 1))
    as [Hnew Hold];
    [ reflexivity | by_evaluation | by_evaluation | split_and!; by_evaluation
    | reflexivity | ].
  split_and!; [exact Hnew | | by_evaluation].
  rewrite (Hold "RNN"); [by_evaluation | discriminate].
Defined.

(** *** The table after [add_model] *)

Lemma add_model_loop_grows env model_id model_params new_id :
  preserves grows (add_model_loop env model_id model_params new_id).
Proof.
  unfold add_model_loop. preserves_steps grows_refl grows_trans.
  apply add_model_metric_grows.
Qed.

Lemma add_model_loop_registers_new env model_id model_params new_id :
  preserves (registers new_id model_params)
    (add_model_loop env model_id model_params new_id).
Proof.
  unfold add_model_loop.
  preserves_steps (registers_refl new_id model_params)
    (registers_trans new_id model_params).
  apply add_model_metric_registers.
Qed.

(** A complete table stays complete. *)
Lemma add_model_complete env s model_id model_params name nm
    mo cs ps ms v lb :
  complete s ->
  resolve_name model_params name = Ok nm ->
  models s = Some mo -> n_models s = Some cs ->
  ready ps ms v lb s ->
  all_trials_ok env model_id model_params v lb ms ps = true ->
  res (add_model env (Some model_id) model_params name s) = Ok tt /\
  complete (final (add_model env (Some model_id) model_params name s)).
Proof.
  intros Hcomplete Hnm Hmo Hcs Hready Hall.
  destruct (add_model_returns env s model_id model_params name nm mo cs
              ps ms v lb Hnm Hmo Hcs Hready Hall)
    as (Hres & _ & (Hps & Hms & _) & Hfiles & _ & _).
  split; [exact Hres|].
  revert Hps Hms Hfiles.
  rewrite (add_model_unfold env model_id model_params name s nm mo cs
             Hnm Hmo Hcs).
  set (key := spec_key _ _ _ _). set (s0 := set_n_models _ s).
  intros Hps Hms Hfiles ps' ms' mo' Hps' Hms' Hmo' metric p k Hmetric Hp Hk.
  rewrite Hps in Hps'. rewrite Hms in Hms'.
  injection Hps' as <-. injection Hms' as <-.
  assert (k = key \/ k ∈ od_keys mo) as [-> | Hold].
  { destruct (add_model_loop_registers_new env model_id model_params key
                s0 mo Hmo) as [H|H];
      rewrite H in Hmo'; injection Hmo' as <-; [by right|].
    by apply od_keys_set in Hk. }
  - apply list_elem_of_fmap in Hp as (problem & -> & Hproblem).
    by apply Hfiles.
  - pose proof Hready as (Hps0 & Hms0 & _).
    destruct (Hcomplete ps ms mo Hps0 Hms0 Hmo metric p k Hmetric Hp Hold)
      as (H1 & H2 & H3).
    pose proof (add_model_loop_grows env model_id model_params key s0)
      as Hgrows.
    split_and!; by apply Hgrows.
Qed.


(** X8: [add_model] keeps the results table complete.  If every metric,
    problem and model of the experiment has its loss, time and memory
    entries, and every trial of the new model returns, then the call
    returns and the same holds afterwards, the new model included: every
    lookup that [scoreboard] and [graph] make for the experiment's metrics
    finds its entry. *)
Theorem add_model_keeps_table_complete env s model_id model_params name nm
    mo cs ps ms v lb :
  complete s ->
  resolve_name model_params name = Ok nm ->
  models s = Some mo -> n_models s = Some cs ->
  ready ps ms v lb s ->
  all_trials_ok env model_id model_params v lb ms ps = true ->
  res (add_model env (Some model_id) model_params name s) = Ok tt /\
  complete (final (add_model env (Some model_id) model_params name s)).
Proof. apply add_model_complete. Qed.

Lemma demo_arma_complete : complete Demo.arma.
Proof.
  intros ps ms mo Hps Hms Hmo metric p k Hmetric Hp Hk.
  vm_compute in Hps, Hms, Hmo.
  injection Hps as <-. injection Hms as <-. injection Hmo as <-.
  apply list_elem_of_singleton in Hmetric as ->.
  apply list_elem_of_singleton in Hp as ->.
  apply list_elem_of_singleton in Hk as ->.
  split_and!; by_evaluation.
Defined.

Lemma add_model_keeps_table_complete_witness :
  res (add_model Demo.env (Some "RNN") some_optimizer None Demo.arma) = Ok tt /\
  complete (final (add_model Demo.env (Some "RNN") some_optimizer None
                     Demo.arma)).
Proof.
  apply (add_model_keeps_table_complete Demo.env Demo.arma "RNN"
           some_optimizer None (Some "SomeOptimizer") [("RNN", None)] ∅
           [("ARMA-v0", None)] ["mse"] true true);
    [ exact demo_arma_complete | reflexivity | by_evaluation | by_evaluation
    | split_and!; by_evaluation | by_evaluation ].
Defined.

(** *** Named additions *)

(** X9: an addition under an explicit name does not use up a number.  On
    an experiment that has the model [model_id], [add_model(model_id, ...,
    name)] derives [model_id-name] whatever the counters say, a second
    addition under the same name derives the same id (and so replaces the
    first), the counter of [model_id] is afterwards what it was (0 if there
    was none), and a nameless addition that follows gets the next number
    after it. *)
Theorem named_additions_share_a_key env s model_id model_params model_params'
    (d : gmap string hval) n mo cs :
  models s = Some mo -> od_mem model_id mo = true ->
  n_models s = Some cs -> d !! "optimizer" = None ->
  derived_id (Some model_id) model_params (Some n) s
  = Some (model_id +:+ "-" +:+ n) /\
  derived_id (Some model_id) model_params' (Some n)
    (final (add_model env (Some model_id) model_params (Some n) s))
  = Some (model_id +:+ "-" +:+ n) /\
  (exists cs',
     n_models (final (add_model env (Some model_id) model_params (Some n) s))
     = Some cs' /\
     cs' !! model_id = Some (default 0 (cs !! model_id))) /\
  derived_id (Some model_id) (Some d) None
    (final (add_model env (Some model_id) model_params (Some n) s))
  = Some (model_id +:+ "-" +:+ str (default 0 (cs !! model_id) + 1)).
Proof.
  intros Hmo Hmem Hcs Hopt.
  assert (resolve_name model_params (Some n) = Ok (Some n)) as Hnm by done.
  assert (resolve_name model_params' (Some n) = Ok (Some n)) as Hnm' by done.
  pose proof (resolve_name_anonymous d Hopt) as Hanon.
  rewrite (derived_id_spec model_id _ _ _ _ _ _ Hnm Hmo Hcs), Hmem.
  split; [reflexivity|].
  rewrite (add_model_unfold env model_id model_params (Some n) s _ mo cs
             Hnm Hmo Hcs), Hmem.
  set (key := spec_key _ _ _ _). set (s0 := set_n_models _ s).
  destruct (add_model_loop_models_grow env model_id model_params key s0 mo
              model_id Hmo Hmem) as (mo1 & Hmo1 & Hmem1).
  assert (n_models (final (add_model_loop env model_id model_params key s0))
          = Some (counted model_id cs)) as Hcs1.
  { by rewrite (add_model_loop_keeps n_models env model_id model_params key
                  (fun _ _ => eq_refl) (fun _ _ => eq_refl) s0). }
  assert (counted model_id cs !! model_id
          = Some (default 0 (cs !! model_id))) as Hcount.
  { unfold counted. destruct (cs !! model_id) as [c|] eqn:Hc; [done|].
    by rewrite lookup_insert_eq. }
  rewrite (derived_id_spec model_id _ _ _ _ _ _ Hnm' Hmo1 Hcs1), Hmem1.
  rewrite (derived_id_spec model_id _ _ _ _ _ _ Hanon Hmo1 Hcs1), Hmem1.
  split_and!; [reflexivity | eauto |].
  unfold spec_key. by rewrite Hcount.
Qed.

Lemma named_additions_share_a_key_witness :
  derived_id (Some "RNN") (Some ∅) (Some "tuned") Demo.arma
  = Some "RNN-tuned" /\
  derived_id (Some "RNN") some_optimizer (Some "tuned")
    (final (add_model Demo.env (Some "RNN") (Some ∅) (Some "tuned") Demo.arma))
  = Some "RNN-tuned" /\
  derived_id (Some "RNN") (Some ∅) None
    (final (add_model Demo.env (Some "RNN") (Some ∅) (Some "tuned") Demo.arma))
  = Some "RNN-1".
Proof.
  destruct (named_additions_share_a_key Demo.env Demo.arma "RNN" (Some ∅)
              some_optimizer ∅ "tuned" [("RNN", None)] ∅)
    as (H1 & H2 & _ & H3); [by_evaluation | reflexivity | by_evaluation
                           | reflexivity |].
  split_and!; [exact H1 | exact H2 | exact H3].
Defined.

(** *** What the entries hold *)

Lemma outcome_returned (o : outcome unit) :
  res o = Ok tt -> effects o = [] -> o = Outcome (Ok tt) (final o) [].
Proof. destruct o as [r s out]. cbn. by intros -> ->. Qed.

Lemma od_items_functional {V} (d : odict V) k (v1 v2 : V) :
  NoDup (od_keys d) -> (k, v1) ∈ d -> (k, v2) ∈ d -> v1 = v2.
Proof.
  unfold od_keys. induction d as [|[k0 v0] d IH]; cbn.
  { intros _ H. by apply elem_of_nil in H. }
  intros [Hk0 Hnd]%NoDup_cons [H1|H1]%elem_of_cons [H2|H2]%elem_of_cons.
  - congruence.
  - injection H1 as -> ->. destruct Hk0.
    apply list_elem_of_fmap. by exists (k0, v2).
  - injection H2 as -> ->. destruct Hk0.
    apply list_elem_of_fmap. by exists (k0, v1).
  - by apply IH.
Qed.

Section LoopInvariant.
Variable env : Env.
Variables (model_id : string) (model_params : params) (new_id : string).
Variables (ps : odict params) (ms : list string) (v lb : bool).

(** A property [I] of the instance that the pass for the problem [q0]
    establishes under the metrics selected by [E]. *)
Variable I : Experiment -> Prop.
Variable E : string -> bool.
Variable q0 : string * params.
Hypothesis q0_in : q0 ∈ ps.

Hypothesis I_established : forall metric s r mo t,
  E metric = true ->
  ready ps ms v lb s -> models s = Some mo ->
  prob_model_to_result s = Some t ->
  run_experiment env q0 (model_id, model_params) metric
    (get_key env) (get_timesteps env) v lb = Ok r ->
  I (stored new_id model_params metric (fst q0) r mo t s).

(** The passes for the other problems maintain it. *)
Hypothesis I_maintained : forall metric q s r mo t,
  q ∈ ps -> q <> q0 ->
  ready ps ms v lb s -> models s = Some mo ->
  prob_model_to_result s = Some t ->
  run_experiment env q (model_id, model_params) metric
    (get_key env) (get_timesteps env) v lb = Ok r ->
  I s -> I (stored new_id model_params metric (fst q) r mo t s).

(** So do the passes for [q0] under the other metrics. *)
Hypothesis I_maintained_unselected : forall metric s r mo t,
  E metric = false ->
  ready ps ms v lb s -> models s = Some mo ->
  prob_model_to_result s = Some t ->
  run_experiment env q0 (model_id, model_params) metric
    (get_key env) (get_timesteps env) v lb = Ok r ->
  I s -> I (stored new_id model_params metric (fst q0) r mo t s).

Lemma inner_loop_establishes metric :
  E metric = true ->
  forall qs s,
    (forall q, q ∈ qs -> q ∈ ps) -> ready ps ms v lb s ->
    forallb (trial_ok env model_id model_params v lb metric) qs = true ->
    I s \/ q0 ∈ qs ->
    I (final (for_each qs
                (add_model_step env model_id model_params new_id metric) s)).
Proof using I_established I_maintained.
  clear I_maintained_unselected q0_in.
  intros HE. induction qs as [|q qs IH]; intros s Hsub Hready Hall HI.
  { destruct HI as [HI|HI]; [exact HI | by apply elem_of_nil in HI]. }
  pose proof Hready as (_ & _ & Hv & Hlb & [mo Hmo] & [t Ht]).
  cbn [for_each forallb] in Hall |- *. apply andb_true_iff in Hall as [Hq Hall].
  unfold trial_ok in Hq.
  destruct (run_experiment env q (model_id, model_params) metric
              (get_key env) (get_timesteps env) v lb) as [r|e] eqn:Hrun;
    [|discriminate].
  rewrite (bind_pure _ _ _ _ _
             (add_model_step_returns _ _ _ new_id _ _ _ _ _ _ _ _
                Hv Hlb Hmo Ht Hrun)).
  apply IH; [ intros q' Hq'; apply Hsub; by right
            | by apply ready_stored | exact Hall | ].
  destruct (decide (q = q0)) as [->|Hne].
  { left. by apply I_established. }
  destruct HI as [HI|HI].
  - left. apply I_maintained; auto. apply Hsub. by left.
  - right. by apply elem_of_cons in HI as [->|?].
Qed.

Lemma inner_loop_maintains metric :
  E metric = false ->
  forall qs s,
    (forall q, q ∈ qs -> q ∈ ps) -> ready ps ms v lb s ->
    forallb (trial_ok env model_id model_params v lb metric) qs = true ->
    I s ->
    I (final (for_each qs
                (add_model_step env model_id model_params new_id metric) s)).
Proof using I_maintained I_maintained_unselected.
  clear I_established q0_in.
  intros HE. induction qs as [|q qs IH]; intros s Hsub Hready Hall HI;
    [exact HI|].
  pose proof Hready as (_ & _ & Hv & Hlb & [mo Hmo] & [t Ht]).
  cbn [for_each forallb] in Hall |- *. apply andb_true_iff in Hall as [Hq Hall].
  unfold trial_ok in Hq.
  destruct (run_experiment env q (model_id, model_params) metric
              (get_key env) (get_timesteps env) v lb) as [r|e] eqn:Hrun;
    [|discriminate].
  rewrite (bind_pure _ _ _ _ _
             (add_model_step_returns _ _ _ new_id _ _ _ _ _ _ _ _
                Hv Hlb Hmo Ht Hrun)).
  apply IH; [ intros q' Hq'; apply Hsub; by right
            | by apply ready_stored | exact Hall | ].
  destruct (decide (q = q0)) as [->|Hne].
  - by apply I_maintained_unselected.
  - apply I_maintained; auto. apply Hsub. by left.
Qed.

(** One pass of the outer loop whose trials return, as an outcome. *)
Lemma add_model_metric_returns metric s :
  ready ps ms v lb s ->
  forallb (trial_ok env model_id model_params v lb metric) ps = true ->
  add_model_metric env model_id model_params new_id metric s
  = Outcome (Ok tt)
      (final (for_each ps
                (add_model_step env model_id model_params new_id metric) s))
      [] /\
  ready ps ms v lb
    (final (for_each ps
              (add_model_step env model_id model_params new_id metric) s)).
Proof using Type.
  clear I_established I_maintained I_maintained_unselected q0_in.
  intros Hready Hall. pose proof Hready as (Hps & _).
  destruct (inner_loop_run env model_id model_params new_id metric ps ms v lb
              ps s Hready) as [Heff Hinner].
  rewrite Hall in Hinner. destruct Hinner as (Hres & Hready' & _).
  split; [|exact Hready'].
  unfold add_model_metric. rewrite (bind_getattr _ _ _ _ _ Hps).
  by apply outcome_returned.
Qed.

(** The property holds after the loops when the last metric selects it. *)
Lemma outer_loop_establishes_last :
  forall ms0 m s,
    E m = true -> ready ps ms v lb s ->
    all_trials_ok env model_id model_params v lb (ms0 ++ [m]) ps = true ->
    I (final (for_each (ms0 ++ [m])
                (add_model_metric env model_id model_params new_id) s)).
Proof using q0_in I_established I_maintained.
  clear I_maintained_unselected.
  induction ms0 as [|m0 ms0 IH]; intros m s HE Hready Hall;
    cbn [app for_each] in Hall |- *; unfold all_trials_ok in Hall;
    cbn [forallb] in Hall; apply andb_true_iff in Hall as [Hm Hall];
    destruct (add_model_metric_returns _ s Hready Hm) as [Hrun Hready'];
    rewrite (bind_pure _ _ _ _ _ Hrun).
  - cbn [for_each]. unfold ret. cbn [final].
    apply inner_loop_establishes; auto.
  - by apply IH.
Qed.

(** It holds after the loops when some metric selects it. *)
Lemma outer_loop_establishes :
  forall ms0 s,
    ready ps ms v lb s ->
    all_trials_ok env model_id model_params v lb ms0 ps = true ->
    I s \/ (exists m, m ∈ ms0 /\ E m = true) ->
    I (final (for_each ms0
                (add_model_metric env model_id model_params new_id) s)).
Proof using q0_in I_established I_maintained I_maintained_unselected.
  induction ms0 as [|m0 ms0 IH]; intros s Hready Hall HI.
  { destruct HI as [HI|(m & Hm & _)]; [exact HI | by apply elem_of_nil in Hm]. }
  cbn [for_each]. unfold all_trials_ok in Hall. cbn [forallb] in Hall.
  apply andb_true_iff in Hall as [Hm0 Hall].
  destruct (add_model_metric_returns _ s Hready Hm0) as [Hrun Hready'].
  rewrite (bind_pure _ _ _ _ _ Hrun).
  apply IH; [exact Hready' | exact Hall |].
  destruct (E m0) eqn:HE.
  - left. apply inner_loop_establishes; auto.
  - destruct HI as [HI|(m & Hm & HEm)].
    + left. by apply inner_loop_maintains.
    + right. exists m. split; [|exact HEm].
      apply elem_of_cons in Hm as [->|Hm]; [congruence | exact Hm].
Qed.

End LoopInvariant.

Lemma lookup_result_stored k new_id mp metric pid r mo t s :
  prob_model_to_result s = Some t ->
  lookup_result k (stored new_id mp metric pid r mo t s)
  = if decide (("memory", pid, new_id) = k) then Some r.2
    else if decide (("time", pid, new_id) = k) then Some r.1.2
    else if decide ((metric, pid, new_id) = k) then Some r.1.1
    else lookup_result k s.
Proof.
  intros Ht. unfold lookup_result, stored. rewrite Ht. cbn.
  rewrite !lookup_insert. by repeat case_decide.
Qed.

Lemma other_problem_other_id (ps : odict params) p pp q :
  NoDup (od_keys ps) -> (p, pp) ∈ ps -> q ∈ ps -> q <> (p, pp) -> fst q <> p.
Proof.
  intros Hnd Hp Hq Hne Heq. destruct q as [p' pp']. cbn in Heq. subst p'.
  destruct Hne. f_equal. by eapply od_items_functional.
Qed.

(** X10: when every trial of [add_model] returns, the entry filed under
    (metric, problem, derived id) is the loss that the runner returned for
    that problem and that metric, for every metric of the experiment other
    than the reserved names ["time"] and ["memory"] and every problem (the
    problem ids being those of a mapping, hence distinct). *)
Theorem add_model_files_the_runner_loss env s model_id model_params name nm
    mo cs ps ms v lb metric p pp r :
  resolve_name model_params name = Ok nm ->
  models s = Some mo -> n_models s = Some cs ->
  ready ps ms v lb s ->
  all_trials_ok env model_id model_params v lb ms ps = true ->
  NoDup (od_keys ps) -> (p, pp) ∈ ps ->
  metric ∈ ms -> metric <> "time" -> metric <> "memory" ->
  run_experiment env (p, pp) (model_id, model_params) metric
    (get_key env) (get_timesteps env) v lb = Ok r ->
  lookup_result
    (metric, p,
     spec_key (od_mem model_id mo) model_id nm (default 0 (cs !! model_id)))
    (final (add_model env (Some model_id) model_params name s))
  = Some r.1.1.
Proof.
  intros Hnm Hmo Hcs Hready Hall Hnd Hp Hmetric Htime Hmemory Hrun.
  rewrite (add_model_unfold env model_id model_params name s nm mo cs
             Hnm Hmo Hcs).
  set (key := spec_key _ _ _ _).
  pose proof (ready_set_n_models _ _ _ _
                (next_counts (od_mem model_id mo) model_id nm cs) _ Hready)
    as Hready0.
  pose proof Hready0 as (_ & Hms & _).
  unfold add_model_loop. rewrite (bind_getattr _ _ _ _ _ Hms).
  apply (outer_loop_establishes env model_id model_params key ps ms v lb
           (fun s => lookup_result (metric, p, key) s = Some r.1.1)
           (String.eqb metric) (p, pp) Hp); try done.
  - intros m s' r' mo' t' ->%String.eqb_eq _ _ Ht' Hrun'.
    rewrite Hrun in Hrun'. injection Hrun' as <-.
    rewrite (lookup_result_stored _ _ _ _ _ _ _ _ _ Ht'). cbn.
    repeat case_decide; congruence.
  - intros m q s' r' mo' t' Hq Hne _ _ Ht' _ HI.
    pose proof (other_problem_other_id ps p pp q Hnd Hp Hq Hne) as Hother.
    rewrite (lookup_result_stored _ _ _ _ _ _ _ _ _ Ht').
    repeat case_decide; congruence.
  - intros m s' r' mo' t' Hm%String.eqb_neq _ _ Ht' _ HI.
    rewrite (lookup_result_stored _ _ _ _ _ _ _ _ _ Ht'). cbn.
    repeat case_decide; congruence.
  - right. exists metric. by rewrite String.eqb_refl.
Qed.

Lemma add_model_files_the_runner_loss_witness :
  lookup_result ("mse", "ARMA-v0", "LSTM")
    (final (add_model Demo.env (Some "LSTM") (Some ∅) None Demo.arma))
  = Some (VSeries [0; 0; 0]).
Proof.
  apply (add_model_files_the_runner_loss Demo.env Demo.arma "LSTM" (Some ∅)
           None None [("RNN", None)] ∅ [("ARMA-v0", None)] ["mse"] true true
           "mse" "ARMA-v0" None (VSeries [0; 0; 0], VNum 1, VNum 1));
    try by_evaluation; try discriminate; try reflexivity.
  - split_and!; by_evaluation.
  - apply NoDup_singleton.
Defined.

(** X11: the entries under the reserved names ["time"] and ["memory"] are
    written once per metric and so hold, when every trial returns, the
    time and the memory of the trial run for the last metric of the
    experiment. *)
Theorem time_and_memory_are_of_the_last_metric env s model_id model_params
    name nm mo cs ps ms0 m_last v lb p pp r :
  resolve_name model_params name = Ok nm ->
  models s = Some mo -> n_models s = Some cs ->
  ready ps (ms0 ++ [m_last]) v lb s ->
  all_trials_ok env model_id model_params v lb (ms0 ++ [m_last]) ps = true ->
  NoDup (od_keys ps) -> (p, pp) ∈ ps ->
  run_experiment env (p, pp) (model_id, model_params) m_last
    (get_key env) (get_timesteps env) v lb = Ok r ->
  lookup_result
    ("time", p,
     spec_key (od_mem model_id mo) model_id nm (default 0 (cs !! model_id)))
    (final (add_model env (Some model_id) model_params name s))
  = Some r.1.2 /\
  lookup_result
    ("memory", p,
     spec_key (od_mem model_id mo) model_id nm (default 0 (cs !! model_id)))
    (final (add_model env (Some model_id) model_params name s))
  = Some r.2.
Proof.
  intros Hnm Hmo Hcs Hready Hall Hnd Hp Hrun.
  rewrite (add_model_unfold env model_id model_params name s nm mo cs
             Hnm Hmo Hcs).
  set (key := spec_key _ _ _ _).
  pose proof (ready_set_n_models _ _ _ _
                (next_counts (od_mem model_id mo) model_id nm cs) _ Hready)
    as Hready0.
  pose proof Hready0 as (_ & Hms & _).
  unfold add_model_loop. rewrite (bind_getattr _ _ _ _ _ Hms).
  apply (outer_loop_establishes_last env model_id model_params key ps
           (ms0 ++ [m_last]) v lb
           (fun s => lookup_result ("time", p, key) s = Some r.1.2 /\
                     lookup_result ("memory", p, key) s = Some r.2)
           (String.eqb m_last) (p, pp) Hp); try done.
  - intros m s' r' mo' t' ->%String.eqb_eq _ _ Ht' Hrun'.
    rewrite Hrun in Hrun'. injection Hrun' as <-.
    rewrite !(lookup_result_stored _ _ _ _ _ _ _ _ _ Ht'). cbn.
    split; repeat case_decide; congruence.
  - intros m q s' r' mo' t' Hq Hne _ _ Ht' _ HI.
    pose proof (other_problem_other_id ps p pp q Hnd Hp Hq Hne) as Hother.
    rewrite !(lookup_result_stored _ _ _ _ _ _ _ _ _ Ht').
    split; repeat case_decide; try congruence; apply HI.
  - apply String.eqb_refl.
Qed.

Lemma time_and_memory_are_of_the_last_metric_witness :
  lookup_result ("time", "ARMA-v0", "LSTM")
    (final (add_model timed_env (Some "LSTM") (Some ∅) None two_metrics))
  = Some (VNum 4) /\
  lookup_result ("memory", "ARMA-v0", "LSTM")
    (final (add_model timed_env (Some "LSTM") (Some ∅) None two_metrics))
  = Some (VNum 7).
Proof.
  apply (time_and_memory_are_of_the_last_metric timed_env two_metrics "LSTM"
           (Some ∅) None None [("RNN", None)] ∅ [("ARMA-v0", None)]
           ["mse"] "rmse" true true "ARMA-v0" None
           (VSeries [0; 0; 0], VNum 4, VNum 7));
    try by_evaluation; try reflexivity.
  - split_and!; by_evaluation.
  - apply NoDup_singleton.
Defined.

(** ** [scoreboard] *)

(** A step whose outcome is known from an option leaves the state and
    prints nothing. *)
Lemma bind_pure_or_raise {A B} (m : M A) (k : A -> M B) s (o : option A) e :
  m s = match o with
        | Some a => Outcome (Ok a) s []
        | None => Outcome (Raise e) s []
        end ->
  bind m k s = match o with
               | Some a => k a s
               | None => Outcome (Raise e) s []
               end.
Proof.
  destruct o as [a|]; intros Hm.
  - by apply bind_pure.
  - by apply bind_raises.
Qed.

Lemma collect_scores env metric problem_id model_ids s t :
  prob_model_to_result s = Some t ->
  collect model_ids (fun model_id =>
    r <- getattr "prob_model_to_result" prob_model_to_result ;;
    match r !! (metric, problem_id, model_id) with
    | Some v => ret (np_mean env v)
    | None => raise KeyError
    end) s
  = match expected_scores env metric t model_ids problem_id with
    | Some scores => Outcome (Ok scores) s []
    | None => Outcome (Raise KeyError) s []
    end.
Proof.
  intros Ht. unfold expected_scores.
  induction model_ids as [|k ks IH]; cbn [collect mapM]; [done|].
  rewrite bind_assoc, (bind_getattr _ _ _ _ _ Ht).
  destruct (t !! (metric, problem_id, k)) as [x|];
    cbn -[bind ret raise mapM]; [|done].
  rewrite bind_ret.
  destruct (mapM _ ks) as [scores|]; cbn -[bind ret raise].
  - by rewrite (bind_pure _ _ _ _ _ IH).
  - by rewrite (bind_raises _ _ _ _ _ _ IH).
Qed.

Lemma collect_rows env metric problem_ids model_ids s t :
  prob_model_to_result s = Some t ->
  collect problem_ids (scoreboard_row env metric model_ids) s
  = match expected_rows env metric t problem_ids model_ids with
    | Some rows => Outcome (Ok rows) s []
    | None => Outcome (Raise KeyError) s []
    end.
Proof.
  intros Ht. unfold expected_rows.
  induction problem_ids as [|p ps IH]; cbn [collect mapM]; [done|].
  unfold scoreboard_row at 1.
  rewrite bind_assoc, (bind_pure_or_raise _ _ _ _ _
                         (collect_scores env metric p model_ids s t Ht)).
  destruct (expected_scores env metric t model_ids p) as [scores|];
    cbn -[bind ret raise mapM]; [|done].
  rewrite bind_ret.
  destruct (mapM _ ps) as [rows|]; cbn -[bind ret raise].
  - by rewrite (bind_pure _ _ _ _ _ IH).
  - by rewrite (bind_raises _ _ _ _ _ _ IH).
Qed.

Lemma scoreboard_check_passes metric s up :
  use_precomputed s = Some up -> up = false \/ metric <> "time" ->
  scoreboard_check metric s = Outcome (Ok false) s [].
Proof.
  intros Hup Hpass. unfold scoreboard_check.
  rewrite (bind_getattr _ _ _ _ _ Hup).
  destruct Hpass as [-> | Hmetric%String.eqb_neq]; [done|].
  rewrite Hmetric. by destruct up.
Qed.

(** The whole of [scoreboard] once the condition of its warning is
    false. *)
Lemma scoreboard_run env save_as metric verbose s up ps mo t :
  use_precomputed s = Some up -> up = false \/ metric <> "time" ->
  problems s = Some ps -> models s = Some mo ->
  prob_model_to_result s = Some t ->
  scoreboard env save_as metric verbose s
  = match expected_rows env metric t (get_ids env ps) (get_ids env mo) with
    | Some rows =>
        Outcome (Ok tt) s
          (scoreboard_output metric verbose save_as (get_ids env mo) rows)
    | None =>
        Outcome (Raise KeyError) s
          (if verbose then [Print ("Average " +:+ metric +:+ ":")] else [])
    end.
Proof.
  intros Hup Hpass Hps Hmo Ht. unfold scoreboard, scoreboard_output.
  rewrite (bind_pure _ _ _ _ _ (scoreboard_check_passes metric s up Hup Hpass)).
  unfold when at 1. rewrite bind_ret.
  assert (forall out : list effect,
    after_effects out
      ((self_problems <- getattr "problems" problems;;
        self_models <- getattr "models" models;;
        let problem_ids := get_ids env self_problems in
        let model_ids := get_ids env self_models in
        let field_names := "Problems\Models" :: model_ids in
        rows <- collect problem_ids (scoreboard_row env metric model_ids);;
        emit (PrintTable field_names rows);;;
        match save_as with
        | Some path => emit (WriteCsv path (table_dict model_ids rows))
        | None => ret tt
        end) s)
    = match expected_rows env metric t (get_ids env ps) (get_ids env mo) with
      | Some rows =>
          Outcome (Ok tt) s
            (out ++ [PrintTable ("Problems\Models" :: get_ids env mo) rows] ++
             match save_as with
             | Some path =>
                 [WriteCsv path (table_dict (get_ids env mo) rows)]
             | None => []
             end)
      | None => Outcome (Raise KeyError) s out
      end) as Hrest.
  { intros out.
    rewrite (bind_getattr _ _ _ _ _ Hps), (bind_getattr _ _ _ _ _ Hmo).
    cbv zeta.
    rewrite (bind_pure_or_raise _ _ _ _ _
               (collect_rows env metric (get_ids env ps) (get_ids env mo)
                  s t Ht)).
    destruct (expected_rows env metric t (get_ids env ps) (get_ids env mo))
      as [rows|]; [|unfold after_effects; cbn; by rewrite app_nil_r].
    rewrite bind_emit. by destruct save_as. }
  destruct verbose; unfold when.
  - rewrite bind_print. apply Hrest.
  - rewrite bind_ret. specialize (Hrest []).
    unfold after_effects in Hrest.
    rewrite <- Hrest. by destruct (bind _ _ s).
Qed.

Lemma expected_rows_of_means env metric t problem_ids model_ids rows :
  expected_rows env metric t problem_ids model_ids = Some rows ->
  rows_of_means env metric t problem_ids model_ids rows.
Proof.
  unfold expected_rows, rows_of_means. intros Hrows%mapM_Some_1.
  eapply Forall2_impl; [exact Hrows|]. cbn.
  intros p [p' scores] Hrow.
  destruct (expected_scores env metric t model_ids p) as [scores'|] eqn:Hsc;
    [|discriminate].
  injection Hrow as <- <-. split; [done|].
  unfold expected_scores in Hsc. apply mapM_Some_1 in Hsc.
  eapply Forall2_impl; [exact Hsc|]. cbn. intros k score Hscore.
  destruct (t !! (metric, p, k)) as [x|]; [|discriminate].
  injection Hscore as <-. eauto.
Qed.

Lemma expected_rows_is_Some env metric t problem_ids model_ids :
  is_Some (expected_rows env metric t problem_ids model_ids) <->
  forall p k, p ∈ problem_ids -> k ∈ model_ids ->
    is_Some (t !! (metric, p, k)).
Proof.
  unfold expected_rows, expected_scores.
  rewrite mapM_is_Some, Forall_forall. split.
  - intros Hall p k Hp Hk. specialize (Hall p Hp). cbn in Hall.
    apply fmap_is_Some, mapM_is_Some in Hall.
    rewrite Forall_forall in Hall. specialize (Hall k Hk). cbn in Hall.
    by apply fmap_is_Some in Hall.
  - intros Hall p Hp. cbn. apply fmap_is_Some, mapM_is_Some.
    rewrite Forall_forall. intros k Hk. cbn. apply fmap_is_Some. auto.
Qed.

(** X12: when the results table lacks the entry of the metric for some
    problem and some model, [scoreboard] raises [KeyError]: apart from the
    line "Average <metric>:" of a verbose call, nothing is printed, no
    table is rendered and no file is written, and the instance is as
    before.  (The condition of the warning passes: precomputed results are
    not in use, or the metric is not ["time"].) *)
Theorem scoreboard_missing_entry_raises env save_as metric verbose s up
    ps mo t p k :
  use_precomputed s = Some up -> up = false \/ metric <> "time" ->
  problems s = Some ps -> models s = Some mo ->
  prob_model_to_result s = Some t ->
  p ∈ get_ids env ps -> k ∈ get_ids env mo ->
  t !! (metric, p, k) = None ->
  scoreboard env save_as metric verbose s
  = Outcome (Raise KeyError) s
      (if verbose then [Print ("Average " +:+ metric +:+ ":")] else []).
Proof.
  intros Hup Hpass Hps Hmo Ht Hp Hk Hmissing.
  rewrite (scoreboard_run env save_as metric verbose s up ps mo t
             Hup Hpass Hps Hmo Ht).
  destruct (expected_rows env metric t (get_ids env ps) (get_ids env mo))
    as [rows|] eqn:Hrows; [|done].
  assert (is_Some (t !! (metric, p, k))) as [x Hx].
  { eapply expected_rows_is_Some; eauto. }
  congruence.
Qed.

Lemma scoreboard_missing_entry_raises_witness :
  scoreboard Demo.env (Some "scores.csv") "mae" true Demo.arma
  = Outcome (Raise KeyError) Demo.arma [Print "Average mae:"].
Proof.
  rewrite (scoreboard_missing_entry_raises Demo.env (Some "scores.csv") "mae"
             true Demo.arma false [("ARMA-v0", None)] [("RNN", None)]
             (Demo.run_all [("ARMA-v0", None)] [("RNN", None)] None ["mse"] 5)
             "ARMA-v0" "RNN");
    [reflexivity | by_evaluation | by left | by_evaluation | by_evaluation
    | reflexivity | apply list_elem_of_here | apply list_elem_of_here
    | by_evaluation].
Defined.

(** X13: when the results table has the entry of the metric for every
    problem and model, [scoreboard] returns without changing the instance;
    it prints the line "Average <metric>:" if verbose, then one table whose
    field names are "Problems\Models" followed by the model ids and whose
    rows give, for each problem in order, the means of its entries for the
    models in order; with [save_as] it then writes the file, and nothing
    else. *)
Theorem scoreboard_prints_the_means env save_as metric verbose s up
    ps mo t :
  use_precomputed s = Some up -> up = false \/ metric <> "time" ->
  problems s = Some ps -> models s = Some mo ->
  prob_model_to_result s = Some t ->
  (forall p k, p ∈ get_ids env ps -> k ∈ get_ids env mo ->
     is_Some (t !! (metric, p, k))) ->
  exists rows,
    scoreboard env save_as metric verbose s
    = Outcome (Ok tt) s
        (scoreboard_output metric verbose save_as (get_ids env mo) rows) /\
    rows_of_means env metric t (get_ids env ps) (get_ids env mo) rows.
Proof.
  intros Hup Hpass Hps Hmo Ht Hall.
  rewrite (scoreboard_run env save_as metric verbose s up ps mo t
             Hup Hpass Hps Hmo Ht).
  apply (proj2 (expected_rows_is_Some env metric t _ _)) in Hall
    as [rows Hrows].
  exists rows. rewrite Hrows. split; [done|].
  by apply expected_rows_of_means.
Qed.

Lemma scoreboard_prints_the_means_witness :
  scoreboard Demo.env None "mse" true Demo.arma
  = Outcome (Ok tt) Demo.arma
      [Print "Average mse:";
       PrintTable ["Problems\Models"; "RNN"] [("ARMA-v0", [VNum 0])]].
Proof.
  destruct (scoreboard_prints_the_means Demo.env None "mse" true Demo.arma
              false [("ARMA-v0", None)] [("RNN", None)]
              (Demo.run_all [("ARMA-v0", None)] [("RNN", None)] None
                 ["mse"] 5))
    as (rows & Hrun & Hrows);
    [ by_evaluation | by left | by_evaluation | by_evaluation | reflexivity
    | | ].
  { intros p k ->%list_elem_of_singleton ->%list_elem_of_singleton.
    by_evaluation. }
  rewrite Hrun. f_equal.
  apply Forall2_cons_inv_l in Hrows
    as ([p scores] & rows' & [Hp Hsc] & Hnil & ->).
  apply Forall2_nil_inv_l in Hnil as ->. cbn in Hp, Hsc. subst p.
  apply Forall2_cons_inv_l in Hsc
    as (score & scores' & (x & Hx & ->) & Hnil & ->).
  apply Forall2_nil_inv_l in Hnil as ->.
  vm_compute in Hx. injection Hx as <-. reflexivity.
Defined.

(** X14: [scoreboard] never assigns an attribute: whatever its arguments
    and whether it returns or raises, the instance is afterwards exactly as
    it was. *)
Theorem scoreboard_is_read_only env save_as metric verbose s :
  final (scoreboard env save_as metric verbose s) = s.
Proof. apply scoreboard_changes_nothing. Qed.

(** X15: [add_model] followed by [scoreboard].  On an experiment whose
    table is complete, after an [add_model] all of whose trials return,
    [scoreboard] returns for every metric of the experiment (the condition
    of its warning passing): no lookup fails, the new model included.
    Here [get_ids] lists the keys of a mapping. *)
Theorem scoreboard_after_add_model env s model_id model_params name nm
    mo cs ps ms v lb up save_as metric verbose :
  (forall d, get_ids env d = od_keys d) ->
  complete s ->
  resolve_name model_params name = Ok nm ->
  models s = Some mo -> n_models s = Some cs ->
  ready ps ms v lb s ->
  all_trials_ok env model_id model_params v lb ms ps = true ->
  use_precomputed s = Some up -> up = false \/ metric <> "time" ->
  metric ∈ ms ->
  res (scoreboard env save_as metric verbose
         (final (add_model env (Some model_id) model_params name s)))
  = Ok tt.
Proof.
  intros Hids Hcomplete Hnm Hmo Hcs Hready Hall Hup Hpass Hmetric.
  destruct (add_model_complete env s model_id model_params name nm mo cs
              ps ms v lb Hcomplete Hnm Hmo Hcs Hready Hall)
    as [_ Hcomplete1].
  destruct (add_model_returns env s model_id model_params name nm mo cs
              ps ms v lb Hnm Hmo Hcs Hready Hall)
    as (_ & _ & (Hps1 & Hms1 & _ & _ & [mo1 Hmo1] & [t1 Ht1]) & _).
  assert (use_precomputed
            (final (add_model env (Some model_id) model_params name s))
          = Some up) as Hup1.
  { by rewrite (add_model_keeps use_precomputed env (Some model_id)
                  model_params name (fun _ _ => eq_refl)
                  (fun _ _ => eq_refl) (fun _ _ => eq_refl) s). }
  destruct (proj2 (expected_rows_is_Some env metric t1 (get_ids env ps)
                     (get_ids env mo1))) as [rows Hrows].
  { intros p k Hp Hk. rewrite Hids in Hp, Hk.
    destruct (Hcomplete1 ps ms mo1 Hps1 Hms1 Hmo1 metric p k Hmetric Hp Hk)
      as [Hentry _].
    unfold lookup_result in Hentry. by rewrite Ht1 in Hentry. }
  by rewrite (scoreboard_run env save_as metric verbose _ up ps mo1 t1
                Hup1 Hpass Hps1 Hmo1 Ht1), Hrows.
Qed.

Lemma scoreboard_after_add_model_witness :
  res (scoreboard Demo.env None "mse" false
         (final (add_model Demo.env (Some "RNN") some_optimizer None
                   Demo.arma)))
  = Ok tt.
Proof.
  apply (scoreboard_after_add_model Demo.env Demo.arma "RNN" some_optimizer
           None (Some "SomeOptimizer") [("RNN", None)] ∅
           [("ARMA-v0", None)] ["mse"] true true false);
    [ done | exact demo_arma_complete | reflexivity | by_evaluation
    | by_evaluation | split_and!; by_evaluation | by_evaluation
    | by_evaluation | by left | apply list_elem_of_here ].
Defined.

(** *** The file written by [scoreboard] *)

(** Settles a closed decidable statement by evaluation. *)
Ltac by_decision := apply (bool_decide_unpack _); vm_compute; exact I.

Lemma od_set_fresh {V} k (v : V) d :
  k ∉ od_keys d -> od_set k v d = d ++ [(k, v)].
Proof.
  unfold od_keys. induction d as [|[k0 v0] d IH]; cbn; [done|].
  intros [Hne Hk]%not_elem_of_cons.
  apply String.eqb_neq in Hne. rewrite Hne. by rewrite IH.
Qed.

(** The rows added to [table_dict] stay behind its first line. *)
Lemma table_dict_head (rows : list (string * list value))
    (x : list string + list value) (d : odict (list string + list value)) :
  "Models" ∉ map fst rows ->
  exists rest,
    fold_left (fun d (row : string * list value) =>
                 od_set (fst row) (inr (snd row)) d) rows
      (("Models", x) :: d)
    = ("Models", x) :: rest /\
    (NoDup (od_keys d ++ map fst rows) ->
     rest = d ++ map (fun row => (fst row, inr (snd row))) rows).
Proof.
  revert d. induction rows as [|[k sc] rows IH]; intros d Hnot; cbn.
  { exists d. split; [done|]. intros _. by rewrite app_nil_r. }
  apply not_elem_of_cons in Hnot as [Hk Hnot]. cbn in Hk.
  assert (String.eqb k "Models" = false) as -> by by apply String.eqb_neq.
  destruct (IH (od_set k (inr sc) d) Hnot) as (rest & Hrest & Happ).
  exists rest. split; [done|].
  intros Hnd.
  assert (k ∉ od_keys d) as Hkd.
  { apply NoDup_app in Hnd as (_ & Hdisj & _).
    intros Hin. apply (Hdisj k Hin). by left. }
  rewrite (od_set_fresh _ _ _ Hkd) in Happ.
  rewrite Happ; [by rewrite <- app_assoc|].
  unfold od_keys. rewrite fmap_app. cbn. by rewrite <- app_assoc.
Qed.

(** X16: the file that [scoreboard] writes has, when the problem ids are
    distinct and none of them is "Models", the line of the model ids under
    the key "Models" first and then one line of scores per problem, in the
    order of the rows of the table. *)
Theorem csv_has_header_and_one_line_per_problem model_ids
    (rows : list (string * list value)) :
  NoDup (map fst rows) -> "Models" ∉ map fst rows ->
  table_dict model_ids rows
  = ("Models", inl model_ids)
      :: map (fun row => (fst row, inr (snd row))) rows.
Proof.
  intros Hnd Hnot. unfold table_dict.
  destruct (table_dict_head rows (inl model_ids) [] Hnot)
    as (rest & -> & Hrest).
  by rewrite Hrest.
Qed.

Lemma csv_has_header_and_one_line_per_problem_witness :
  table_dict ["RNN"; "LSTM"]
    [("ARMA-v0", [VNum 1; VNum 2]); ("LDS-v0", [VNum 3; VNum 4])]
  = [("Models", inl ["RNN"; "LSTM"]);
     ("ARMA-v0", inr [VNum 1; VNum 2]); ("LDS-v0", inr [VNum 3; VNum 4])].
Proof.
  apply (csv_has_header_and_one_line_per_problem ["RNN"; "LSTM"]
           [("ARMA-v0", [VNum 1; VNum 2]); ("LDS-v0", [VNum 3; VNum 4])]).
  - by_decision.
  - by_decision.
Defined.

(** X17: a problem whose id is "Models" takes the place of the header: the
    first line of the file then holds the scores of that problem, and the
    line of the model ids is lost. *)
Theorem problem_named_models_replaces_header model_ids
    (rows : list (string * list value)) scores :
  NoDup (map fst rows) -> ("Models", scores) ∈ rows ->
  exists rest, table_dict model_ids rows = ("Models", inr scores) :: rest.
Proof.
  unfold table_dict. generalize (inl model_ids : list string + list value).
  generalize (@nil (string * (list string + list value))).
  induction rows as [|[k sc] rows IH]; intros d x Hnd Hin.
  { by apply elem_of_nil in Hin. }
  cbn in Hnd. apply NoDup_cons in Hnd as [Hk Hnd]. cbn.
  destruct (String.eqb k "Models") eqn:Heq.
  - apply String.eqb_eq in Heq as ->.
    apply elem_of_cons in Hin as [Hin|Hin].
    + injection Hin as ->.
      destruct (table_dict_head rows (inr sc) d Hk) as (rest & -> & _).
      by exists rest.
    + destruct Hk. apply list_elem_of_fmap. by exists ("Models", scores).
  - apply elem_of_cons in Hin as [Hin|Hin].
    + injection Hin as <- _. vm_compute in Heq. discriminate Heq.
    + by apply IH.
Qed.

Lemma problem_named_models_replaces_header_witness :
  table_dict ["RNN"] [("ARMA-v0", [VNum 1]); ("Models", [VNum 2])]
  = [("Models", inr [VNum 2]); ("ARMA-v0", inr [VNum 1])].
Proof.
  destruct (problem_named_models_replaces_header ["RNN"]
              [("ARMA-v0", [VNum 1]); ("Models", [VNum 2])] [VNum 2])
    as [rest Hrest].
  - by_decision.
  - by_evaluation.
  - rewrite Hrest. injection Hrest as <-. reflexivity.
Defined.

(** ** [graph] *)

Lemma panels_from_plots curves (results : list (value * string)) cell rest :
  panels_from curves
    (map (fun '(loss, model) => Plot cell loss model) results ++ rest)
  = panels_from (curves ++ results) rest.
Proof.
  revert curves. induction results as [|[loss model] results IH];
    intros curves; cbn.
  - by rewrite app_nil_r.
  - by rewrite IH, <- app_assoc.
Qed.

Lemma panels_from_single_plots curves (results : list (value * string)) rest :
  panels_from curves
    (flat_map (fun '(loss, model) =>
                 [Plot None loss model; Legend None "upper left" None])
              results ++ rest)
  = panels_from (curves ++ results) rest.
Proof.
  revert curves. induction results as [|[loss model] results IH];
    intros curves; cbn.
  - by rewrite app_nil_r.
  - by rewrite IH, <- app_assoc.
Qed.

Lemma panels_single metric info :
  panels (graph_single metric info) = [panel_of_info info].
Proof.
  destruct info as [[problem results] model_list].
  unfold panels, graph_single. by rewrite panels_from_single_plots.
Qed.

Lemma panels_cell metric n i j info rest :
  panels (graph_cell metric n i j info ++ rest)
  = panel_of_info info :: panels rest.
Proof.
  destruct info as [[problem results] model_list].
  unfold panels, graph_cell. by rewrite <- app_assoc, panels_from_plots.
Qed.

(** The inner loop returns; it takes the problems from the counter on, one
    per column, as far as there are any. *)
Lemma graph_row_panels metric infos i js cur_pb :
  (cur_pb <= length infos)%nat ->
  exists calls,
    graph_row metric (length infos) infos i js cur_pb
    = Ok (calls, Nat.min (length infos) (cur_pb + length js)) /\
    forall rest,
      panels (calls ++ rest)
      = map panel_of_info (take (length js) (drop cur_pb infos))
        ++ panels rest.
Proof.
  revert cur_pb. induction js as [|j js IH]; intros cur_pb Hcur.
  - exists []. cbn [graph_row length]. split; [|done].
    do 2 f_equal. lia.
  - cbn [graph_row length].
    destruct (Nat.eqb_spec cur_pb (length infos)) as [->|Hne].
    + eexists. split; [do 2 f_equal; lia|].
      intros rest. by rewrite drop_all.
    + destruct (lookup_lt_is_Some_2 infos cur_pb ltac:(lia)) as [info Hinfo].
      rewrite Hinfo.
      destruct (IH (cur_pb + 1)%nat ltac:(lia)) as (row & -> & Hrow).
      eexists. split; [cbn; do 2 f_equal; lia|].
      intros rest. cbn [fst].
      rewrite <- app_assoc, panels_cell, Hrow.
      rewrite (drop_S _ _ _ Hinfo). cbn [take map].
      by rewrite Nat.add_1_r.
Qed.

Lemma take_drop_min {A} (l : list A) a b :
  take b (drop (Nat.min (length l) a) l) = take b (drop a l).
Proof.
  destruct (Nat.le_gt_cases a (length l)) as [Hle|Hgt].
  - by rewrite Nat.min_r.
  - rewrite Nat.min_l, drop_all, drop_ge by lia. done.
Qed.

(** The outer loop returns; row after row it takes the problems in
    order. *)
Lemma graph_rows_panels metric infos rows ncols cur_pb :
  (cur_pb <= length infos)%nat ->
  exists calls,
    graph_rows metric (length infos) infos rows ncols cur_pb = Ok calls /\
    forall rest,
      panels (calls ++ rest)
      = map panel_of_info (take (length rows * ncols) (drop cur_pb infos))
        ++ panels rest.
Proof.
  revert cur_pb. induction rows as [|i rows IH]; intros cur_pb Hcur.
  - exists []. by cbn.
  - cbn [graph_rows length].
    destruct (graph_row_panels metric infos i (seq 0 ncols) cur_pb Hcur)
      as (row & -> & Hrow).
    rewrite length_seq in Hrow |- *. cbn [rbind snd fst].
    destruct (IH (Nat.min (length infos) (cur_pb + ncols)) ltac:(lia))
      as (others & -> & Hothers).
    eexists. split; [done|].
    intros rest. rewrite <- app_assoc, Hrow, Hothers.
    rewrite take_drop_min, app_assoc, <- fmap_app. f_equal. f_equal.
    change (S (length rows) * ncols)%nat
      with (ncols + length rows * ncols)%nat.
    by rewrite <- take_take_drop, drop_drop.
Qed.

(** The drawing returns for every list of gathered problems: the counter
    never runs past the list.  The panels are those of the first problems,
    as many as there are axes. *)
Lemma graph_draw_panels metric infos :
  exists calls,
    graph_draw metric (length infos) infos = Ok calls /\
    forall rest,
      panels (calls ++ rest)
      = map panel_of_info (take (axes (length infos)) infos) ++ panels rest.
Proof.
  unfold graph_draw. cbv zeta.
  destruct (Nat.eqb_spec (length infos) 1) as [Hone|Hmore].
  - destruct infos as [|info [|? ?]]; try discriminate Hone.
    cbn [lookup list_lookup rbind]. eexists. split; [done|].
    intros rest. destruct info as [[problem results] model_list].
    unfold panels, graph_single. cbn [app panels_from].
    by rewrite <- app_assoc, panels_from_single_plots.
  - destruct (graph_rows_panels metric infos
                (seq 0 (Nat.max (length infos / 2) 1))
                (length infos / 2 + length infos mod 2) 0 ltac:(lia))
      as (drawn & -> & Hdrawn).
    eexists. split; [done|].
    intros rest. rewrite length_seq in Hdrawn.
    change (panels ((Subplots ?r ?c :: drawn) ++ rest))
      with (panels (drawn ++ rest)).
    by rewrite Hdrawn.
Qed.

Lemma panels_finish save_as time : panels (graph_finish save_as time) = [].
Proof. unfold graph_finish. by destruct (truthy time), save_as. Qed.

Lemma collect_results metric problem_id model_ids s t :
  prob_model_to_result s = Some t ->
  collect model_ids (fun model_id =>
    r <- getattr "prob_model_to_result" prob_model_to_result ;;
    match r !! (metric, problem_id, model_id) with
    | Some loss => ret (loss, model_id)
    | None => raise KeyError
    end) s
  = match expected_results metric t model_ids problem_id with
    | Some results => Outcome (Ok results) s []
    | None => Outcome (Raise KeyError) s []
    end.
Proof.
  intros Ht. unfold expected_results.
  induction model_ids as [|k ks IH]; cbn [collect mapM]; [done|].
  rewrite bind_assoc, (bind_getattr _ _ _ _ _ Ht).
  destruct (t !! (metric, problem_id, k)) as [x|];
    cbn -[bind ret raise mapM]; [|done].
  rewrite bind_ret.
  destruct (mapM _ ks) as [results|]; cbn -[bind ret raise].
  - by rewrite (bind_pure _ _ _ _ _ IH).
  - by rewrite (bind_raises _ _ _ _ _ _ IH).
Qed.

Lemma collect_info metric problem_ids model_ids s t :
  prob_model_to_result s = Some t ->
  collect problem_ids (graph_problem_info metric model_ids) s
  = match expected_info metric t problem_ids model_ids with
    | Some infos => Outcome (Ok infos) s []
    | None => Outcome (Raise KeyError) s []
    end.
Proof.
  intros Ht. unfold expected_info.
  induction problem_ids as [|p ps IH]; cbn [collect mapM]; [done|].
  unfold graph_problem_info at 1.
  rewrite bind_assoc, (bind_pure_or_raise _ _ _ _ _
                         (collect_results metric p model_ids s t Ht)).
  destruct (expected_results metric t model_ids p) as [results|];
    cbn -[bind ret raise mapM]; [|done].
  rewrite bind_ret.
  destruct (mapM _ ps) as [infos|]; cbn -[bind ret raise].
  - by rewrite (bind_pure _ _ _ _ _ IH).
  - by rewrite (bind_raises _ _ _ _ _ _ IH).
Qed.

Lemma existsb_eqb (x : string) (l : list string) :
  existsb (String.eqb x) l = true <-> x ∈ l.
Proof.
  rewrite existsb_exists. split.
  - intros (y & Hy%list_elem_of_In & ->%String.eqb_eq). done.
  - intros Hx. exists x. split; [by apply list_elem_of_In|].
    apply String.eqb_refl.
Qed.

(** The whole of [graph] for a metric of the experiment. *)
Lemma graph_run env problem_ids save_as metric time s ms ps mo t :
  metrics s = Some ms -> metric ∈ ms ->
  problems s = Some ps -> models s = Some mo ->
  prob_model_to_result s = Some t ->
  graph env problem_ids save_as metric time s
  = match expected_info metric t (shown_problems env problem_ids ps)
            (get_ids env mo) with
    | Some infos =>
        match graph_draw metric
                (length (shown_problems env problem_ids ps)) infos with
        | Ok drawn => Outcome (Ok (drawn ++ graph_finish save_as time)) s []
        | Raise e => Outcome (Raise e) s []
        end
    | None => Outcome (Raise KeyError) s []
    end.
Proof.
  intros Hms Hmetric%existsb_eqb Hps Hmo Ht. unfold graph.
  rewrite (bind_getattr _ _ _ _ _ Hms), Hmetric.
  assert ((match problem_ids with
           | Some ids => ret ids
           | None =>
               self_problems <- getattr "problems" problems ;;
               ret (get_ids env self_problems)
           end) s
          = Outcome (Ok (shown_problems env problem_ids ps)) s []) as Hids.
  { destruct problem_ids as [ids|]; [done|].
    by rewrite (bind_getattr _ _ _ _ _ Hps). }
  rewrite (bind_pure _ _ _ _ _ Hids), (bind_getattr _ _ _ _ _ Hmo).
  cbv zeta.
  rewrite (bind_pure_or_raise _ _ _ _ _
             (collect_info metric (shown_problems env problem_ids ps)
                (get_ids env mo) s t Ht)).
  destruct (expected_info _ _ _ _) as [infos|]; [|done].
  destruct (graph_draw metric _ infos) as [drawn|e].
  - by rewrite bind_lift_ok.
  - by rewrite bind_lift_raise.
Qed.

Lemma expected_info_is_Some metric t problem_ids model_ids :
  is_Some (expected_info metric t problem_ids model_ids) <->
  forall p k, p ∈ problem_ids -> k ∈ model_ids ->
    is_Some (t !! (metric, p, k)).
Proof.
  unfold expected_info, expected_results.
  rewrite mapM_is_Some, Forall_forall. split.
  - intros Hall p k Hp Hk. specialize (Hall p Hp). cbn in Hall.
    apply fmap_is_Some, mapM_is_Some in Hall.
    rewrite Forall_forall in Hall. specialize (Hall k Hk). cbn in Hall.
    by apply fmap_is_Some in Hall.
  - intros Hall p Hp. cbn. apply fmap_is_Some, mapM_is_Some.
    rewrite Forall_forall. intros k Hk. cbn. apply fmap_is_Some. auto.
Qed.

Lemma expected_info_length metric t problem_ids model_ids infos :
  expected_info metric t problem_ids model_ids = Some infos ->
  length infos = length problem_ids.
Proof.
  unfold expected_info. intros H%mapM_Some_1.
  symmetry. by eapply Forall2_length.
Qed.

Lemma expected_info_panels metric t problem_ids model_ids infos n :
  expected_info metric t problem_ids model_ids = Some infos ->
  panels_of_table metric t (take n problem_ids) model_ids
    (map panel_of_info (take n infos)).
Proof.
  unfold expected_info, panels_of_table. intros Hinfos%mapM_Some_1.
  apply Forall2_fmap_r, Forall2_take.
  eapply Forall2_impl; [exact Hinfos|]. cbn.
  intros p [[p' results] model_list] Hinfo.
  destruct (expected_results metric t model_ids p) as [results'|] eqn:Hres;
    [|discriminate].
  injection Hinfo as <- <- <-. split; [done|]. cbn.
  unfold expected_results in Hres. apply mapM_Some_1 in Hres.
  eapply Forall2_impl; [exact Hres|]. cbn. intros k [loss label] Hcurve.
  destruct (t !! (metric, p, k)) as [x|]; [|discriminate].
  by injection Hcurve as <- <-.
Qed.

(** With every entry in the table [graph] returns, and its panels are
    those of the first problems, as many as there are axes. *)
Lemma graph_panels env problem_ids save_as metric time s ms ps mo t :
  metrics s = Some ms -> metric ∈ ms ->
  problems s = Some ps -> models s = Some mo ->
  prob_model_to_result s = Some t ->
  (forall p k, p ∈ shown_problems env problem_ids ps ->
     k ∈ get_ids env mo -> is_Some (t !! (metric, p, k))) ->
  exists calls,
    graph env problem_ids save_as metric time s = Outcome (Ok calls) s [] /\
    panels_of_table metric t
      (take (axes (length (shown_problems env problem_ids ps)))
         (shown_problems env problem_ids ps))
      (get_ids env mo) (panels calls).
Proof.
  intros Hms Hmetric Hps Hmo Ht Hall.
  rewrite (graph_run env problem_ids save_as metric time s ms ps mo t
             Hms Hmetric Hps Hmo Ht).
  apply (proj2 (expected_info_is_Some metric t _ _)) in Hall
    as [infos Hinfos].
  rewrite Hinfos, <- (expected_info_length _ _ _ _ _ Hinfos).
  destruct (graph_draw_panels metric infos) as (drawn & -> & Hdrawn).
  eexists. split; [done|].
  rewrite Hdrawn, panels_finish, app_nil_r.
  by apply expected_info_panels.
Qed.

Lemma axes_cover n : n <> 2%nat -> n <> 3%nat -> (n <= axes n)%nat.
Proof.
  intros H2 H3. unfold axes.
  pose proof (Nat.div_mod_eq n 2) as Hn.
  pose proof (Nat.mod_upper_bound n 2 ltac:(lia)) as Hr.
  destruct (Nat.le_gt_cases 2 (n / 2)) as [Hh|Hh].
  - rewrite Nat.max_l by lia. nia.
  - assert (n = 0 \/ n = 1)%nat as [-> | ->] by lia; cbn; lia.
Qed.


Lemma silent_collect {A B} (xs : list A) (f : A -> M B) :
  (forall x, silent (f x)) -> silent (collect xs f).
Proof.
  intros Hf. induction xs as [|x xs IH]; cbn [collect].
  - apply silent_ret.
  - apply silent_bind; [apply Hf|]. intros y.
    apply silent_bind; [apply IH|]. intros ys. apply silent_ret.
Qed.

Lemma panels_of_table_titles metric t problem_ids model_ids ps :
  panels_of_table metric t problem_ids model_ids ps ->
  map fst ps = map (String.append "Problem:") problem_ids.
Proof.
  unfold panels_of_table. induction 1 as [|p panel ids ps [Hp _] _ IH]; cbn.
  - done.
  - by rewrite Hp, IH.
Qed.

(** Takes a membership in a list that is written out to its cases. *)
Ltac each_member H :=
  repeat (apply elem_of_cons in H as [->|H]); [..|by apply elem_of_nil in H].

(** X18: [graph] with a metric that is not among the metrics of the
    experiment raises [AssertionError] (with no message) before it reads
    the problems, the models or the results and before it makes any
    plotting call; the instance is unchanged and nothing is printed.  The
    pseudo-metrics "time" and "memory", which [scoreboard] accepts, are
    refused unless they were given as metrics. *)
Theorem graph_unknown_metric_is_refused env problem_ids save_as metric time
    s ms :
  metrics s = Some ms -> metric ∉ ms ->
  graph env problem_ids save_as metric time s
  = Outcome (Raise (AssertionError "")) s [].
Proof.
  intros Hms Hmetric. unfold graph.
  rewrite (bind_getattr _ _ _ _ _ Hms).
  destruct (existsb (String.eqb metric) ms) eqn:Hex; [|done].
  by apply existsb_eqb in Hex.
Qed.

Lemma graph_unknown_metric_is_refused_witness :
  graph Demo.env None None "time" None Demo.arma
  = Outcome (Raise (AssertionError "")) Demo.arma [].
Proof.
  apply (graph_unknown_metric_is_refused Demo.env None None "time" None
           Demo.arma ["mse"]).
  - by_evaluation.
  - by_decision.
Defined.

(** X19: when the results table lacks the entry of the metric for one of
    the problems to show and one of the models, [graph] raises [KeyError]
    while it gathers the results: no plotting call is made, whatever the
    position of the problem, and the instance is unchanged.  Problem ids
    passed as an argument are not checked against the experiment's
    problems before that. *)
Theorem graph_missing_entry_raises env problem_ids save_as metric time
    s ms ps mo t p k :
  metrics s = Some ms -> metric ∈ ms ->
  problems s = Some ps -> models s = Some mo ->
  prob_model_to_result s = Some t ->
  p ∈ shown_problems env problem_ids ps -> k ∈ get_ids env mo ->
  t !! (metric, p, k) = None ->
  graph env problem_ids save_as metric time s
  = Outcome (Raise KeyError) s [].
Proof.
  intros Hms Hmetric Hps Hmo Ht Hp Hk Hnone.
  rewrite (graph_run env problem_ids save_as metric time s ms ps mo t
             Hms Hmetric Hps Hmo Ht).
  destruct (expected_info _ _ _ _) as [infos|] eqn:Hinfos; [|done].
  assert (is_Some (t !! (metric, p, k))) as [x Hx].
  { apply (proj1 (expected_info_is_Some metric t _ _) (mk_is_Some _ _ Hinfos)
             p k Hp Hk). }
  congruence.
Qed.

Lemma graph_missing_entry_raises_witness :
  graph Demo.env (Some ["ARMA-v0"; "LDS-v0"]) None "mse" None Demo.arma
  = Outcome (Raise KeyError) Demo.arma [].
Proof.
  apply (graph_missing_entry_raises Demo.env (Some ["ARMA-v0"; "LDS-v0"])
           None "mse" None Demo.arma ["mse"] [("ARMA-v0", None)]
           [("RNN", None)]
           (Demo.run_all [("ARMA-v0", None)] [("RNN", None)] None
              ["mse"] 5) "LDS-v0" "RNN").
  - by_evaluation.
  - by_evaluation.
  - by_evaluation.
  - by_evaluation.
  - reflexivity.
  - by_evaluation.
  - by_evaluation.
  - by_evaluation.
Defined.

(** X20: [graph] never assigns an attribute and never prints: whatever its
    arguments and whether it returns or raises, the instance is afterwards
    exactly as it was. *)
Theorem graph_is_read_only env problem_ids save_as metric time s :
  final (graph env problem_ids save_as metric time s) = s /\
  effects (graph env problem_ids save_as metric time s) = [].
Proof.
  split; revert s.
  - change (preserves (keeps (fun s => s))
              (graph env problem_ids save_as metric time)).
    unfold graph, graph_problem_info. cbv zeta. keeps_steps.
  - change (silent (graph env problem_ids save_as metric time)).
    unfold graph. cbv zeta. silent_steps.
    apply silent_collect. intros p. unfold graph_problem_info.
    silent_steps. apply silent_collect. intros k. silent_steps.
Qed.

(** X21: with a number of problems to show other than 2 and 3, and every
    entry of the metric in the results table, [graph] returns and draws
    one panel per problem, in the order of the problems: the panel is
    titled "Problem:<id>" and has one curve per model, in the order of the
    models, the entry of the table labelled with the model id. *)
Theorem graph_shows_every_problem env problem_ids save_as metric time
    s ms ps mo t :
  metrics s = Some ms -> metric ∈ ms ->
  problems s = Some ps -> models s = Some mo ->
  prob_model_to_result s = Some t ->
  (forall p k, p ∈ shown_problems env problem_ids ps ->
     k ∈ get_ids env mo -> is_Some (t !! (metric, p, k))) ->
  length (shown_problems env problem_ids ps) <> 2%nat ->
  length (shown_problems env problem_ids ps) <> 3%nat ->
  exists calls,
    graph env problem_ids save_as metric time s = Outcome (Ok calls) s [] /\
    panels_of_table metric t (shown_problems env problem_ids ps)
      (get_ids env mo) (panels calls).
Proof.
  intros Hms Hmetric Hps Hmo Ht Hall H2 H3.
  destruct (graph_panels env problem_ids save_as metric time s ms ps mo t
              Hms Hmetric Hps Hmo Ht Hall) as (calls & Hrun & Hpanels).
  exists calls. split; [done|].
  by rewrite take_ge in Hpanels by by apply axes_cover.
Qed.

Lemma graph_shows_every_problem_witness :
  exists calls,
    graph Demo.env None None "mse" None
      (compared ["ARMA-v0"; "LDS-v0"; "SP500-v0"; "Random-v0"])
    = Outcome (Ok calls)
        (compared ["ARMA-v0"; "LDS-v0"; "SP500-v0"; "Random-v0"]) [] /\
    map fst (panels calls)
    = ["Problem:ARMA-v0"; "Problem:LDS-v0"; "Problem:SP500-v0";
       "Problem:Random-v0"].
Proof.
  destruct (graph_shows_every_problem Demo.env None None "mse" None
              (compared ["ARMA-v0"; "LDS-v0"; "SP500-v0"; "Random-v0"])
              ["mse"]
              [("ARMA-v0", None); ("LDS-v0", None); ("SP500-v0", None);
               ("Random-v0", None)]
              [("RNN", None); ("LSTM", None)]
              (Demo.run_all
                 [("ARMA-v0", None); ("LDS-v0", None); ("SP500-v0", None);
                  ("Random-v0", None)]
                 [("RNN", None); ("LSTM", None)] None ["mse"] 2))
    as (calls & Hrun & Hpanels);
    [ by_evaluation | by_evaluation | by_evaluation | by_evaluation
    | reflexivity | | by_decision | by_decision | ].
  { intros p k Hp Hk. each_member Hp; each_member Hk; by_evaluation. }
  exists calls. split; [exact Hrun|].
  rewrite (panels_of_table_titles _ _ _ _ _ Hpanels). reflexivity.
Defined.



(** ** The recurrent network: [predict] and [forecast] *)

Section Rnn.
Context {array pyfloat : Type}.
Variable np : rnn.Numpy array pyfloat.

Lemma rnn_bind_Ok {A B} (c : rnn.M array A) (k : A -> rnn.M array B) self b self' :
  rnn.bind array c k self = (Ok b, self') ->
  exists a self1, c self = (Ok a, self1) /\ k a self1 = (Ok b, self').
Proof.
  unfold rnn.bind. destruct (c self) as [[a|e] self1]; [|done]. eauto.
Qed.

Lemma rnn_getattr_Ok {A} name (proj : rnn.RNN array -> option A) self a self' :
  rnn.getattr array name proj self = (Ok a, self') ->
  proj self = Some a /\ self' = self.
Proof.
  unfold rnn.getattr. destruct (proj self); [|done].
  by intros [= -> ->].
Qed.

Lemma pure_rnn_ret {A} (a : A) : pure_rnn (rnn.ret array a).
Proof. done. Qed.

Lemma pure_rnn_raise {A} e : pure_rnn (@rnn.raise array A e).
Proof. done. Qed.

Lemma pure_rnn_lift {A} (r : result A) : pure_rnn (rnn.lift array r).
Proof. done. Qed.

Lemma pure_rnn_getattr {A} name (proj : rnn.RNN array -> option A) :
  pure_rnn (rnn.getattr array name proj).
Proof. intros self. unfold rnn.getattr. by destruct (proj self). Qed.

Lemma pure_rnn_bind {A B} (c : rnn.M array A) (k : A -> rnn.M array B) :
  pure_rnn c -> (forall a, pure_rnn (k a)) -> pure_rnn (rnn.bind array c k).
Proof.
  intros Hc Hk self. unfold rnn.bind. specialize (Hc self).
  destruct (c self) as [[a|e] self1]; cbn in Hc; subst self1; [|done].
  apply Hk.
Qed.

Ltac pure_rnn_steps :=
  repeat match goal with
    | |- pure_rnn (rnn.ret _ _) => apply pure_rnn_ret
    | |- pure_rnn (rnn.raise _ _) => apply pure_rnn_raise
    | |- pure_rnn (rnn.lift _ _) => apply pure_rnn_lift
    | |- pure_rnn (rnn.getattr _ _ _) => apply pure_rnn_getattr
    | |- pure_rnn (rnn.bind _ _ _) => apply pure_rnn_bind; [|intros ?]
    | |- pure_rnn (if ?c then _ else _) => destruct c
    end.

Lemma as_prediction_pure v : pure_rnn (rnn.as_prediction array pyfloat np v).
Proof. unfold rnn.as_prediction. pure_rnn_steps. Qed.

Lemma forecast_loop_pure steps v hid pred :
  pure_rnn (rnn.forecast_loop array pyfloat np steps v hid pred).
Proof.
  revert v hid pred. induction steps as [|steps IH]; intros v hid pred;
    cbn [rnn.forecast_loop]; pure_rnn_steps.
  - apply as_prediction_pure.
  - apply IH.
Qed.

(** After a bind whose continuation leaves the instance as it is, the
    instance is as the first computation leaves it. *)
Lemma snd_bind_pure {A B} (c : rnn.M array A) (k : A -> rnn.M array B) self :
  (forall a, pure_rnn (k a)) ->
  snd (rnn.bind array c k self) = snd (c self).
Proof.
  intros Hk. unfold rnn.bind.
  destruct (c self) as [[a|e] self1]; [|done]. apply Hk.
Qed.

(** The loop appends one element per iteration to the list it is given. *)
Lemma forecast_loop_appends steps v hid pred self pred' self' :
  rnn.forecast_loop array pyfloat np steps v hid pred self
  = (Ok pred', self') ->
  exists more, pred' = pred ++ more /\ length more = steps.
Proof.
  revert v hid pred self. induction steps as [|steps IH];
    intros v hid pred self; cbn [rnn.forecast_loop].
  - intros [= <- <-]. exists []. by rewrite app_nil_r.
  - intros (f & s1 & _ & H)%rnn_bind_Ok.
    apply rnn_bind_Ok in H as (p & s2 & _ & H).
    apply rnn_bind_Ok in H as (out & s3 & _ & H).
    apply rnn_bind_Ok in H as (q & s4 & _ & H).
    apply IH in H as (more & -> & Hlen).
    exists (q :: more). rewrite <- app_assoc. cbn. by rewrite Hlen.
Qed.

Lemma as_prediction_appended v self p self' mm :
  rnn.m array self = Some mm ->
  rnn.as_prediction array pyfloat np v self = (Ok p, self') ->
  appended np mm v p.
Proof.
  intros Hm. unfold rnn.as_prediction.
  intros (mm' & s1 & [Hm' ->]%rnn_getattr_Ok & H)%rnn_bind_Ok.
  assert (mm' = mm) as -> by congruence. unfold appended.
  destruct (Z.eqb_spec mm 1) as [->|Hne].
  - rewrite decide_True by done.
    apply rnn_bind_Ok in H as (f & s2 & Hf & H).
    unfold rnn.lift in Hf. injection Hf as Hf _.
    injection H as <- _. eauto.
  - rewrite decide_False by done. by injection H as <- _.
Qed.

(** [observe] assigns [x] and [hid] only. *)
Lemma observe_keeps_m v self :
  rnn.m array (snd (rnn.observe array pyfloat np v self)) = rnn.m array self.
Proof.
  unfold rnn.observe, rnn.bind, rnn.getattr, rnn.setattr, rnn.lift, rnn.ret.
  destruct (rnn._update_x array self) as [update|]; [|done].
  destruct (rnn.x array self) as [self_x|]; [|done].
  destruct (update _ _ _) as [new_x|e]; [|done].
  cbn [rnn.set_x rnn._fast_predict rnn.params rnn.hid].
  destruct (rnn._fast_predict array self) as [predict|]; [|reflexivity].
  cbn [rnn.set_x rnn._fast_predict rnn.params rnn.hid].
  destruct (rnn.params array self) as [self_params|]; [|reflexivity].
  cbn [rnn.set_x rnn._fast_predict rnn.params rnn.hid].
  destruct (rnn.hid array self) as [self_hid|]; [|reflexivity].
  destruct (predict _ _ _) as [out|e]; reflexivity.
Qed.

(** X23: on an instance that [initialize] has not been called on
    ([initialized] is false, as [__init__] leaves it), [predict] and
    [forecast] raise [AssertionError] whatever the observation and the
    timeline, and leave the instance as it is. *)
Theorem rnn_predicts_only_once_initialized v timeline self :
  rnn.initialized array self = Some false ->
  rnn.predict array pyfloat np v timeline self
  = (Raise (AssertionError ""), self) /\
  rnn.forecast array pyfloat np v timeline self
  = (Raise (AssertionError ""), self).
Proof.
  intros Hinit.
  unfold rnn.predict, rnn.forecast, rnn.bind, rnn.getattr.
  by rewrite Hinit.
Qed.

(** X24: a forecast that returns has [timeline] elements, and one element
    when [timeline] is below 1: the prediction for the next step is always
    made and returned. *)
Theorem forecast_has_timeline_elements v timeline self pred self' :
  rnn.forecast array pyfloat np v timeline self = (Ok pred, self') ->
  length pred = Z.to_nat (Z.max 1 timeline).
Proof.
  unfold rnn.forecast.
  intros (init & s1 & _ & H)%rnn_bind_Ok.
  destruct init; [|discriminate H].
  apply rnn_bind_Ok in H as (y & s2 & _ & H).
  apply rnn_bind_Ok in H as (hid & s3 & _ & H).
  apply rnn_bind_Ok in H as (p & s4 & _ & H).
  apply forecast_loop_appends in H as (more & -> & Hlen).
  cbn. rewrite Hlen. lia.
Qed.

(** X25: [forecast] advances the instance exactly as [predict] does,
    whatever the two timelines and whether the calls return or raise: the
    window and the hidden state take in the observation once, and the
    steps that [forecast] looks ahead run on a local copy of the hidden
    state. *)
Theorem forecast_advances_as_predict v timeline timeline' self :
  snd (rnn.forecast array pyfloat np v timeline self)
  = snd (rnn.predict array pyfloat np v timeline' self).
Proof.
  unfold rnn.forecast, rnn.predict, rnn.bind at 1 5.
  destruct (rnn.getattr array "initialized" _ self) as [[[|]|e] s1];
    [|done|done].
  apply snd_bind_pure. intros y. pure_rnn_steps.
  - apply as_prediction_pure.
  - apply forecast_loop_pure.
Qed.

(** X26: when [predict] returns the output [y] for an observation, a
    forecast for the same observation on the same instance that returns
    begins with [y]: converted to a float if the output dimension [m] is
    1, as it is otherwise. *)
Theorem forecast_begins_with_the_prediction v timeline timeline' self mm
    y self1 pred self2 :
  rnn.m array self = Some mm ->
  rnn.predict array pyfloat np v timeline' self = (Ok y, self1) ->
  rnn.forecast array pyfloat np v timeline self = (Ok pred, self2) ->
  exists p rest, pred = p :: rest /\ appended np mm y p.
Proof.
  intros Hm. unfold rnn.predict, rnn.forecast.
  intros (init & s1 & Hinit & Hy)%rnn_bind_Ok
         (init' & s1' & Hinit' & H)%rnn_bind_Ok.
  rewrite Hinit in Hinit'. injection Hinit' as <- <-.
  destruct init; [|discriminate Hy].
  apply rnn_getattr_Ok in Hinit as [_ ->].
  apply rnn_bind_Ok in H as (y' & s2 & Hy' & H).
  rewrite Hy in Hy'. injection Hy' as <- <-.
  apply rnn_bind_Ok in H as (hid & s3 & [_ ->]%rnn_getattr_Ok & H).
  apply rnn_bind_Ok in H as (p & s4 & Hp & H).
  apply forecast_loop_appends in H as (more & -> & _).
  exists p, more. split; [done|].
  eapply as_prediction_appended; [|exact Hp].
  rewrite <- Hm.
  replace self1 with (snd (rnn.observe array pyfloat np v self))
    by by rewrite Hy.
  apply observe_keeps_m.
Qed.

End Rnn.

Lemma rnn_predicts_only_once_initialized_witness :
  rnn.predict Z Z scalars 5 1 (rnn.__init__ Z)
  = (Raise (AssertionError ""), rnn.__init__ Z) /\
  rnn.forecast Z Z scalars 5 3 (rnn.__init__ Z)
  = (Raise (AssertionError ""), rnn.__init__ Z).
Proof.
  split.
  - apply (rnn_predicts_only_once_initialized scalars 5 1 (rnn.__init__ Z)).
    reflexivity.
  - apply (rnn_predicts_only_once_initialized scalars 5 3 (rnn.__init__ Z)).
    reflexivity.
Defined.

Lemma forecast_has_timeline_elements_witness :
  length [rnn.PArray (pyfloat := Z) 6; rnn.PArray 12] = 2%nat /\
  length [rnn.PFloat (array := Z) 6] = 1%nat.
Proof.
  split.
  - apply (forecast_has_timeline_elements scalars 3 2
             (initialized_rnn 2 (0, 1, 2, 0)) _
             (rnn.set_hid Z 3 (rnn.set_x Z 3 (initialized_rnn 2 (0, 1, 2, 0))))).
    reflexivity.
  - apply (forecast_has_timeline_elements scalars 3 (-4)
             (initialized_rnn 1 (0, 1, 2, 0)) _
             (rnn.set_hid Z 3 (rnn.set_x Z 3 (initialized_rnn 1 (0, 1, 2, 0))))).
    reflexivity.
Defined.

Lemma forecast_begins_with_the_prediction_witness :
  exists p rest,
    [rnn.PFloat (array := Z) 6; rnn.PFloat 18] = p :: rest /\
    appended scalars 1 6 p.
Proof.
  apply (forecast_begins_with_the_prediction scalars 3 2 1
           (initialized_rnn 1 (1, 1, 2, 0)) 1 6
           (rnn.set_hid Z 3 (rnn.set_x Z 3 (initialized_rnn 1 (1, 1, 2, 0))))
           _
           (rnn.set_hid Z 3 (rnn.set_x Z 3 (initialized_rnn 1 (1, 1, 2, 0)))));
    reflexivity.
Defined.
